(** * Service Manager: settings validation, platform storage entity,
      public-plan visibility reconciler and broker reconciliation driver.

    Shallow embedding of
    - [operations/config.go]            (module [operations]),
    - the [postgres] platform entity    (module [postgres]),
    - the [interceptors] public-plan visibility reconciler
                                         (module [interceptors]),
    together with a model of the broker reconciliation driver
    (module [broker]). *)

From Stdlib Require Import ZArith List String Bool Lia Arith DecimalString.
Import ListNotations.
Local Open Scope Z_scope.

(* ===================================================================== *)
(** ** Package [operations]: settings envelope and its validation        *)
(* ===================================================================== *)

Module operations.

(** [time.Duration] is a signed 64-bit count of nanoseconds; only
    comparisons are performed on it, so it is kept as an integer. *)
Definition Duration := Z.

Definition Nanosecond : Duration := 1.
Definition Second : Duration := 1000000000 * Nanosecond.
Definition Hour : Duration := 3600 * Second.

Definition minTimePeriod : Duration := Nanosecond.
Definition defaultActionTimeout : Duration := 12 * Hour.
Definition defaultOperationLifespan : Duration := 7 * 24 * Hour.
Definition defaultCleanupInterval : Duration := 24 * Hour.

(** [minTimePeriod] printed with the verb [%s] ([Duration.String]). *)
Definition minTimePeriod_String : string := "1ns"%string.

Record PoolSettings := mkPoolSettings {
  Resource : string;
  Size : Z
}.

Record Settings := mkSettings {
  ActionTimeout : Duration;
  ReconciliationOperationTimeout : Duration;
  CleanupInterval : Duration;
  Lifespan : Duration;
  ReschedulingInterval : Duration;
  PollingInterval : Duration;
  DefaultPoolSize : Z;
  Pools : list PoolSettings
}.

Definition DefaultSettings : Settings :=
  {| ActionTimeout := defaultActionTimeout;
     CleanupInterval := defaultCleanupInterval;
     Lifespan := defaultOperationLifespan;
     DefaultPoolSize := 20;
     Pools := [];
     ReconciliationOperationTimeout := defaultOperationLifespan;
     ReschedulingInterval := 1 * Second;
     PollingInterval := 1 * Second |}.

(** A Go [error] value: [None] is [nil], [Some msg] carries the text
    built by [fmt.Errorf]. *)
Definition error := option string.

Definition must_be_larger (field : string) : error :=
  Some ("validate Settings: "%string ++ field ++ " must be larger than "%string
          ++ minTimePeriod_String)%string.

(** [(ps *PoolSettings) Validate] *)
Definition PoolSettings_Validate (ps : PoolSettings) : error :=
  if Size ps <=? 0 then
    Some ("validate Settings: Pool size for resource '"%string ++ Resource ps
            ++ "' must be larger than 0"%string)%string
  else None.

(** The [for _, pool := range s.Pools] loop of [Settings.Validate]. *)
Fixpoint Validate_pools (pools : list PoolSettings) : error :=
  match pools with
  | [] => None
  | pool :: rest =>
      match PoolSettings_Validate pool with
      | Some err => Some err
      | None => Validate_pools rest
      end
  end.

(** [(s *Settings) Validate] *)
Definition Validate (s : Settings) : error :=
  if ActionTimeout s <=? minTimePeriod then
    must_be_larger "ActionTimeout"%string
  else if CleanupInterval s <=? minTimePeriod then
    must_be_larger "CleanupInterval"%string
  else if ReconciliationOperationTimeout s <=? minTimePeriod then
    must_be_larger "ReconciliationOperationTimeout"%string
  else if ReschedulingInterval s <=? minTimePeriod then
    must_be_larger "ReschedulingInterval"%string
  else if PollingInterval s <=? minTimePeriod then
    must_be_larger "PollingInterval"%string
  else if DefaultPoolSize s <=? 0 then
    Some "validate Settings: DefaultPoolSize must be larger than 0"%string
  else Validate_pools (Pools s).

(** The reading of section 4.9 of the specification: every duration is
    strictly positive, and so are the pool sizes. *)
Definition all_positive (s : Settings) : Prop :=
  0 < ActionTimeout s /\ 0 < ReconciliationOperationTimeout s /\
  0 < CleanupInterval s /\ 0 < Lifespan s /\
  0 < ReschedulingInterval s /\ 0 < PollingInterval s /\
  0 < DefaultPoolSize s /\ Forall (fun p => 0 < Size p) (Pools s).

(** What the code accepts for the five durations it inspects. *)
Definition checked_durations_above_min (s : Settings) : Prop :=
  minTimePeriod < ActionTimeout s /\
  minTimePeriod < CleanupInterval s /\
  minTimePeriod < ReconciliationOperationTimeout s /\
  minTimePeriod < ReschedulingInterval s /\
  minTimePeriod < PollingInterval s.

Definition pools_positive (s : Settings) : Prop :=
  0 < DefaultPoolSize s /\ Forall (fun p => 0 < Size p) (Pools s).

(** Settings with a one-nanosecond action timeout, everything else at
    its default. *)
Definition one_ns_action_timeout : Settings :=
  {| ActionTimeout := Nanosecond;
     CleanupInterval := defaultCleanupInterval;
     Lifespan := defaultOperationLifespan;
     DefaultPoolSize := 20;
     Pools := [];
     ReconciliationOperationTimeout := defaultOperationLifespan;
     ReschedulingInterval := 1 * Second;
     PollingInterval := 1 * Second |}.

End operations.

(* ===================================================================== *)
(** ** Package [types]: the domain objects the code reads and builds     *)
(* ===================================================================== *)

Module types.

(** [time.Time], kept as nanoseconds since the epoch (UTC). *)
Definition Time := Z.

(** [types.Labels] is [map[string][]string]; the code only asks for its
    length. *)
Definition Labels := list (string * list string).

(** The fields of [types.Base] the code under study reads or writes;
    the labels of an object are kept beside it ([Visibility_Labels]) and
    a platform carries none here, [FromObject] and [ToObject] copying
    none. *)
Record Base := mkBase {
  ID : string;
  CreatedAt : Time;
  UpdatedAt : Time;
  PagingSequence : Z;
  Ready : bool
}.

Record Basic := mkBasic {
  Username : string;
  Password : string
}.

(** [Checksum] is a [[32]byte] array; [Basic] is a pointer and may be
    [nil]. *)
Record Credentials := mkCredentials {
  Basic_ : option Basic;
  Checksum : list Z
}.

Record Platform := mkPlatform {
  Platform_Base : Base;
  Type_ : string;
  Name : string;
  Description : string;
  Platform_Credentials : option Credentials;
  Active : bool;
  LastActive : Time
}.

Record Visibility := mkVisibility {
  Visibility_Base : Base;
  PlatformID : string;
  ServicePlanID : string;
  Visibility_Labels : Labels
}.

Record ServicePlan := mkServicePlan {
  ServicePlan_ID : string;
  CatalogID : string;
  CatalogName : string;
  Free : bool;
  SupportedPlatformTypes : list string
}.

Record ServiceOffering := mkServiceOffering {
  ServiceOffering_ID : string;
  ServiceOffering_CatalogID : string;
  ServiceOffering_CatalogName : string;
  Plans : list ServicePlan
}.

Record ServiceBroker := mkServiceBroker {
  ServiceBroker_ID : string;
  ServiceBroker_Name : string;
  BrokerURL : string;
  Services : list ServiceOffering
}.

(** [types.Object] is an interface; the implementations that reach the
    code of this development are listed, the others share [OtherObject]. *)
Inductive Object :=
| PlatformObject (p : Platform)
| VisibilityObject (v : Visibility)
| ServiceBrokerObject (b : ServiceBroker)
| OtherObject (kind : string).

End types.

(* ===================================================================== *)
(** ** Package [postgres]: the platform storage entity                   *)
(* ===================================================================== *)

Module postgres.

Record NullString := mkNullString {
  String_ : string;
  Valid : bool
}.

Record BaseEntity := mkBaseEntity {
  ID : string;
  CreatedAt : types.Time;
  UpdatedAt : types.Time;
  PagingSequence : Z;
  Ready : bool
}.

Record Platform := mkPlatform {
  Platform_BaseEntity : BaseEntity;
  Type_ : string;
  Name : string;
  Description : NullString;
  Username : string;
  Password : string;
  Checksum : list Z;
  Active : bool;
  LastActive : types.Time
}.

(** [copy(checksum[:], src)] into a zeroed [[32]byte]: the first 32 bytes
    of [src], padded with zeros. *)
Definition copy32 (src : list Z) : list Z :=
  firstn 32 src ++ repeat 0 (32 - List.length (firstn 32 src))%nat.

Section Entity.

(** [toNullString] belongs to the package but its body is not part of the
    sources at hand; it is a parameter of the conversion. *)
Variable toNullString : string -> NullString.

(** [(p *Platform) FromObject]; [None] is the [(nil, false)] result. *)
Definition FromObject (object : types.Object) : option Platform :=
  match object with
  | types.PlatformObject platform =>
      let result :=
        {| Platform_BaseEntity :=
             {| ID := types.ID (types.Platform_Base platform);
                CreatedAt := types.CreatedAt (types.Platform_Base platform);
                UpdatedAt := types.UpdatedAt (types.Platform_Base platform);
                PagingSequence :=
                  types.PagingSequence (types.Platform_Base platform);
                Ready := types.Ready (types.Platform_Base platform) |};
           Type_ := types.Type_ platform;
           Name := types.Name platform;
           Description := toNullString (types.Description platform);
           Username := EmptyString;
           Password := EmptyString;
           Checksum := [];
           Active := types.Active platform;
           LastActive := types.LastActive platform |} in
      let result :=
        if negb (String.eqb (types.Description platform) EmptyString) then
          {| Platform_BaseEntity := Platform_BaseEntity result;
             Type_ := Type_ result;
             Name := Name result;
             Description :=
               {| String_ := String_ (Description result); Valid := true |};
             Username := Username result;
             Password := Password result;
             Checksum := Checksum result;
             Active := Active result;
             LastActive := LastActive result |}
        else result in
      let result :=
        match types.Platform_Credentials platform with
        | Some credentials =>
            match types.Basic_ credentials with
            | Some basic =>
                {| Platform_BaseEntity := Platform_BaseEntity result;
                   Type_ := Type_ result;
                   Name := Name result;
                   Description := Description result;
                   Username := types.Username basic;
                   Password := types.Password basic;
                   Checksum := types.Checksum credentials;
                   Active := Active result;
                   LastActive := LastActive result |}
            | None => result
            end
        | None => result
        end in
      Some result
  | _ => None
  end.

End Entity.

(** [(p *Platform) ToObject] *)
Definition ToObject (p : Platform) : types.Object :=
  let checksum := copy32 (Checksum p) in
  types.PlatformObject
    {| types.Platform_Base :=
         {| types.ID := ID (Platform_BaseEntity p);
            types.CreatedAt := CreatedAt (Platform_BaseEntity p);
            types.UpdatedAt := UpdatedAt (Platform_BaseEntity p);
            types.PagingSequence := PagingSequence (Platform_BaseEntity p);
            types.Ready := Ready (Platform_BaseEntity p) |};
       types.Type_ := Type_ p;
       types.Name := Name p;
       types.Description := String_ (Description p);
       types.Platform_Credentials :=
         Some {| types.Basic_ :=
                   Some {| types.Username := Username p;
                           types.Password := Password p |};
                 types.Checksum := checksum |};
       types.Active := Active p;
       types.LastActive := LastActive p |}.

(** The helper as the [database/sql] idiom writes it: the text is kept
    and the flag records that it is not empty. *)
Definition toNullString_keep (s : string) : NullString :=
  {| String_ := s; Valid := negb (String.eqb s EmptyString) |}.

(** A platform with basic credentials, and a stored row whose
    credential columns are empty. *)
Definition sample_platform : types.Platform :=
  {| types.Platform_Base :=
       {| types.ID := "p-1"%string; types.CreatedAt := 10; types.UpdatedAt := 20;
          types.PagingSequence := 3; types.Ready := true |};
     types.Type_ := "kubernetes"%string;
     types.Name := "k8s-eu"%string;
     types.Description := "cluster"%string;
     types.Platform_Credentials :=
       Some {| types.Basic_ :=
                 Some {| types.Username := "admin"%string;
                         types.Password := "secret"%string |};
               types.Checksum := repeat 7 32%nat |};
     types.Active := true;
     types.LastActive := 30 |}.

End postgres.

(* ===================================================================== *)
(** ** Packages [query] and [storage]: criteria and the repository       *)
(* ===================================================================== *)

Module query.

Inductive Operator := EqualsOperator | InOperator.

Record Criterion := mkCriterion {
  Op : Operator;
  LeftOp : string;
  RightOp : list string
}.

(** [query.ByField(op, leftOp, rightOp...)] *)
Definition ByField (op : Operator) (leftOp : string)
    (rightOp : list string) : Criterion :=
  mkCriterion op leftOp rightOp.

Definition mem (x : string) (l : list string) : bool :=
  existsb (String.eqb x) l.

(** A field predicate holds of a row when the named column exists and
    its value is one of the right operands ([eq] is called with a single
    operand). *)
Definition holds (c : Criterion) (column : string -> option string) : bool :=
  match column (LeftOp c) with
  | Some x => mem x (RightOp c)
  | None => false
  end.

End query.

Module storage.

Inductive error :=
| NotFound
| ConflictError
| Failure (msg : string).

(** Modelled from the spec: the transactional [Repository] of section
    4.1, whose implementation is not among the sources.  Rows are kept in
    insertion order, which is the order of [paging_sequence]; [id] is the
    primary key of a table.  Next to the rows the state carries what the
    code reads from its environment: the results the random source will
    hand to [uuid.NewV4] and the reading of the clock.  Of the errors of
    section 4.1 only [NotFound] and [ConflictError] are modelled; the
    code passes any error of [List], [Delete] and [Create] on, so the
    theorems about [resync] speak of the runs that succeed and promise no
    success. *)
Record State := mkState {
  visibilities : list types.Visibility;
  platforms : list types.Platform;
  next_sequence : Z;
  uuids : list string;
  now : types.Time
}.

(** Computations that run against the repository and may stop with an
    error, as Go functions returning [error] do. *)
Definition M (A : Type) : Type := State -> error + (A * State).

Definition ret {A} (a : A) : M A := fun s => inr (a, s).

Definition bind {A B} (m : M A) (k : A -> M B) : M B :=
  fun s => match m s with
           | inl e => inl e
           | inr (a, s') => k a s'
           end.

Definition fail {A} (e : error) : M A := fun _ => inl e.

Definition visibility_ID (v : types.Visibility) : string :=
  types.ID (types.Visibility_Base v).

Definition platform_ID (p : types.Platform) : string :=
  types.ID (types.Platform_Base p).

Definition visibility_column (v : types.Visibility) (name : string)
  : option string :=
  if String.eqb name "id"%string then Some (visibility_ID v)
  else if String.eqb name "service_plan_id"%string then Some (types.ServicePlanID v)
  else if String.eqb name "platform_id"%string then Some (types.PlatformID v)
  else None.

Definition platform_column (p : types.Platform) (name : string)
  : option string :=
  if String.eqb name "id"%string then Some (platform_ID p)
  else if String.eqb name "type"%string then Some (types.Type_ p)
  else if String.eqb name "name"%string then Some (types.Name p)
  else None.

(** Modelled from the spec: [txStorage.List(ctx, types.VisibilityType,
    criterion)] of the Repository contract (4.1), the rows the criterion
    selects in paging order. *)
Definition List_Visibility (c : query.Criterion) : M (list types.Visibility) :=
  fun s => inr (filter (fun v => query.holds c (visibility_column v))
                  (visibilities s), s).

(** Modelled from the spec: [txStorage.List(ctx, types.PlatformType,
    criterion)] of the Repository contract (4.1). *)
Definition List_Platform (c : query.Criterion) : M (list types.Platform) :=
  fun s => inr (filter (fun p => query.holds c (platform_column p))
                  (platforms s), s).

(** Modelled from the spec: [txStorage.Delete(ctx, types.VisibilityType,
    criterion)] of the Repository contract (4.1): removes the rows the
    criterion selects, [NotFound] when it selects none. *)
Definition Delete_Visibility (c : query.Criterion) : M unit :=
  fun s =>
    if existsb (fun v => query.holds c (visibility_column v)) (visibilities s)
    then inr (tt,
              {| visibilities :=
                   filter (fun v => negb (query.holds c (visibility_column v)))
                     (visibilities s);
                 platforms := platforms s;
                 next_sequence := next_sequence s;
                 uuids := uuids s;
                 now := now s |})
    else inl NotFound.

(** The row as the storage keeps it: [paging_sequence] is assigned on
    insert. *)
Definition stored (seq : Z) (v : types.Visibility) : types.Visibility :=
  {| types.Visibility_Base :=
       {| types.ID := visibility_ID v;
          types.CreatedAt := types.CreatedAt (types.Visibility_Base v);
          types.UpdatedAt := types.UpdatedAt (types.Visibility_Base v);
          types.PagingSequence := seq;
          types.Ready := types.Ready (types.Visibility_Base v) |};
     types.PlatformID := types.PlatformID v;
     types.ServicePlanID := types.ServicePlanID v;
     types.Visibility_Labels := types.Visibility_Labels v |}.

(** Modelled from the spec: [txStorage.Create(ctx, visibility)] of the
    Repository contract (4.1): a second row with the same [id] is a unique
    violation ([ConflictError]). *)
Definition Create_Visibility (v : types.Visibility) : M types.Visibility :=
  fun s =>
    if query.mem (visibility_ID v) (map visibility_ID (visibilities s))
    then inl ConflictError
    else
      let row := stored (next_sequence s) v in
      inr (row,
           {| visibilities := visibilities s ++ [row];
              platforms := platforms s;
              next_sequence := next_sequence s + 1;
              uuids := uuids s;
              now := now s |}).

(** [uuid.NewV4()]: the next result of the random source; reading it can
    fail. *)
Definition uuid_NewV4 : M string :=
  fun s =>
    match uuids s with
    | [] => inl (Failure "could not generate GUID for visibility"%string)
    | u :: rest =>
        inr (u, {| visibilities := visibilities s;
                   platforms := platforms s;
                   next_sequence := next_sequence s;
                   uuids := rest;
                   now := now s |})
    end.

(** [time.Now().UTC()] *)
Definition time_Now : M types.Time := fun s => inr (now s, s).

End storage.

(* ===================================================================== *)
(** ** Package [interceptors]: the public-plan visibility reconciler     *)
(* ===================================================================== *)

Module interceptors.

Import storage.

Notation "x <- m ;; k" := (bind m (fun x => k))
  (at level 61, m at next level, right associativity).
Notation "m ;;; k" := (bind m (fun _ => k))
  (at level 61, right associativity).

Definition CreateBrokerPublicPlanInterceptorName : string :=
  "CreateBrokerPublicPlansInterceptor"%string.
Definition UpdateBrokerPublicPlanInterceptorName : string :=
  "UpdateBrokerPublicPlansInterceptor"%string.

(** [type publicPlanProcessor func(broker, catalogService, catalogPlan)
    (bool, error)] *)
Definition publicPlanProcessor : Type :=
  types.ServiceBroker -> types.ServiceOffering -> types.ServicePlan ->
  error + bool.

(** [len(visibility.Labels) == 0] *)
Definition unlabeled (v : types.Visibility) : bool :=
  (List.length (types.Visibility_Labels v) =? 0)%nat.

(** [for _, x := range xs { if err := body(x); err != nil { return err } }] *)
Fixpoint for_each {A} (xs : list A) (body : A -> M unit) : M unit :=
  match xs with
  | [] => ret tt
  | x :: rest => body x ;;; for_each rest body
  end.

(** [persistVisibility] *)
Definition persistVisibility (platformID planID brokerID : string) : M unit :=
  UUID <- uuid_NewV4 ;;
  currentTime <- time_Now ;;
  let visibility :=
    {| types.Visibility_Base :=
         {| types.ID := UUID;
            types.UpdatedAt := currentTime;
            types.CreatedAt := currentTime;
            types.PagingSequence := 0;
            types.Ready := false |};
       types.ServicePlanID := planID;
       types.PlatformID := platformID;
       types.Visibility_Labels := [] |} in
  Create_Visibility visibility ;;;
  ret tt.

(** The loop of [resyncPublicPlanVisibilities]; the local
    [publicVisibilityExists] is threaded through the iterations. *)
Fixpoint resyncPublicPlanVisibilities_loop (isPlanPublic : bool)
    (planVisibilities : list types.Visibility)
    (publicVisibilityExists : bool) : M bool :=
  match planVisibilities with
  | [] => ret publicVisibilityExists
  | visibility :: rest =>
      let byVisibilityID :=
        query.ByField query.EqualsOperator "id"%string [visibility_ID visibility] in
      let shouldDeleteVisibility := true in
      let '(publicVisibilityExists, shouldDeleteVisibility) :=
        if isPlanPublic then
          if String.eqb (types.PlatformID visibility) ""%string then (true, false)
          else (publicVisibilityExists, shouldDeleteVisibility)
        else
          if negb (String.eqb (types.PlatformID visibility) ""%string)
          then (publicVisibilityExists, false)
          else (publicVisibilityExists, shouldDeleteVisibility) in
      (if shouldDeleteVisibility
       then Delete_Visibility byVisibilityID
       else ret tt) ;;;
      resyncPublicPlanVisibilities_loop isPlanPublic rest
        publicVisibilityExists
  end.

(** [resyncPublicPlanVisibilities] *)
Definition resyncPublicPlanVisibilities
    (planVisibilities : list types.Visibility) (isPlanPublic : bool)
    (planID brokerID : string) : M unit :=
  publicVisibilityExists <-
    resyncPublicPlanVisibilities_loop isPlanPublic planVisibilities false ;;
  if isPlanPublic && negb publicVisibilityExists
  then persistVisibility ""%string planID brokerID
  else ret tt.

(** [platformsAnyMatchesVisibility], scanning from index [i]. *)
Fixpoint platformsAnyMatchesVisibility_from (i : Z)
    (platforms : list types.Platform) (visibility : types.Visibility)
  : Z * bool :=
  match platforms with
  | [] => (-1, false)
  | platform :: rest =>
      if String.eqb (types.PlatformID visibility) (platform_ID platform)
      then (i, true)
      else platformsAnyMatchesVisibility_from (i + 1) rest visibility
  end.

Definition platformsAnyMatchesVisibility (platforms : list types.Platform)
    (visibility : types.Visibility) : Z * bool :=
  platformsAnyMatchesVisibility_from 0 platforms visibility.

(** [append(s[:idx], s[idx+1:]...)] *)
Definition remove_at {A} (idx : Z) (s : list A) : list A :=
  firstn (Z.to_nat idx) s ++ skipn (Z.to_nat (idx + 1)) s.

(** The first loop of [resyncPlanVisibilitiesWithSupportedPlatforms]; the
    local [supportedPlatforms] shrinks as platforms get covered. *)
Fixpoint resyncPlanVisibilitiesWithSupportedPlatforms_loop
    (isPlanPublic : bool) (planVisibilities : list types.Visibility)
    (supportedPlatforms : list types.Platform) : M (list types.Platform) :=
  match planVisibilities with
  | [] => ret supportedPlatforms
  | visibility :: rest =>
      let shouldDeleteVisibility := true in
      let '(idx, matches) :=
        platformsAnyMatchesVisibility supportedPlatforms visibility in
      let '(supportedPlatforms, shouldDeleteVisibility) :=
        if isPlanPublic then
          if matches && unlabeled visibility
          then (remove_at idx supportedPlatforms, false)
          else (supportedPlatforms, shouldDeleteVisibility)
        else
          if matches && negb (unlabeled visibility)
          then (supportedPlatforms, false)
          else (supportedPlatforms, shouldDeleteVisibility) in
      (if shouldDeleteVisibility
       then
         let byVisibilityID :=
           query.ByField query.EqualsOperator "id"%string
             [visibility_ID visibility] in
         Delete_Visibility byVisibilityID
       else ret tt) ;;;
      resyncPlanVisibilitiesWithSupportedPlatforms_loop isPlanPublic rest
        supportedPlatforms
  end.

(** [resyncPlanVisibilitiesWithSupportedPlatforms] *)
Definition resyncPlanVisibilitiesWithSupportedPlatforms
    (planVisibilities : list types.Visibility) (isPlanPublic : bool)
    (planID brokerID : string) (supportedPlatformTypes : list string)
  : M unit :=
  let bySupportedPlatformTypes :=
    query.ByField query.InOperator "type"%string supportedPlatformTypes in
  platformList <- List_Platform bySupportedPlatformTypes ;;
  let supportedPlatforms := platformList in
  supportedPlatforms <-
    resyncPlanVisibilitiesWithSupportedPlatforms_loop isPlanPublic
      planVisibilities supportedPlatforms ;;
  if isPlanPublic
  then for_each supportedPlatforms
         (fun platform =>
            persistVisibility (platform_ID platform) planID brokerID)
  else ret tt.

Section Resync.

Variable isCatalogPlanPublicFunc : publicPlanProcessor.
Variable supportedPlatforms : types.ServicePlan -> list string.

(** The body of the inner loop of [resync]: one plan of one offering. *)
Definition resync_plan (broker : types.ServiceBroker)
    (serviceOffering : types.ServiceOffering)
    (servicePlan : types.ServicePlan) : M unit :=
  let planID := types.ServicePlan_ID servicePlan in
  match isCatalogPlanPublicFunc broker serviceOffering servicePlan with
  | inl err => fail err
  | inr isPlanPublic =>
      let byServicePlanID :=
        query.ByField query.EqualsOperator "service_plan_id"%string [planID] in
      planVisibilities <- List_Visibility byServicePlanID ;;
      let supportedPlatformTypes := supportedPlatforms servicePlan in
      if (List.length supportedPlatformTypes =? 0)%nat
      then resyncPublicPlanVisibilities planVisibilities isPlanPublic planID
             (types.ServiceBroker_ID broker)
      else resyncPlanVisibilitiesWithSupportedPlatforms planVisibilities
             isPlanPublic planID (types.ServiceBroker_ID broker)
             supportedPlatformTypes
  end.

(** [resync] *)
Definition resync (broker : types.ServiceBroker) : M unit :=
  for_each (types.Services broker)
    (fun serviceOffering =>
       for_each (types.Plans serviceOffering)
         (fun servicePlan => resync_plan broker serviceOffering servicePlan)).

(** [publicPlanCreateInterceptor.OnTxCreate]: [f] is the rest of the
    chain; the object it was given must be a broker (the type assertion
    panics otherwise). *)
Definition OnTxCreate (f : types.Object -> M types.Object)
    (obj : types.Object) : M types.Object :=
  newObject <- f obj ;;
  match obj with
  | types.ServiceBrokerObject broker => resync broker ;;; ret newObject
  | _ => fail (Failure "interface conversion: not *types.ServiceBroker"%string)
  end.

(** [publicPlanUpdateInterceptor.OnTxUpdate]: here the object the chain
    returned is the one resynced. *)
Definition OnTxUpdate (f : types.Object -> types.Object -> M types.Object)
    (oldObj newObj : types.Object) : M types.Object :=
  result <- f oldObj newObj ;;
  match result with
  | types.ServiceBrokerObject broker => resync broker ;;; ret result
  | _ => fail (Failure "interface conversion: not *types.ServiceBroker"%string)
  end.

End Resync.

End interceptors.

(* ===================================================================== *)
(** ** The catalog differ and the broker reconciliation driver           *)
(* ===================================================================== *)

Module broker.

(** Modelled from the spec: the catalog fetcher (4.3), the catalog differ
    (4.4) and the broker reconciliation driver (4.6) are not among the
    sources; only their API tests are.  The definitions of this module
    follow sections 3, 4.1, 4.3, 4.4, 4.6 and 7 of the specification;
    where the specification leaves the order of two steps open, the
    order the broker tests observe is taken (a request refused for its
    content type or body reaches no broker; a request that passes
    validation reaches the broker before the rows are written). *)
Record CatalogPlan := mkCatalogPlan {
  plan_id : string;
  plan_name : string
}.

Record CatalogService := mkCatalogService {
  service_id : string;
  service_name : string;
  service_plans : list CatalogPlan
}.

(** The catalog of a broker, also the blob kept on the broker row. *)
Definition Catalog := list CatalogService.

Record BrokerRow := mkBrokerRow {
  broker_id : string;
  broker_name : string;
  broker_url : string;
  broker_description : string;
  broker_username : string;
  broker_password : string;
  broker_catalog : Catalog
}.

Record OfferingRow := mkOfferingRow {
  offering_id : string;
  offering_catalog_id : string;
  offering_catalog_name : string;
  offering_broker_id : string
}.

Record PlanRow := mkPlanRow {
  plan_row_id : string;
  plan_catalog_id : string;
  plan_catalog_name : string;
  plan_offering_id : string
}.

Record InstanceRow := mkInstanceRow {
  instance_id : string;
  instance_plan_id : string
}.

Record Db := mkDb {
  brokers : list BrokerRow;
  offerings : list OfferingRow;
  plans : list PlanRow;
  instances : list InstanceRow
}.

(** What a registered broker answers on [/v2/catalog]. *)
Inductive CatalogReply :=
| ReplyCatalog (c : Catalog)
| ReplyStatus (code : Z)
| ReplyMalformed.

Record BrokerServer := mkBrokerServer {
  server_url : string;
  server_username : string;
  server_password : string;
  server_reply : CatalogReply
}.

(** The storage, the brokers that can be reached, the catalog requests
    sent so far (oldest first) and the number of identifiers handed out. *)
Record World := mkWorld {
  db : Db;
  servers : list BrokerServer;
  catalog_requests : list string;
  id_counter : nat
}.

(** Error kinds of section 7 and the success statuses of section 6. *)
Inductive Status :=
| OK
| Created
| BadRequest
| NotFound
| Conflict
| ExistingReferenceEntity
| UnsupportedMediaType
| BadGateway
| InternalServerError.

Definition status_code (s : Status) : Z :=
  match s with
  | OK => 200
  | Created => 201
  | BadRequest => 400
  | NotFound => 404
  | Conflict => 409
  | ExistingReferenceEntity => 409
  | UnsupportedMediaType => 415
  | BadGateway => 502
  | InternalServerError => 500
  end.

Inductive CredentialsJSON :=
| CredentialsNotAnObject
| CredentialsBasic (username password : string).

(** The fields of a request body the driver looks at; [id], [created_at],
    [updated_at] and [services] may be present and are ignored. *)
Record Body := mkBody {
  body_id : option string;
  body_name : option string;
  body_broker_url : option string;
  body_description : option string;
  body_credentials : option CredentialsJSON;
  body_services_present : bool
}.

Record Request := mkRequest {
  content_type_json : bool;
  payload : option Body
}.

Definition empty_body : Body :=
  {| body_id := None; body_name := None; body_broker_url := None;
     body_description := None; body_credentials := None;
     body_services_present := false |}.

Definition nonempty (s : string) : bool := negb (String.eqb s ""%string).

Definition valid_credentials (c : CredentialsJSON) : bool :=
  match c with
  | CredentialsNotAnObject => false
  | CredentialsBasic username password => nonempty username && nonempty password
  end.

Definition valid_optional {A} (ok : A -> bool) (x : option A) : bool :=
  match x with
  | Some a => ok a
  | None => true
  end.

Definition valid_required {A} (ok : A -> bool) (x : option A) : bool :=
  match x with
  | Some a => ok a
  | None => false
  end.

Definition valid_patch_body (b : Body) : bool :=
  valid_optional nonempty (body_name b) &&
  valid_optional nonempty (body_broker_url b) &&
  valid_optional valid_credentials (body_credentials b).

Definition valid_post_body (b : Body) : bool :=
  valid_required nonempty (body_name b) &&
  valid_required nonempty (body_broker_url b) &&
  valid_required valid_credentials (body_credentials b).

Definition from_option {A} (x : option A) (default : A) : A :=
  match x with
  | Some a => a
  | None => default
  end.

(** Name, URL, description and credentials are updatable; the rest of
    the row is kept. *)
Definition apply_body (old : BrokerRow) (b : Body) : BrokerRow :=
  {| broker_id := broker_id old;
     broker_name := from_option (body_name b) (broker_name old);
     broker_url := from_option (body_broker_url b) (broker_url old);
     broker_description :=
       from_option (body_description b) (broker_description old);
     broker_username :=
       match body_credentials b with
       | Some (CredentialsBasic username _) => username
       | _ => broker_username old
       end;
     broker_password :=
       match body_credentials b with
       | Some (CredentialsBasic _ password) => password
       | _ => broker_password old
       end;
     broker_catalog := broker_catalog old |}.

(** *** Catalog fetcher (4.3) *)

Definition catalog_endpoint (url : string) : string :=
  (url ++ "/v2/catalog"%string)%string.

Definition log_request (url : string) (w : World) : World :=
  {| db := db w;
     servers := servers w;
     catalog_requests := catalog_requests w ++ [catalog_endpoint url];
     id_counter := id_counter w |}.

(** Modelled from the spec: the catalog fetcher (4.3).  One GET, no
    retry: an unreachable broker is [BadGateway], a refusal or a body that
    does not parse is [BadRequest]. *)
Definition fetch_catalog (url username password : string) (w : World)
  : (Status + Catalog) * World :=
  let w' := log_request url w in
  match find (fun srv => String.eqb (server_url srv) url) (servers w) with
  | None => (inl BadGateway, w')
  | Some srv =>
      if String.eqb (server_username srv) username
         && String.eqb (server_password srv) password
      then match server_reply srv with
           | ReplyCatalog c => (inr c, w')
           | ReplyStatus _ => (inl BadRequest, w')
           | ReplyMalformed => (inl BadRequest, w')
           end
      else (inl BadRequest, w')
  end.

(** *** Catalog differ (4.4) *)

Definition valid_plan (p : CatalogPlan) : bool :=
  nonempty (plan_id p) && nonempty (plan_name p).

Definition valid_service (sv : CatalogService) : bool :=
  nonempty (service_id sv) && nonempty (service_name sv)
  && forallb valid_plan (service_plans sv).

Definition valid_catalog (c : Catalog) : bool := forallb valid_service c.

Record Delta := mkDelta {
  offeringsToCreate : list CatalogService;
  offeringsToUpdate : list (OfferingRow * CatalogService);
  offeringsToDelete : list OfferingRow;
  plansToCreate : list (string * CatalogPlan);
  plansToUpdate : list (PlanRow * CatalogPlan);
  plansToDelete : list PlanRow
}.

Definition find_offering (catalog_id : string) (stored : list OfferingRow)
  : option OfferingRow :=
  find (fun o => String.eqb (offering_catalog_id o) catalog_id) stored.

Definition find_service (catalog_id : string) (c : Catalog)
  : option CatalogService :=
  find (fun sv => String.eqb (service_id sv) catalog_id) c.

Definition plans_of (o : OfferingRow) (stored : list PlanRow) : list PlanRow :=
  filter (fun p => String.eqb (plan_offering_id p) (offering_id o)) stored.

(** Plans of one catalog service that have no stored counterpart, tagged
    with the [catalog_id] of their offering. *)
Definition new_plans (stored_offerings : list OfferingRow)
    (stored_plans : list PlanRow) (sv : CatalogService)
  : list (string * CatalogPlan) :=
  match find_offering (service_id sv) stored_offerings with
  | None => map (fun cp => (service_id sv, cp)) (service_plans sv)
  | Some o =>
      map (fun cp => (service_id sv, cp))
        (filter (fun cp =>
                   negb (existsb (fun p => String.eqb (plan_catalog_id p)
                                             (plan_id cp))
                           (plans_of o stored_plans)))
           (service_plans sv))
  end.

Definition matched_plans (c : Catalog) (stored_plans : list PlanRow)
    (o : OfferingRow) : list (PlanRow * CatalogPlan) :=
  match find_service (offering_catalog_id o) c with
  | None => []
  | Some sv =>
      flat_map (fun p =>
                  match find (fun cp => String.eqb (plan_id cp)
                                          (plan_catalog_id p))
                          (service_plans sv) with
                  | Some cp => [(p, cp)]
                  | None => []
                  end)
        (plans_of o stored_plans)
  end.

Definition removed_plans (c : Catalog) (stored_plans : list PlanRow)
    (o : OfferingRow) : list PlanRow :=
  match find_service (offering_catalog_id o) c with
  | None => plans_of o stored_plans
  | Some sv =>
      filter (fun p =>
                negb (existsb (fun cp => String.eqb (plan_id cp)
                                           (plan_catalog_id p))
                        (service_plans sv)))
        (plans_of o stored_plans)
  end.

(** Modelled from the spec: the catalog differ (4.4).  Offerings match
    by [catalog_id] within the broker, plans by [catalog_id] within their
    offering. *)
Definition diff (c : Catalog) (stored_offerings : list OfferingRow)
    (stored_plans : list PlanRow) : Delta :=
  {| offeringsToCreate :=
       filter (fun sv =>
                 match find_offering (service_id sv) stored_offerings with
                 | None => true
                 | Some _ => false
                 end) c;
     offeringsToUpdate :=
       flat_map (fun o =>
                   match find_service (offering_catalog_id o) c with
                   | Some sv => [(o, sv)]
                   | None => []
                   end) stored_offerings;
     offeringsToDelete :=
       filter (fun o =>
                 match find_service (offering_catalog_id o) c with
                 | None => true
                 | Some _ => false
                 end) stored_offerings;
     plansToCreate := flat_map (new_plans stored_offerings stored_plans) c;
     plansToUpdate := flat_map (matched_plans c stored_plans) stored_offerings;
     plansToDelete := flat_map (removed_plans c stored_plans) stored_offerings |}.

(** *** Transactions on the repository (4.1) *)

Section Driver.

(** The identifiers handed out to new rows, in order. *)
Variable new_id : nat -> string.

(** A step inside a transaction: it works on the rows and on the
    identifier counter, and may stop with an error. *)
Definition Tx (A : Type) : Type := Db * nat -> Status + (A * (Db * nat)).

Definition tx_ret {A} (a : A) : Tx A := fun s => inr (a, s).

Definition tx_bind {A B} (m : Tx A) (k : A -> Tx B) : Tx B :=
  fun s => match m s with
           | inl e => inl e
           | inr (a, s') => k a s'
           end.

Definition tx_fail {A} (e : Status) : Tx A := fun _ => inl e.

Fixpoint tx_each {A} (xs : list A) (step : A -> Tx unit) : Tx unit :=
  match xs with
  | [] => tx_ret tt
  | x :: rest => tx_bind (step x) (fun _ => tx_each rest step)
  end.

Definition fresh_id : Tx string :=
  fun s => inr (new_id (snd s), (fst s, S (snd s))).

Definition offerings_of (b : string) (d : Db) : list OfferingRow :=
  filter (fun o => String.eqb (offering_broker_id o) b) (offerings d).

Definition plans_of_broker (b : string) (d : Db) : list PlanRow :=
  flat_map (fun o => plans_of o (plans d)) (offerings_of b d).

(** Modelled from the spec: insert of an offering (3, 4.1): [id] is the
    primary key, [catalog_id] and [catalog_name] are unique within the
    broker. *)
Definition insert_offering (b : string) (sv : CatalogService) : Tx unit :=
  tx_bind fresh_id (fun id s =>
    let d := fst s in
    if existsb (fun o => String.eqb (offering_id o) id) (offerings d)
       || existsb (fun o => String.eqb (offering_catalog_id o) (service_id sv)
                            || String.eqb (offering_catalog_name o)
                                 (service_name sv))
            (offerings_of b d)
    then inl Conflict
    else inr (tt,
              ({| brokers := brokers d;
                  offerings :=
                    offerings d ++
                    [{| offering_id := id;
                        offering_catalog_id := service_id sv;
                        offering_catalog_name := service_name sv;
                        offering_broker_id := b |}];
                  plans := plans d;
                  instances := instances d |}, snd s))).

(** Modelled from the spec: insert of a plan under the offering of
    broker [b] with the given [catalog_id] (3, 4.1): [catalog_id] and
    [catalog_name] are unique within the offering. *)
Definition insert_plan (b : string) (item : string * CatalogPlan) : Tx unit :=
  let '(offering_catalog, cp) := item in
  tx_bind fresh_id (fun id s =>
    let d := fst s in
    match find_offering offering_catalog (offerings_of b d) with
    | None => inl InternalServerError
    | Some o =>
        if existsb (fun p => String.eqb (plan_row_id p) id) (plans d)
           || existsb (fun p => String.eqb (plan_catalog_id p) (plan_id cp)
                                || String.eqb (plan_catalog_name p)
                                     (plan_name cp))
                (plans_of o (plans d))
        then inl Conflict
        else inr (tt,
                  ({| brokers := brokers d;
                      offerings := offerings d;
                      plans :=
                        plans d ++
                        [{| plan_row_id := id;
                            plan_catalog_id := plan_id cp;
                            plan_catalog_name := plan_name cp;
                            plan_offering_id := offering_id o |}];
                      instances := instances d |}, snd s))
    end).

(** A rename: the new [catalog_name] must not be taken by another
    offering of the broker. *)
Definition update_offering (item : OfferingRow * CatalogService) : Tx unit :=
  let '(o, sv) := item in
  fun s =>
    let d := fst s in
    if existsb (fun o' => negb (String.eqb (offering_id o') (offering_id o))
                          && String.eqb (offering_catalog_name o')
                               (service_name sv))
         (offerings_of (offering_broker_id o) d)
    then inl Conflict
    else inr (tt,
              ({| brokers := brokers d;
                  offerings :=
                    map (fun o' =>
                           if String.eqb (offering_id o') (offering_id o)
                           then {| offering_id := offering_id o';
                                   offering_catalog_id := offering_catalog_id o';
                                   offering_catalog_name := service_name sv;
                                   offering_broker_id := offering_broker_id o' |}
                           else o') (offerings d);
                  plans := plans d;
                  instances := instances d |}, snd s)).

Definition update_plan (item : PlanRow * CatalogPlan) : Tx unit :=
  let '(p, cp) := item in
  fun s =>
    let d := fst s in
    if existsb (fun p' => negb (String.eqb (plan_row_id p') (plan_row_id p))
                          && String.eqb (plan_offering_id p')
                               (plan_offering_id p)
                          && String.eqb (plan_catalog_name p') (plan_name cp))
         (plans d)
    then inl Conflict
    else inr (tt,
              ({| brokers := brokers d;
                  offerings := offerings d;
                  plans :=
                    map (fun p' =>
                           if String.eqb (plan_row_id p') (plan_row_id p)
                           then {| plan_row_id := plan_row_id p';
                                   plan_catalog_id := plan_catalog_id p';
                                   plan_catalog_name := plan_name cp;
                                   plan_offering_id := plan_offering_id p' |}
                           else p') (plans d);
                  instances := instances d |}, snd s)).

(** Modelled from the spec: the foreign key of instances (3, 4.1): a
    plan that an instance references is not deleted. *)
Definition delete_plan (p : PlanRow) : Tx unit :=
  fun s =>
    let d := fst s in
    if existsb (fun i => String.eqb (instance_plan_id i) (plan_row_id p))
         (instances d)
    then inl ExistingReferenceEntity
    else inr (tt,
              ({| brokers := brokers d;
                  offerings := offerings d;
                  plans :=
                    filter (fun p' =>
                              negb (String.eqb (plan_row_id p') (plan_row_id p)))
                      (plans d);
                  instances := instances d |}, snd s)).

Definition delete_offering (o : OfferingRow) : Tx unit :=
  fun s =>
    let d := fst s in
    if existsb (fun p => String.eqb (plan_offering_id p) (offering_id o))
         (plans d)
    then inl ExistingReferenceEntity
    else inr (tt,
              ({| brokers := brokers d;
                  offerings :=
                    filter (fun o' =>
                              negb (String.eqb (offering_id o') (offering_id o)))
                      (offerings d);
                  plans := plans d;
                  instances := instances d |}, snd s)).

Definition find_broker (id : string) (d : Db) : option BrokerRow :=
  find (fun b => String.eqb (broker_id b) id) (brokers d).

(** Write of the broker row; [name] is unique among brokers. *)
Definition update_broker_row (row : BrokerRow) : Tx unit :=
  fun s =>
    let d := fst s in
    if existsb (fun b => negb (String.eqb (broker_id b) (broker_id row))
                         && String.eqb (broker_name b) (broker_name row))
         (brokers d)
    then inl Conflict
    else inr (tt,
              ({| brokers :=
                    map (fun b => if String.eqb (broker_id b) (broker_id row)
                                  then row else b) (brokers d);
                  offerings := offerings d;
                  plans := plans d;
                  instances := instances d |}, snd s)).

Definition insert_broker_row (row : BrokerRow) : Tx unit :=
  fun s =>
    let d := fst s in
    if existsb (fun b => String.eqb (broker_id b) (broker_id row)
                         || String.eqb (broker_name b) (broker_name row))
         (brokers d)
    then inl Conflict
    else inr (tt,
              ({| brokers := brokers d ++ [row];
                  offerings := offerings d;
                  plans := plans d;
                  instances := instances d |}, snd s)).

Definition delete_broker_row (id : string) : Tx unit :=
  fun s =>
    let d := fst s in
    inr (tt,
         ({| brokers :=
               filter (fun b => negb (String.eqb (broker_id b) id)) (brokers d);
             offerings := offerings d;
             plans := plans d;
             instances := instances d |}, snd s)).

Definition store_catalog (id : string) (c : Catalog) : Tx unit :=
  fun s =>
    let d := fst s in
    inr (tt,
         ({| brokers :=
               map (fun b =>
                      if String.eqb (broker_id b) id
                      then {| broker_id := broker_id b;
                              broker_name := broker_name b;
                              broker_url := broker_url b;
                              broker_description := broker_description b;
                              broker_username := broker_username b;
                              broker_password := broker_password b;
                              broker_catalog := c |}
                      else b) (brokers d);
             offerings := offerings d;
             plans := plans d;
             instances := instances d |}, snd s)).

(** Modelled from the spec: persisting the delta (4.6), inserts before
    updates before deletes. *)
Definition apply_delta (b : string) (delta : Delta) : Tx unit :=
  tx_bind (tx_each (offeringsToCreate delta) (insert_offering b)) (fun _ =>
  tx_bind (tx_each (plansToCreate delta) (insert_plan b)) (fun _ =>
  tx_bind (tx_each (offeringsToUpdate delta) update_offering) (fun _ =>
  tx_bind (tx_each (plansToUpdate delta) update_plan) (fun _ =>
  tx_bind (tx_each (plansToDelete delta) delete_plan) (fun _ =>
  tx_each (offeringsToDelete delta) delete_offering))))).

(** Diff the fetched catalog against the rows of the broker, persist the
    delta and store the blob on the broker row. *)
Definition reconcile (b : string) (c : Catalog) : Tx unit :=
  fun s =>
    let d := fst s in
    let delta := diff c (offerings_of b d) (plans_of_broker b d) in
    tx_bind (apply_delta b delta) (fun _ => store_catalog b c) s.

(** Modelled from the spec: [InTransaction] (4.1); when the function
    returns an error the rows are what they were when the transaction was
    opened. *)
Definition InTransaction (ok : Status) (f : Tx unit) (w : World)
  : Status * World :=
  match f (db w, id_counter w) with
  | inl e => (e, w)
  | inr (_, (d, n)) =>
      (ok, {| db := d; servers := servers w;
              catalog_requests := catalog_requests w; id_counter := n |})
  end.

(** *** Broker reconciliation driver (4.6) *)

(** Modelled from the spec: [PATCH /v1/service_brokers/<id>] (4.6).  The
    request is validated, the broker looked up, the catalog fetched from
    the URL the broker has after the update, and the rows are written in
    one transaction. *)
Definition PATCH (id : string) (req : Request) (w : World) : Status * World :=
  if negb (content_type_json req) then (UnsupportedMediaType, w)
  else
    match payload req with
    | None => (BadRequest, w)
    | Some body =>
        if negb (valid_patch_body body) then (BadRequest, w)
        else
          match find_broker id (db w) with
          | None => (NotFound, w)
          | Some old =>
              let updated := apply_body old body in
              let '(fetched, w1) :=
                fetch_catalog (broker_url updated) (broker_username updated)
                  (broker_password updated) w in
              match fetched with
              | inl failure => (failure, w1)
              | inr catalog =>
                  if negb (valid_catalog catalog) then (BadRequest, w1)
                  else
                    InTransaction OK
                      (tx_bind (update_broker_row updated) (fun _ =>
                       reconcile id catalog)) w1
              end
          end
    end.

(** Modelled from the spec: [POST /v1/service_brokers] (4.6). *)
Definition POST (req : Request) (w : World) : Status * World :=
  if negb (content_type_json req) then (UnsupportedMediaType, w)
  else
    match payload req with
    | None => (BadRequest, w)
    | Some body =>
        if negb (valid_post_body body) then (BadRequest, w)
        else
          let id := new_id (id_counter w) in
          let row :=
            apply_body
              {| broker_id := id; broker_name := ""%string; broker_url := ""%string;
                 broker_description := ""%string; broker_username := ""%string;
                 broker_password := ""%string; broker_catalog := [] |} body in
          let '(fetched, w1) :=
            fetch_catalog (broker_url row) (broker_username row)
              (broker_password row) w in
          match fetched with
          | inl failure => (failure, w1)
          | inr catalog =>
              if negb (valid_catalog catalog) then (BadRequest, w1)
              else
                InTransaction Created
                  (tx_bind fresh_id (fun _ =>
                   tx_bind (insert_broker_row row) (fun _ =>
                   reconcile id catalog))) w1
          end
    end.

(** Modelled from the spec: [DELETE /v1/service_brokers/<id>] (4.6): the
    plans and offerings of the broker go with it, unless an instance
    references one of the plans. *)
Definition DELETE (id : string) (w : World) : Status * World :=
  match find_broker id (db w) with
  | None => (NotFound, w)
  | Some _ =>
      InTransaction OK
        (fun s =>
           let d := fst s in
           tx_bind (tx_each (plans_of_broker id d) delete_plan) (fun _ =>
           tx_bind (tx_each (offerings_of id d) delete_offering) (fun _ =>
           delete_broker_row id)) s) w
  end.

End Driver.

End broker.

(* ===================================================================== *)
(** ** Statements used by the theorems                                   *)
(* ===================================================================== *)

Module OperationsSpec.
Import operations.

(** All six durations above [minTimePeriod]. *)
Definition durations_above_min (s : Settings) : Prop :=
  checked_durations_above_min s /\ minTimePeriod < Lifespan s.

(** One of the inspected fields is at or below its bound. *)
Definition some_checked_field_too_small (s : Settings) : Prop :=
  ActionTimeout s <= minTimePeriod \/
  CleanupInterval s <= minTimePeriod \/
  ReconciliationOperationTimeout s <= minTimePeriod \/
  ReschedulingInterval s <= minTimePeriod \/
  PollingInterval s <= minTimePeriod \/
  DefaultPoolSize s <= 0 \/
  Exists (fun p => Size p <= 0) (Pools s).

End OperationsSpec.

Module PlatformSpec.

(** The fields a conversion to the storage entity and back has to keep. *)
Definition same_platform_fields (a b : types.Platform) : Prop :=
  types.ID (types.Platform_Base b) = types.ID (types.Platform_Base a) /\
  types.CreatedAt (types.Platform_Base b)
    = types.CreatedAt (types.Platform_Base a) /\
  types.UpdatedAt (types.Platform_Base b)
    = types.UpdatedAt (types.Platform_Base a) /\
  types.PagingSequence (types.Platform_Base b)
    = types.PagingSequence (types.Platform_Base a) /\
  types.Ready (types.Platform_Base b) = types.Ready (types.Platform_Base a) /\
  types.Type_ b = types.Type_ a /\
  types.Name b = types.Name a /\
  types.Description b = types.Description a /\
  types.Active b = types.Active a /\
  types.LastActive b = types.LastActive a.

(** The object is a platform whose [Credentials] and [Credentials.Basic]
    are set, with the given user name and password. *)
Definition has_basic (o : types.Object) (username password : string) : Prop :=
  exists p c b,
    o = types.PlatformObject p /\
    types.Platform_Credentials p = Some c /\
    types.Basic_ c = Some b /\
    types.Username b = username /\ types.Password b = password.

(** A stored row whose credential columns are empty. *)
Definition row_without_credentials : postgres.Platform :=
  {| postgres.Platform_BaseEntity :=
       {| postgres.ID := "p-2"%string; postgres.CreatedAt := 1;
          postgres.UpdatedAt := 2; postgres.PagingSequence := 9;
          postgres.Ready := false |};
     postgres.Type_ := "cloudfoundry"%string;
     postgres.Name := "cf"%string;
     postgres.Description := {| postgres.String_ := ""%string; postgres.Valid := false |};
     postgres.Username := ""%string;
     postgres.Password := ""%string;
     postgres.Checksum := [];
     postgres.Active := false;
     postgres.LastActive := 0 |}.

End PlatformSpec.

Module ReconcilerSpec.
Import storage interceptors.

Definition ids (vs : list types.Visibility) : list string :=
  map visibility_ID vs.

Definition platform_ids (ps : list types.Platform) : list string :=
  map platform_ID ps.

(** [id] is the primary key of both tables. *)
Definition well_formed (s : State) : Prop :=
  NoDup (ids (visibilities s)) /\ NoDup (platform_ids (platforms s)).

Definition of_plan (planID : string) (v : types.Visibility) : bool :=
  String.eqb (types.ServicePlanID v) planID.

Definition wildcard (v : types.Visibility) : bool :=
  String.eqb (types.PlatformID v) ""%string.

(** The visibility targets one of the platforms. *)
Definition supported_by (plats : list types.Platform)
    (v : types.Visibility) : bool :=
  query.mem (types.PlatformID v) (platform_ids plats).

Definition of_types (platformTypes : list string) (p : types.Platform) : bool :=
  query.mem (types.Type_ p) platformTypes.

(** The rows of a plan, and the platforms of the given types, as the
    repository lists them. *)
Definition plan_rows (planID : string) (s : State) : list types.Visibility :=
  filter (of_plan planID) (visibilities s).

Definition platforms_of_types (platformTypes : list string) (s : State)
  : list types.Platform :=
  filter (of_types platformTypes) (platforms s).

(** The rows left once the rows with the given ids are gone. *)
Definition without (dead : list string) (vs : list types.Visibility)
  : list types.Visibility :=
  filter (fun v => negb (query.mem (visibility_ID v) dead)) vs.

Definition set_visibilities (vs : list types.Visibility) (s : State) : State :=
  {| visibilities := vs;
     platforms := platforms s;
     next_sequence := next_sequence s;
     uuids := uuids s;
     now := now s |}.

(** A list split, in order, into the elements kept and those dropped. *)
Inductive Split {A : Type} : list A -> list A -> list A -> Prop :=
| Split_nil : Split [] [] []
| Split_keep x l k d : Split l k d -> Split (x :: l) (x :: k) d
| Split_drop x l k d : Split l k d -> Split (x :: l) k (x :: d).

(** What a run over the rows of one plan decides: the rows it leaves,
    the rows it deletes, and the platform ids it creates rows for. *)
Record Outcome := mkOutcome {
  kept : list types.Visibility;
  deleted : list types.Visibility;
  create : list string
}.

(** Case A, by target state: a public plan keeps its wildcard rows, a
    plan that is not public keeps the others. *)
Definition keepA (isPlanPublic : bool) (v : types.Visibility) : bool :=
  if isPlanPublic then wildcard v else negb (wildcard v).

Definition decideA (isPlanPublic : bool) (rows : list types.Visibility)
  : Outcome :=
  {| kept := filter (keepA isPlanPublic) rows;
     deleted := filter (fun v => negb (keepA isPlanPublic v)) rows;
     create :=
       if isPlanPublic && negb (existsb wildcard rows) then [""%string] else [] |}.

(** Case B, decision by decision as the loop takes them. *)
Fixpoint sweepB (isPlanPublic : bool) (rows : list types.Visibility)
    (plats : list types.Platform)
  : list types.Visibility * list types.Visibility * list types.Platform :=
  match rows with
  | [] => ([], [], plats)
  | v :: rest =>
      let '(idx, matches) := platformsAnyMatchesVisibility plats v in
      if isPlanPublic then
        if matches && unlabeled v
        then let '(k, d, r) := sweepB isPlanPublic rest (remove_at idx plats) in
             (v :: k, d, r)
        else let '(k, d, r) := sweepB isPlanPublic rest plats in
             (k, v :: d, r)
      else
        if matches && negb (unlabeled v)
        then let '(k, d, r) := sweepB isPlanPublic rest plats in
             (v :: k, d, r)
        else let '(k, d, r) := sweepB isPlanPublic rest plats in
             (k, v :: d, r)
  end.

Definition decideB (isPlanPublic : bool) (rows : list types.Visibility)
    (plats : list types.Platform) : Outcome :=
  let '(k, d, r) := sweepB isPlanPublic rows plats in
  {| kept := k; deleted := d;
     create := if isPlanPublic then platform_ids r else [] |}.

Definition decide (isPlanPublic : bool) (platformTypes : list string)
    (s : State) (planID : string) : Outcome :=
  if (List.length platformTypes =? 0)%nat
  then decideA isPlanPublic (plan_rows planID s)
  else decideB isPlanPublic (plan_rows planID s)
         (platforms_of_types platformTypes s).

Definition delete_each (dead : list string) : M unit :=
  for_each dead
    (fun id =>
       Delete_Visibility (query.ByField query.EqualsOperator "id"%string [id])).

Definition persist_each (planID brokerID : string) (targets : list string)
  : M unit :=
  for_each targets (fun pid => persistVisibility pid planID brokerID).

(** Carrying an outcome out: the deletions, then the creations. *)
Definition execute (planID brokerID : string) (o : Outcome) : M unit :=
  delete_each (ids (deleted o)) ;;; persist_each planID brokerID (create o).

(** A filter whose test sees the elements that came before. *)
Fixpoint filter_hist {A : Type} (keep : list A -> A -> bool)
    (before l : list A) : list A :=
  match l with
  | [] => []
  | x :: rest =>
      (if keep before x then [x] else [])
      ++ filter_hist keep (before ++ [x]) rest
  end.

(** [w] is an unlabeled row for the platform [v] targets. *)
Definition same_target (v w : types.Visibility) : bool :=
  unlabeled w && String.eqb (types.PlatformID w) (types.PlatformID v).

(** [w] targets the platform [v] targets. *)
Definition same_platform (v w : types.Visibility) : bool :=
  String.eqb (types.PlatformID w) (types.PlatformID v).

Definition covers (p : types.Platform) (v : types.Visibility) : bool :=
  unlabeled v && String.eqb (types.PlatformID v) (platform_ID p).

(** Case B, by position: for a public plan a row stays when it is
    unlabeled, targets a supported platform and no earlier unlabeled row
    targets the same platform; for a plan that is not public a row stays
    when it is labeled and targets a supported platform. *)
Definition keepB (isPlanPublic : bool) (plats : list types.Platform)
    (before : list types.Visibility) (v : types.Visibility) : bool :=
  if isPlanPublic
  then unlabeled v && supported_by plats v
       && negb (existsb (same_target v) before)
  else supported_by plats v && negb (unlabeled v).

(** The supported platforms no unlabeled row targets. *)
Definition uncovered (rows : list types.Visibility)
    (plats : list types.Platform) : list types.Platform :=
  filter (fun p => negb (existsb (covers p) rows)) plats.

(** The row [persistVisibility] leaves in the table. *)
Definition new_visibility (u : string) (t : types.Time) (seq : Z)
    (platformID planID : string) : types.Visibility :=
  {| types.Visibility_Base :=
       {| types.ID := u; types.CreatedAt := t; types.UpdatedAt := t;
          types.PagingSequence := seq; types.Ready := false |};
     types.PlatformID := platformID;
     types.ServicePlanID := planID;
     types.Visibility_Labels := [] |}.

(** The rows a run may create: unlabeled rows of the plan, one per
    target, in the order of the targets. *)
Definition created_for (planID : string) (targets : list string)
    (rows : list types.Visibility) : Prop :=
  map types.PlatformID rows = targets /\
  Forall (fun v => types.Visibility_Labels v = []
                   /\ types.ServicePlanID v = planID) rows.

(** The random source can serve [n] creations: it holds [n] results,
    distinct from each other and from the ids in the table. *)
Definition can_create (n : nat) (s : State) : Prop :=
  (n <= List.length (uuids s))%nat /\
  NoDup (firstn n (uuids s) ++ ids (visibilities s)).

(** All the plans of a broker, each with its offering, in the order
    [resync] visits them. *)
Definition broker_plans (broker : types.ServiceBroker)
  : list (types.ServiceOffering * types.ServicePlan) :=
  flat_map (fun o => map (fun p => (o, p)) (types.Plans o))
    (types.Services broker).

Definition plan_ids (l : list (types.ServiceOffering * types.ServicePlan))
  : list string :=
  map (fun x => types.ServicePlan_ID (snd x)) l.

Section Settled.

Variable isCatalogPlanPublicFunc : publicPlanProcessor.
Variable supportedPlatforms : types.ServicePlan -> list string.

(** The body of the loops of [resync], on a plan paired with its
    offering. *)
Definition run_plan (broker : types.ServiceBroker)
    (x : types.ServiceOffering * types.ServicePlan) : M unit :=
  resync_plan isCatalogPlanPublicFunc supportedPlatforms broker
    (fst x) (snd x).

(** Nothing is left to do for the plan: a run deletes no row and creates
    none. *)
Definition settled (broker : types.ServiceBroker)
    (x : types.ServiceOffering * types.ServicePlan) (s : State) : Prop :=
  exists b,
    isCatalogPlanPublicFunc broker (fst x) (snd x) = inr b /\
    deleted (decide b (supportedPlatforms (snd x)) s
               (types.ServicePlan_ID (snd x))) = [] /\
    create (decide b (supportedPlatforms (snd x)) s
              (types.ServicePlan_ID (snd x))) = [].

End Settled.

End ReconcilerSpec.

(** Concrete tables, plans and platforms. *)
Module Samples.
Import storage interceptors.

Definition row (id platformID planID : string) (labels : types.Labels)
  : types.Visibility :=
  {| types.Visibility_Base :=
       {| types.ID := id; types.CreatedAt := 0; types.UpdatedAt := 0;
          types.PagingSequence := 0; types.Ready := true |};
     types.PlatformID := platformID;
     types.ServicePlanID := planID;
     types.Visibility_Labels := labels |}.

Definition platform (id type_ : string) : types.Platform :=
  {| types.Platform_Base :=
       {| types.ID := id; types.CreatedAt := 0; types.UpdatedAt := 0;
          types.PagingSequence := 0; types.Ready := true |};
     types.Type_ := type_;
     types.Name := id;
     types.Description := ""%string;
     types.Platform_Credentials := None;
     types.Active := true;
     types.LastActive := 0 |}.

Definition tenant_label : types.Labels := [("tenant"%string, ["t1"%string])].

(** A free plan for every platform and a free plan for Cloud Foundry
    platforms only. *)
Definition plan_all : types.ServicePlan :=
  {| types.ServicePlan_ID := "plan-all"%string; types.CatalogID := "c-all"%string;
     types.CatalogName := "all"%string; types.Free := true;
     types.SupportedPlatformTypes := [] |}.

Definition plan_cf : types.ServicePlan :=
  {| types.ServicePlan_ID := "plan-cf"%string; types.CatalogID := "c-cf"%string;
     types.CatalogName := "cf-only"%string; types.Free := true;
     types.SupportedPlatformTypes := ["cloudfoundry"%string] |}.

Definition offering : types.ServiceOffering :=
  {| types.ServiceOffering_ID := "offering-1"%string;
     types.ServiceOffering_CatalogID := "c-offering"%string;
     types.ServiceOffering_CatalogName := "database"%string;
     types.Plans := [plan_all; plan_cf] |}.

Definition sample_broker : types.ServiceBroker :=
  {| types.ServiceBroker_ID := "broker-1"%string;
     types.ServiceBroker_Name := "b1"%string;
     types.BrokerURL := "http://srv"%string;
     types.Services := [offering] |}.

(** Free plans are public; a plan supports the platform types it
    declares. *)
Definition free_is_public : publicPlanProcessor :=
  fun _ _ plan => inr (types.Free plan).

Definition declared_platforms (plan : types.ServicePlan) : list string :=
  types.SupportedPlatformTypes plan.

Definition state_of (rows : list types.Visibility) (random : list string)
  : State :=
  {| visibilities := rows;
     platforms := [platform "cf-1"%string "cloudfoundry"%string;
                   platform "cf-2"%string "cloudfoundry"%string;
                   platform "k8s-1"%string "kubernetes"%string];
     next_sequence := 100;
     uuids := random;
     now := 1000 |}.

(** A labeled row of [plan_all] for one platform. *)
Definition labeled_specific : types.Visibility :=
  row "v1"%string "cf-1"%string "plan-all"%string tenant_label.

(** A labeled row of [plan_cf] for a supported platform. *)
Definition labeled_cf : types.Visibility :=
  row "v2"%string "cf-1"%string "plan-cf"%string tenant_label.

(** Two unlabeled wildcard rows of [plan_all]. *)
Definition wildcard_1 : types.Visibility := row "w1"%string ""%string "plan-all"%string [].
Definition wildcard_2 : types.Visibility := row "w2"%string ""%string "plan-all"%string [].

(** Two unlabeled rows of [plan_cf] for the same supported platform. *)
Definition first_cf : types.Visibility := row "d1"%string "cf-1"%string "plan-cf"%string [].
Definition second_cf : types.Visibility := row "d2"%string "cf-1"%string "plan-cf"%string [].

Definition state_labeled_specific : State :=
  state_of [labeled_specific] ["u1"%string; "u2"%string].

Definition state_labeled_cf : State :=
  state_of [labeled_cf] ["u1"%string; "u2"%string; "u3"%string].

Definition state_two_wildcards : State :=
  state_of [wildcard_1; wildcard_2] [].

Definition state_mixed : State :=
  state_of [labeled_specific; first_cf; second_cf; labeled_cf]
    ["u1"%string; "u2"%string; "u3"%string].

(** The table [resync] leaves when started on [state_mixed]. *)
Definition state_mixed_resynced : State :=
  {| visibilities :=
       [first_cf;
        ReconcilerSpec.new_visibility "u1"%string 1000 100 ""%string "plan-all"%string;
        ReconcilerSpec.new_visibility "u2"%string 1000 101 "cf-2"%string "plan-cf"%string];
     platforms := platforms state_mixed;
     next_sequence := 102;
     uuids := ["u3"%string];
     now := 1000 |}.

Fixpoint distinct (l : list string) : bool :=
  match l with
  | [] => true
  | x :: rest => negb (query.mem x rest) && distinct rest
  end.

End Samples.

Module BrokerSpec.
Import broker.

(** The fetched catalog lists, in the service that matches a stored
    offering of the broker, a plan under the name of a stored plan of that
    offering and with a [catalog_id] no stored plan of the offering has. *)
Definition plan_id_changed_name_kept (b : string) (d : Db) (c : Catalog)
  : Prop :=
  exists o p sv cp,
    find_offering (service_id sv) (offerings_of b d) = Some o /\
    In p (plans_of o (plans d)) /\
    In sv c /\ In cp (service_plans sv) /\
    plan_name cp = plan_catalog_name p /\
    (forall p', In p' (plans_of o (plans d)) ->
       plan_catalog_id p' <> plan_id cp).

(** The fetched catalog lists a service under the name of a stored
    offering of the broker and with a [catalog_id] no stored offering of
    the broker has. *)
Definition offering_id_changed_name_kept (b : string) (d : Db) (c : Catalog)
  : Prop :=
  exists o sv,
    In o (offerings_of b d) /\ In sv c /\
    service_name sv = offering_catalog_name o /\
    (forall o', In o' (offerings_of b d) ->
       offering_catalog_id o' <> service_id sv).

(** An instance references a plan the broker owns. *)
Definition plan_in_use (b : string) (d : Db) : Prop :=
  exists p i,
    In p (plans_of_broker b d) /\ In i (instances d) /\
    instance_plan_id i = plan_row_id p.

(** Identifiers [id-0], [id-1], ... *)
Definition sample_new_id (n : nat) : string :=
  ("id-"%string ++ NilEmpty.string_of_uint (Nat.to_uint n))%string.

Definition catalog_v1 : Catalog :=
  [ {| service_id := "svc-1"%string; service_name := "database"%string;
       service_plans := [ {| plan_id := "small-id"%string; plan_name := "small"%string |};
                          {| plan_id := "large-id"%string; plan_name := "large"%string |} ] |} ].

(** [catalog_v1] with the [catalog_id] of the first plan changed. *)
Definition catalog_plan_id_changed : Catalog :=
  [ {| service_id := "svc-1"%string; service_name := "database"%string;
       service_plans := [ {| plan_id := "new-id"%string; plan_name := "small"%string |};
                          {| plan_id := "large-id"%string; plan_name := "large"%string |} ] |} ].

(** [catalog_v1] with the [catalog_id] of the service changed. *)
Definition catalog_service_id_changed : Catalog :=
  [ {| service_id := "new-id"%string; service_name := "database"%string;
       service_plans := [ {| plan_id := "small-id"%string; plan_name := "small"%string |};
                          {| plan_id := "large-id"%string; plan_name := "large"%string |} ] |} ].

Definition server_with (c : Catalog) : BrokerServer :=
  {| server_url := "http://srv"%string; server_username := "u"%string;
     server_password := "p"%string; server_reply := ReplyCatalog c |}.

Definition post_b1 : Request :=
  {| content_type_json := true;
     payload :=
       Some {| body_id := None; body_name := Some "b1"%string;
               body_broker_url := Some "http://srv"%string;
               body_description := None;
               body_credentials := Some (CredentialsBasic "u"%string "p"%string);
               body_services_present := false |} |}.

Definition empty_patch : Request :=
  {| content_type_json := true; payload := Some empty_body |}.

Definition text_patch : Request :=
  {| content_type_json := false; payload := None |}.

(** A JSON content type with a body that is not JSON. *)
Definition malformed_patch : Request :=
  {| content_type_json := true; payload := None |}.

(** A JSON body whose [credentials] field is not an object. *)
Definition bad_credentials_patch : Request :=
  {| content_type_json := true;
     payload :=
       Some {| body_id := None; body_name := None; body_broker_url := None;
               body_description := None;
               body_credentials := Some CredentialsNotAnObject;
               body_services_present := false |} |}.

Definition world_empty : World :=
  {| db := {| brokers := []; offerings := []; plans := []; instances := [] |};
     servers := [server_with catalog_v1];
     catalog_requests := [];
     id_counter := 0 |}.

(** The world after broker [b1] has been registered; its row has the id
    [id-0], its plans the ids [id-2] and [id-3]. *)
Definition world_registered : World :=
  Eval vm_compute in snd (POST sample_new_id post_b1 world_empty).

(** The row of broker [b1] in [world_registered]. *)
Definition row_b1 : BrokerRow :=
  {| broker_id := "id-0"%string; broker_name := "b1"%string; broker_url := "http://srv"%string;
     broker_description := ""%string; broker_username := "u"%string;
     broker_password := "p"%string; broker_catalog := catalog_v1 |}.

Definition with_servers (l : list BrokerServer) (w : World) : World :=
  {| db := db w; servers := l; catalog_requests := catalog_requests w;
     id_counter := id_counter w |}.

Definition with_instances (l : list InstanceRow) (w : World) : World :=
  {| db := {| brokers := brokers (db w); offerings := offerings (db w);
              plans := plans (db w); instances := l |};
     servers := servers w; catalog_requests := catalog_requests w;
     id_counter := id_counter w |}.

(** The registered broker now serves a catalog in which the first plan
    has a new [catalog_id]. *)
Definition world_plan_id_changed : World :=
  with_servers [server_with catalog_plan_id_changed] world_registered.

Definition world_service_id_changed : World :=
  with_servers [server_with catalog_service_id_changed] world_registered.

(** An instance of the plan with id [id-2]. *)
Definition world_with_instance : World :=
  with_instances [ {| instance_id := "i-1"%string; instance_plan_id := "id-2"%string |} ]
    world_registered.

End BrokerSpec.

(* ===================================================================== *)
(** ** Package [util]: filter statements                                 *)
(* ===================================================================== *)

Module util.

(** [Operation] is an interface ([fmt.Stringer] with [IsMultivalue]); a
    value of it is given by what its methods return. *)
Record Operation := mkOperation {
  Operation_String : string;
  IsMultivalue : bool
}.

(** [Op] holds an interface value and may be [nil]. *)
Record FilterStatement := mkFilterStatement {
  LeftOp : string;
  Op : option Operation;
  RightOp : list string
}.

(** What a call returns: [nil], an error, or a panic of the runtime (a
    method called on a nil interface). *)
Inductive outcome :=
| Nil
| Error (msg : string)
| Panic.

(** [(fs FilterStatement) Validate]: [&&] evaluates the method call only
    when there is more than one right operand. *)
Definition Validate (fs : FilterStatement) : outcome :=
  if (1 <? List.length (RightOp fs))%nat then
    match Op fs with
    | None => Panic
    | Some op =>
        if negb (IsMultivalue op)
        then Error "multiple values received for single value operation"%string
        else Nil
    end
  else Nil.

(** [NewFilterStatement] *)
Definition NewFilterStatement (leftOp : string) (op : option Operation)
    (rightOp : list string) : FilterStatement :=
  {| LeftOp := leftOp; Op := op; RightOp := rightOp |}.

End util.

(* ===================================================================== *)
(** ** Further statements                                                *)
(* ===================================================================== *)

Module MoreSpec.
Import storage interceptors ReconcilerSpec.

(** The settings with another [Lifespan]. *)
Definition with_Lifespan (l : operations.Duration) (s : operations.Settings)
  : operations.Settings :=
  {| operations.ActionTimeout := operations.ActionTimeout s;
     operations.ReconciliationOperationTimeout :=
       operations.ReconciliationOperationTimeout s;
     operations.CleanupInterval := operations.CleanupInterval s;
     operations.Lifespan := l;
     operations.ReschedulingInterval := operations.ReschedulingInterval s;
     operations.PollingInterval := operations.PollingInterval s;
     operations.DefaultPoolSize := operations.DefaultPoolSize s;
     operations.Pools := operations.Pools s |}.

(** The settings with other pool overrides. *)
Definition with_Pools (pools : list operations.PoolSettings)
    (s : operations.Settings) : operations.Settings :=
  {| operations.ActionTimeout := operations.ActionTimeout s;
     operations.ReconciliationOperationTimeout :=
       operations.ReconciliationOperationTimeout s;
     operations.CleanupInterval := operations.CleanupInterval s;
     operations.Lifespan := operations.Lifespan s;
     operations.ReschedulingInterval := operations.ReschedulingInterval s;
     operations.PollingInterval := operations.PollingInterval s;
     operations.DefaultPoolSize := operations.DefaultPoolSize s;
     operations.Pools := pools |}.

(** The text of the error for a pool of the given resource. *)
Definition pool_error (resource : string) : string :=
  ("validate Settings: Pool size for resource '"%string ++ resource
     ++ "' must be larger than 0"%string)%string.

Definition sample_pools : list operations.PoolSettings :=
  [ {| operations.Resource := "/v1/service_brokers"%string; operations.Size := 5 |};
    {| operations.Resource := "/v1/service_instances"%string; operations.Size := 0 |};
    {| operations.Resource := "/v1/service_bindings"%string; operations.Size := -1 |} ].

(** The checksum of the credentials of a platform object. *)
Definition object_checksum (o : types.Object) : list Z :=
  match o with
  | types.PlatformObject p =>
      match types.Platform_Credentials p with
      | Some c => types.Checksum c
      | None => []
      end
  | _ => []
  end.

(** The platform has no basic credentials: [Credentials] is nil, or
    [Credentials.Basic] is. *)
Definition without_basic (p : types.Platform) : Prop :=
  match types.Platform_Credentials p with
  | None => True
  | Some c => types.Basic_ c = None
  end.

(** A platform registered without credentials. *)
Definition platform_without_credentials : types.Platform :=
  Samples.platform "cf-9"%string "cloudfoundry"%string.

(** A stored row with a description and a checksum of 32 bytes. *)
Definition full_row : postgres.Platform :=
  {| postgres.Platform_BaseEntity :=
       {| postgres.ID := "p-3"%string; postgres.CreatedAt := 5;
          postgres.UpdatedAt := 6; postgres.PagingSequence := 12;
          postgres.Ready := true |};
     postgres.Type_ := "kubernetes"%string;
     postgres.Name := "k8s"%string;
     postgres.Description :=
       {| postgres.String_ := "cluster"%string; postgres.Valid := true |};
     postgres.Username := "admin"%string;
     postgres.Password := "secret"%string;
     postgres.Checksum := repeat 9 32%nat;
     postgres.Active := true;
     postgres.LastActive := 7 |}.

(** The visibility targets the platform. *)
Definition targets (q : types.Platform) (v : types.Visibility) : bool :=
  String.eqb (types.PlatformID v) (platform_ID q).

(** A broker whose only offering has no plans. *)
Definition broker_without_plans : types.ServiceBroker :=
  {| types.ServiceBroker_ID := "broker-2"%string;
     types.ServiceBroker_Name := "b2"%string;
     types.BrokerURL := "http://srv2"%string;
     types.Services :=
       [ {| types.ServiceOffering_ID := "offering-2"%string;
            types.ServiceOffering_CatalogID := "c-offering-2"%string;
            types.ServiceOffering_CatalogName := "queue"%string;
            types.Plans := [] |} ] |}.

(** A publicness function that fails on paid plans. *)
Definition paid_fails : publicPlanProcessor :=
  fun _ _ plan =>
    if types.Free plan then inr true
    else inl (Failure "cannot tell whether the plan is public"%string).

Definition plan_paid : types.ServicePlan :=
  {| types.ServicePlan_ID := "plan-paid"%string; types.CatalogID := "c-paid"%string;
     types.CatalogName := "paid"%string; types.Free := false;
     types.SupportedPlatformTypes := [] |}.

(** A paid plan for Cloud Foundry platforms only, under the id of
    [Samples.plan_cf], and a broker that has just this plan. *)
Definition plan_paid_cf : types.ServicePlan :=
  {| types.ServicePlan_ID := "plan-cf"%string; types.CatalogID := "c-cf"%string;
     types.CatalogName := "cf-only"%string; types.Free := false;
     types.SupportedPlatformTypes := ["cloudfoundry"%string] |}.

Definition offering_paid_cf : types.ServiceOffering :=
  {| types.ServiceOffering_ID := "offering-5"%string;
     types.ServiceOffering_CatalogID := "c-offering-5"%string;
     types.ServiceOffering_CatalogName := "archive"%string;
     types.Plans := [plan_paid_cf] |}.

Definition broker_paid_cf : types.ServiceBroker :=
  {| types.ServiceBroker_ID := "broker-5"%string;
     types.ServiceBroker_Name := "b5"%string;
     types.BrokerURL := "http://srv5"%string;
     types.Services := [offering_paid_cf] |}.

(** The tables [resync] of [broker_paid_cf] leaves when started on
    [Samples.state_mixed]. *)
Definition state_paid_cf_resynced : State :=
  set_visibilities [Samples.labeled_specific; Samples.labeled_cf]
    Samples.state_mixed.

(** The rest of an interceptor chain that writes nothing and hands the
    object on. *)
Definition pass_on (obj : types.Object) : M types.Object :=
  fun s => inr (obj, s).

Definition pass_on_update (oldObj newObj : types.Object) : M types.Object :=
  fun s => inr (newObj, s).

(** The rest of a chain that fails on a unique violation. *)
Definition refuse (obj : types.Object) : M types.Object :=
  fun _ => inl ConflictError.

Definition refuse_update (oldObj newObj : types.Object) : M types.Object :=
  fun _ => inl ConflictError.

(** A broker whose first plan is the paid one. *)
Definition offering_paid_first : types.ServiceOffering :=
  {| types.ServiceOffering_ID := "offering-4"%string;
     types.ServiceOffering_CatalogID := "c-offering-4"%string;
     types.ServiceOffering_CatalogName := "search"%string;
     types.Plans := [plan_paid; Samples.plan_all] |}.

Definition broker_paid_first : types.ServiceBroker :=
  {| types.ServiceBroker_ID := "broker-4"%string;
     types.ServiceBroker_Name := "b4"%string;
     types.BrokerURL := "http://srv4"%string;
     types.Services := [offering_paid_first] |}.

End MoreSpec.

(* ===================================================================== *)
(** ** Settings validation                                               *)
(* ===================================================================== *)

Section OperationsFacts.
Import operations OperationsSpec.

Lemma PoolSettings_Validate_nil (ps : PoolSettings) :
  PoolSettings_Validate ps = None <-> 0 < Size ps.
Proof.
  unfold PoolSettings_Validate.
  destruct (Z.leb_spec (Size ps) 0); split; intros; try lia; congruence.
Qed.

Lemma Validate_pools_nil (pools : list PoolSettings) :
  Validate_pools pools = None <-> Forall (fun p => 0 < Size p) pools.
Proof.
  induction pools as [|pool rest IH]; simpl.
  - split; auto.
  - destruct (PoolSettings_Validate pool) eqn:E.
    + split; [discriminate|].
      intros H. inversion H; subst.
      apply PoolSettings_Validate_nil in H2. congruence.
    + apply PoolSettings_Validate_nil in E.
      rewrite IH. split; intros H.
      * constructor; assumption.
      * inversion H; assumption.
Qed.

(** What the code decides, field by field: [Lifespan] is not among the
    fields it reads. *)
Lemma Validate_nil_iff (s : Settings) :
  Validate s = None <-> checked_durations_above_min s /\ pools_positive s.
Proof.
  unfold Validate, checked_durations_above_min, pools_positive, must_be_larger.
  destruct (Z.leb_spec (ActionTimeout s) minTimePeriod);
    [split; [discriminate | lia]|].
  destruct (Z.leb_spec (CleanupInterval s) minTimePeriod);
    [split; [discriminate | lia]|].
  destruct (Z.leb_spec (ReconciliationOperationTimeout s) minTimePeriod);
    [split; [discriminate | lia]|].
  destruct (Z.leb_spec (ReschedulingInterval s) minTimePeriod);
    [split; [discriminate | lia]|].
  destruct (Z.leb_spec (PollingInterval s) minTimePeriod);
    [split; [discriminate | lia]|].
  destruct (Z.leb_spec (DefaultPoolSize s) 0);
    [split; [discriminate | lia]|].
  rewrite Validate_pools_nil. tauto.
Qed.

(** C8, as stated, fails: with an action timeout of one nanosecond every
    setting is greater than zero and [Validate] still returns an error. *)
Lemma Validate_one_nanosecond_rejected :
  all_positive one_ns_action_timeout /\
  Validate one_ns_action_timeout
    = Some "validate Settings: ActionTimeout must be larger than 1ns"%string.
Proof.
  split; [|reflexivity].
  unfold all_positive; simpl.
  repeat split; try reflexivity. constructor.
Qed.

(** C8 (amended): [Validate] returns nil when every duration is greater
    than [minTimePeriod] (one nanosecond) and the default pool size and
    every pool override are greater than zero; it returns an error when
    one of ActionTimeout, CleanupInterval, ReconciliationOperationTimeout,
    ReschedulingInterval or PollingInterval is at most one nanosecond,
    when the default pool size is at most zero, or when a pool override
    has a size of at most zero. *)
Theorem Validate_accepts_above_min_and_rejects_below (s : Settings) :
  (durations_above_min s -> pools_positive s -> Validate s = None) /\
  (some_checked_field_too_small s -> Validate s <> None).
Proof.
  split.
  - intros [Hd _] Hp. apply Validate_nil_iff. split; assumption.
  - intros Hbad Hnil. apply Validate_nil_iff in Hnil.
    destruct Hnil as [(H1 & H2 & H3 & H4 & H5) [H6 H7]].
    unfold some_checked_field_too_small in Hbad.
    destruct Hbad as [H|[H|[H|[H|[H|[H|H]]]]]]; try lia.
    apply Exists_exists in H. destruct H as (p & Hin & Hle).
    rewrite Forall_forall in H7. specialize (H7 p Hin). simpl in H7. lia.
Qed.

Lemma Validate_accepts_above_min_and_rejects_below_witness :
  Validate DefaultSettings = None /\ Validate one_ns_action_timeout <> None.
Proof.
  split.
  - apply (proj1 (Validate_accepts_above_min_and_rejects_below DefaultSettings)).
    + unfold durations_above_min, checked_durations_above_min; simpl.
      repeat split; reflexivity.
    + unfold pools_positive; simpl. split; [reflexivity | constructor].
  - apply (proj2 (Validate_accepts_above_min_and_rejects_below
                    one_ns_action_timeout)).
    left. simpl. unfold minTimePeriod. lia.
Defined.

End OperationsFacts.

(* ===================================================================== *)
(** ** Platform storage entity                                           *)
(* ===================================================================== *)

Section PlatformFacts.
Import PlatformSpec.

(** [ToObject] builds [Credentials] and [Credentials.Basic] from the
    columns of any row. *)
Lemma ToObject_has_basic (p : postgres.Platform) :
  has_basic (postgres.ToObject p) (postgres.Username p) (postgres.Password p).
Proof.
  unfold has_basic, postgres.ToObject.
  eexists _, _, _. repeat split; reflexivity.
Qed.

(** A [[32]byte] checksum survives the slice and the copy. *)
Lemma copy32_full (l : list Z) :
  List.length l = 32%nat -> postgres.copy32 l = l.
Proof.
  intros H. unfold postgres.copy32.
  rewrite firstn_all2 by lia. rewrite H. simpl. apply app_nil_r.
Qed.

(** C10: for a platform with [Credentials] and [Credentials.Basic] set,
    [FromObject] followed by [ToObject] keeps ID, CreatedAt, UpdatedAt,
    PagingSequence, Ready, Type, Name, Description, Active, LastActive and
    the basic user name and password (given that [toNullString] keeps the
    text it is handed); and [ToObject] returns a platform with
    [Credentials] and [Credentials.Basic] set for every stored row. *)
Theorem FromObject_ToObject_roundtrip
    (toNullString : string -> postgres.NullString)
    (platform : types.Platform) (credentials : types.Credentials)
    (basic : types.Basic) :
  (forall s, postgres.String_ (toNullString s) = s) ->
  types.Platform_Credentials platform = Some credentials ->
  types.Basic_ credentials = Some basic ->
  (exists entity platform',
      postgres.FromObject toNullString (types.PlatformObject platform)
        = Some entity /\
      postgres.ToObject entity = types.PlatformObject platform' /\
      same_platform_fields platform platform' /\
      has_basic (postgres.ToObject entity)
        (types.Username basic) (types.Password basic)) /\
  (forall row : postgres.Platform,
      has_basic (postgres.ToObject row)
        (postgres.Username row) (postgres.Password row)).
Proof.
  intros Hkeep Hc Hb. split; [|apply ToObject_has_basic].
  unfold postgres.FromObject. rewrite Hc, Hb.
  eexists. eexists. split; [reflexivity|].
  split; [reflexivity|].
  split.
  - unfold same_platform_fields.
    destruct (negb (String.eqb (types.Description platform) EmptyString));
      simpl; rewrite ?Hkeep; repeat split; reflexivity.
  - unfold has_basic, postgres.ToObject.
    eexists _, _, _. split; [reflexivity|].
    destruct (negb (String.eqb (types.Description platform) EmptyString));
      simpl; repeat split; reflexivity.
Qed.

Lemma FromObject_ToObject_roundtrip_witness :
  (exists entity platform',
      postgres.FromObject postgres.toNullString_keep
        (types.PlatformObject postgres.sample_platform) = Some entity /\
      postgres.ToObject entity = types.PlatformObject platform' /\
      same_platform_fields postgres.sample_platform platform' /\
      has_basic (postgres.ToObject entity) "admin"%string "secret"%string) /\
  has_basic (postgres.ToObject row_without_credentials) ""%string ""%string.
Proof.
  destruct (FromObject_ToObject_roundtrip postgres.toNullString_keep
              postgres.sample_platform
              {| types.Basic_ :=
                   Some {| types.Username := "admin"%string;
                           types.Password := "secret"%string |};
                 types.Checksum := repeat 7 32%nat |}
              {| types.Username := "admin"%string; types.Password := "secret"%string |})
    as [H1 H2].
  - intros s. reflexivity.
  - reflexivity.
  - reflexivity.
  - split; [exact H1 | exact (H2 row_without_credentials)].
Defined.

End PlatformFacts.

(* ===================================================================== *)
(** ** Public-plan visibility reconciler                                 *)
(* ===================================================================== *)

Section ReconcilerFacts.
Import storage interceptors ReconcilerSpec.

(** *** Criteria *)

Lemma holds_id (x : string) (v : types.Visibility) :
  query.holds (query.ByField query.EqualsOperator "id"%string [x])
    (visibility_column v) = String.eqb (visibility_ID v) x.
Proof. cbn. apply orb_false_r. Qed.

Lemma holds_plan (planID : string) (v : types.Visibility) :
  query.holds (query.ByField query.EqualsOperator "service_plan_id"%string [planID])
    (visibility_column v) = of_plan planID v.
Proof. cbn. apply orb_false_r. Qed.

Lemma holds_type (platformTypes : list string) (p : types.Platform) :
  query.holds (query.ByField query.InOperator "type"%string platformTypes)
    (platform_column p) = of_types platformTypes p.
Proof. reflexivity. Qed.

Lemma List_Visibility_plan (planID : string) (s : State) :
  List_Visibility
    (query.ByField query.EqualsOperator "service_plan_id"%string [planID]) s
  = inr (plan_rows planID s, s).
Proof.
  unfold List_Visibility, plan_rows. f_equal. f_equal.
  apply filter_ext. intros v. apply holds_plan.
Qed.

Lemma List_Platform_types (platformTypes : list string) (s : State) :
  List_Platform (query.ByField query.InOperator "type"%string platformTypes) s
  = inr (platforms_of_types platformTypes s, s).
Proof. reflexivity. Qed.

Lemma mem_In (x : string) (l : list string) :
  query.mem x l = true <-> In x l.
Proof.
  unfold query.mem. rewrite existsb_exists. split.
  - intros (y & Hy & E). apply String.eqb_eq in E. subst. assumption.
  - intros H. exists x. split; [assumption | apply String.eqb_refl].
Qed.

Lemma mem_not_In (x : string) (l : list string) :
  query.mem x l = false <-> ~ In x l.
Proof.
  rewrite <- mem_In. destruct (query.mem x l); split; intros; congruence.
Qed.

(** *** Splits and deletions by id *)

Lemma Split_filter {A} (f : A -> bool) (l : list A) :
  Split l (filter f l) (filter (fun x => negb (f x)) l).
Proof.
  induction l as [|x l IH]; simpl; [constructor|].
  destruct (f x); simpl; constructor; assumption.
Qed.

Lemma Split_incl {A} (l k d : list A) :
  Split l k d -> incl k l /\ incl d l.
Proof.
  induction 1 as [|x l k d _ [IHk IHd]|x l k d _ [IHk IHd]].
  - split; apply incl_refl.
  - split; [apply incl_cons; [left; reflexivity | apply incl_tl; assumption]
           | apply incl_tl; assumption].
  - split; [apply incl_tl; assumption
           | apply incl_cons; [left; reflexivity | apply incl_tl; assumption]].
Qed.

Lemma Split_all_kept {A} (l : list A) : Split l l [].
Proof. induction l; constructor; assumption. Qed.

Lemma Split_nothing_dropped {A} (l k : list A) : Split l k [] -> k = l.
Proof.
  intros H. remember [] as d eqn:E. induction H; try discriminate.
  - reflexivity.
  - f_equal. auto.
Qed.

Lemma without_nil (vs : list types.Visibility) : without [] vs = vs.
Proof.
  unfold without. induction vs as [|v vs IH]; simpl; [reflexivity|].
  f_equal. assumption.
Qed.

Lemma without_absent (dead : list string) (vs : list types.Visibility) :
  (forall v, In v vs -> ~ In (visibility_ID v) dead) -> without dead vs = vs.
Proof.
  intros H. unfold without. induction vs as [|v vs IH]; simpl; [reflexivity|].
  assert (E : query.mem (visibility_ID v) dead = false).
  { apply mem_not_In. apply H. left. reflexivity. }
  rewrite E. simpl. f_equal. apply IH. intros w Hw. apply H. right. assumption.
Qed.

Lemma without_cons_absent (x : string) (dead : list string)
    (vs : list types.Visibility) :
  ~ In x (ids vs) -> without (x :: dead) vs = without dead vs.
Proof.
  intros H. unfold without. apply filter_ext_in. intros v Hv. simpl.
  destruct (String.eqb (visibility_ID v) x) eqn:E; [|reflexivity].
  apply String.eqb_eq in E. exfalso. apply H. subst.
  unfold ids. apply in_map. assumption.
Qed.

Lemma without_cons_head (x : types.Visibility) (dead : list string)
    (vs : list types.Visibility) :
  without (visibility_ID x :: dead) (x :: vs)
  = without (visibility_ID x :: dead) vs.
Proof. unfold without. simpl. rewrite String.eqb_refl. reflexivity. Qed.

(** Under distinct ids, removing the ids of the dropped rows leaves the
    rows kept. *)
Lemma without_Split (vs k d : list types.Visibility) :
  NoDup (ids vs) -> Split vs k d -> without (ids d) vs = k.
Proof.
  intros Hnd Hs. induction Hs as [|x l k d Hs IH|x l k d Hs IH].
  - reflexivity.
  - simpl in Hnd. inversion Hnd as [|? ? Hx Hl]; subst.
    unfold without; simpl.
    assert (E : query.mem (visibility_ID x) (ids d) = false).
    { apply mem_not_In. intros Hin. apply Hx.
      unfold ids in *. apply in_map_iff in Hin.
      destruct Hin as (w & Ew & Hw). rewrite <- Ew.
      apply in_map. apply (proj2 (Split_incl _ _ _ Hs)). assumption. }
    rewrite E. simpl. f_equal. apply IH. assumption.
  - simpl in Hnd. inversion Hnd as [|? ? Hx Hl]; subst.
    change (ids (x :: d)) with (visibility_ID x :: ids d).
    rewrite without_cons_head.
    rewrite without_cons_absent by assumption. apply IH. assumption.
Qed.

Lemma NoDup_ids_incl_Split (vs k d : list types.Visibility) :
  NoDup (ids vs) -> Split vs k d -> NoDup (ids k) /\ NoDup (ids d).
Proof.
  intros Hnd Hs. induction Hs as [|x l k d Hs IH|x l k d Hs IH].
  - split; constructor.
  - simpl in *. inversion Hnd as [|? ? Hx Hl]; subst.
    destruct (IH Hl) as [Hk Hd]. split; [|assumption].
    constructor; [|assumption]. intros Hin. apply Hx.
    unfold ids in *. apply in_map_iff in Hin. destruct Hin as (w & Ew & Hw).
    rewrite <- Ew. apply in_map. apply (proj1 (Split_incl _ _ _ Hs)). assumption.
  - simpl in *. inversion Hnd as [|? ? Hx Hl]; subst.
    destruct (IH Hl) as [Hk Hd]. split; [assumption|].
    constructor; [|assumption]. intros Hin. apply Hx.
    unfold ids in *. apply in_map_iff in Hin. destruct Hin as (w & Ew & Hw).
    rewrite <- Ew. apply in_map. apply (proj2 (Split_incl _ _ _ Hs)). assumption.
Qed.

Lemma without_without (x : string) (dead : list string)
    (vs : list types.Visibility) :
  without dead (filter (fun v => negb (String.eqb (visibility_ID v) x)) vs)
  = without (x :: dead) vs.
Proof.
  unfold without. induction vs as [|v vs IH]; simpl; [reflexivity|].
  destruct (String.eqb (visibility_ID v) x); simpl.
  - assumption.
  - destruct (query.mem (visibility_ID v) dead); simpl; [|f_equal]; assumption.
Qed.

Lemma delete_each_cons (x : string) (dead : list string) (s : State) :
  delete_each (x :: dead) s
  = match Delete_Visibility
            (query.ByField query.EqualsOperator "id"%string [x]) s with
    | inl e => inl e
    | inr (_, s') => delete_each dead s'
    end.
Proof. reflexivity. Qed.

Lemma Delete_by_id_ok (x : string) (s : State) :
  In x (ids (visibilities s)) ->
  Delete_Visibility (query.ByField query.EqualsOperator "id"%string [x]) s
  = inr (tt,
         set_visibilities
           (filter (fun v => negb (String.eqb (visibility_ID v) x))
              (visibilities s)) s).
Proof.
  intros Hin. unfold Delete_Visibility.
  assert (Ex : existsb
                 (fun v => query.holds
                             (query.ByField query.EqualsOperator "id"%string [x])
                             (visibility_column v)) (visibilities s) = true).
  { apply existsb_exists.
    unfold ids in Hin. apply in_map_iff in Hin.
    destruct Hin as (v & Ev & Hv). exists v. split; [assumption|].
    rewrite holds_id. subst. apply String.eqb_refl. }
  rewrite Ex.
  rewrite (filter_ext _ (fun v => negb (String.eqb (visibility_ID v) x)))
    by (intros v; rewrite holds_id; reflexivity).
  reflexivity.
Qed.

(** Deleting rows that are in the table, one id at a time, never fails
    and leaves the table without them. *)
Lemma delete_each_ok (dead : list string) (s : State) :
  NoDup dead -> incl dead (ids (visibilities s)) ->
  delete_each dead s
  = inr (tt, set_visibilities (without dead (visibilities s)) s).
Proof.
  revert s. induction dead as [|x dead IH]; intros s Hnd Hin.
  - simpl. unfold ret. rewrite without_nil. destruct s; reflexivity.
  - inversion Hnd as [|? ? Hx Hd]; subst.
    rewrite delete_each_cons, Delete_by_id_ok
      by (apply Hin; left; reflexivity).
    rewrite IH.
    + simpl. rewrite without_without. reflexivity.
    + assumption.
    + simpl. intros y Hy.
      assert (Hy' : In y (ids (visibilities s))) by (apply Hin; right; assumption).
      unfold ids in *. apply in_map_iff in Hy'. destruct Hy' as (v & Ev & Hv).
      apply in_map_iff. exists v. split; [assumption|].
      apply filter_In. split; [assumption|].
      destruct (String.eqb (visibility_ID v) x) eqn:E; [|reflexivity].
      apply String.eqb_eq in E. exfalso. apply Hx. congruence.
Qed.

(** *** The loops decide as [decideA] and [sweepB] say *)

Lemma bind_ret_tt (m : M unit) (s : State) : (m ;;; ret tt) s = m s.
Proof.
  unfold bind, ret. destruct (m s) as [e|[[] s']]; reflexivity.
Qed.

Lemma persist_each_one (planID brokerID pid : string) (s : State) :
  persist_each planID brokerID [pid] s = persistVisibility pid planID brokerID s.
Proof. unfold persist_each. simpl. apply bind_ret_tt. Qed.

Lemma loopA_decides (b : bool) (rows : list types.Visibility) :
  forall (pve : bool) (s : State),
    resyncPublicPlanVisibilities_loop b rows pve s
    = match delete_each (ids (deleted (decideA b rows))) s with
      | inl e => inl e
      | inr (_, s') => inr (pve || (b && existsb wildcard rows), s')
      end.
Proof.
  induction rows as [|v rows IH]; intros pve s.
  - simpl. unfold ret. rewrite andb_false_r, orb_false_r. reflexivity.
  - simpl resyncPublicPlanVisibilities_loop. simpl decideA. simpl deleted.
    change (String.eqb (types.PlatformID v) ""%string) with (wildcard v).
    unfold keepA at 1.
    destruct b; destruct (wildcard v) eqn:E; simpl.
    + unfold bind at 1. unfold ret at 1. rewrite IH. simpl.
      destruct (delete_each _ s) as [e|[[] s']]; [reflexivity|].
      rewrite E, orb_true_r. reflexivity.
    + unfold bind at 1.
      change (ids (v :: ?l)) with (visibility_ID v :: ids l).
      rewrite delete_each_cons.
      destruct (Delete_Visibility _ s) as [e|[[] s']]; [reflexivity|].
      rewrite IH, E. reflexivity.
    + unfold bind at 1.
      change (ids (v :: ?l)) with (visibility_ID v :: ids l).
      rewrite delete_each_cons.
      destruct (Delete_Visibility _ s) as [e|[[] s']]; [reflexivity|].
      rewrite IH. reflexivity.
    + unfold bind at 1. unfold ret at 1. rewrite IH. simpl.
      destruct (delete_each _ s) as [e|[[] s']]; reflexivity.
Qed.

(** [resyncPublicPlanVisibilities] carries out [decideA]. *)
Lemma caseA_refines (rows : list types.Visibility) (b : bool)
    (planID brokerID : string) (s : State) :
  resyncPublicPlanVisibilities rows b planID brokerID s
  = execute planID brokerID (decideA b rows) s.
Proof.
  unfold resyncPublicPlanVisibilities, execute.
  unfold bind. rewrite loopA_decides.
  destruct (delete_each _ s) as [e|[[] s']]; [reflexivity|].
  simpl. destruct b; simpl.
  - destruct (existsb wildcard rows); simpl.
    + reflexivity.
    + symmetry. apply persist_each_one.
  - reflexivity.
Qed.

Lemma loopB_decides (b : bool) (rows : list types.Visibility) :
  forall (plats : list types.Platform) (s : State),
    resyncPlanVisibilitiesWithSupportedPlatforms_loop b rows plats s
    = match delete_each (ids (snd (fst (sweepB b rows plats)))) s with
      | inl e => inl e
      | inr (_, s') => inr (snd (sweepB b rows plats), s')
      end.
Proof.
  induction rows as [|v rows IH]; intros plats s.
  - reflexivity.
  - simpl.
    destruct (platformsAnyMatchesVisibility plats v) as [idx matches].
    destruct b.
    + destruct (matches && unlabeled v).
      * unfold bind at 1. unfold ret at 1. rewrite IH.
        destruct (sweepB true rows (remove_at idx plats)) as [[k d] r].
        reflexivity.
      * unfold bind at 1. specialize (IH plats).
        destruct (sweepB true rows plats) as [[k d] r]. simpl in *.
        change (ids (v :: d)) with (visibility_ID v :: ids d).
        rewrite delete_each_cons.
        destruct (Delete_Visibility _ s) as [e|[[] s']]; [reflexivity|].
        apply IH.
    + destruct (matches && negb (unlabeled v)).
      * unfold bind at 1. unfold ret at 1. rewrite IH.
        destruct (sweepB false rows plats) as [[k d] r].
        reflexivity.
      * unfold bind at 1. specialize (IH plats).
        destruct (sweepB false rows plats) as [[k d] r]. simpl in *.
        change (ids (v :: d)) with (visibility_ID v :: ids d).
        rewrite delete_each_cons.
        destruct (Delete_Visibility _ s) as [e|[[] s']]; [reflexivity|].
        apply IH.
Qed.

Lemma for_each_map {A B} (f : A -> B) (body : B -> M unit) (l : list A)
    (s : State) :
  for_each (map f l) body s = for_each l (fun a => body (f a)) s.
Proof.
  revert s. induction l as [|a l IH]; intros s; simpl; [reflexivity|].
  unfold bind. destruct (body (f a) s) as [e|[[] s']]; [reflexivity|].
  apply IH.
Qed.

(** [resyncPlanVisibilitiesWithSupportedPlatforms] carries out
    [decideB] on the platforms of the supported types. *)
Lemma caseB_refines (rows : list types.Visibility) (b : bool)
    (planID brokerID : string) (platformTypes : list string) (s : State) :
  resyncPlanVisibilitiesWithSupportedPlatforms rows b planID brokerID
    platformTypes s
  = execute planID brokerID
      (decideB b rows (platforms_of_types platformTypes s)) s.
Proof.
  unfold resyncPlanVisibilitiesWithSupportedPlatforms, execute.
  unfold bind at 1. rewrite List_Platform_types.
  unfold bind. rewrite loopB_decides. unfold decideB.
  destruct (sweepB b rows (platforms_of_types platformTypes s)) as [[k d] r].
  simpl.
  destruct (delete_each (ids d) s) as [e|[[] s']]; [reflexivity|].
  destruct b.
  - unfold persist_each, platform_ids. rewrite for_each_map. reflexivity.
  - reflexivity.
Qed.

(** *** Creations *)

Lemma NoDup_app_iff {A} (l1 l2 : list A) :
  NoDup (l1 ++ l2) <->
  NoDup l1 /\ NoDup l2 /\ (forall a, In a l1 -> ~ In a l2).
Proof.
  split.
  - induction l1 as [|x l1 IH]; simpl; intros H.
    + repeat split; [constructor | assumption | intros a []].
    + inversion H as [|? ? Hx Hl]; subst.
      destruct (IH Hl) as (H1 & H2 & H3).
      repeat split; try assumption.
      * constructor; [|assumption]. intros Hin. apply Hx.
        apply in_or_app. left. assumption.
      * intros a [->|Ha]; [|apply H3; assumption].
        intros Hin. apply Hx. apply in_or_app. right. assumption.
  - intros (H1 & H2 & H3). apply NoDup_app; assumption.
Qed.

Lemma ids_app (l1 l2 : list types.Visibility) :
  ids (l1 ++ l2) = ids l1 ++ ids l2.
Proof. apply map_app. Qed.

Lemma persistVisibility_run (pid planID brokerID : string) (s : State) :
  persistVisibility pid planID brokerID s
  = match uuids s with
    | [] => inl (Failure "could not generate GUID for visibility"%string)
    | u :: rest =>
        if query.mem u (ids (visibilities s)) then inl ConflictError
        else inr (tt,
                  {| visibilities :=
                       visibilities s
                       ++ [new_visibility u (now s) (next_sequence s) pid planID];
                     platforms := platforms s;
                     next_sequence := next_sequence s + 1;
                     uuids := rest;
                     now := now s |})
    end.
Proof.
  unfold persistVisibility, bind, uuid_NewV4, time_Now, Create_Visibility, ret.
  destruct (uuids s) as [|u rest]; [reflexivity|]. simpl.
  unfold visibility_ID at 1. simpl. fold (ids (visibilities s)).
  destruct (query.mem u (ids (visibilities s))); reflexivity.
Qed.

Lemma persist_each_cons (planID brokerID pid : string) (targets : list string)
    (s : State) :
  persist_each planID brokerID (pid :: targets) s
  = match persistVisibility pid planID brokerID s with
    | inl e => inl e
    | inr (_, s') => persist_each planID brokerID targets s'
    end.
Proof. reflexivity. Qed.

(** What a successful series of creations leaves behind. *)
Lemma persist_each_inv (planID brokerID : string) (targets : list string) :
  forall s s',
    persist_each planID brokerID targets s = inr (tt, s') ->
    exists C,
      visibilities s' = visibilities s ++ C /\
      created_for planID targets C /\
      platforms s' = platforms s /\
      (NoDup (ids (visibilities s)) -> NoDup (ids (visibilities s'))).
Proof.
  induction targets as [|pid targets IH]; intros s s' Hrun.
  - inversion Hrun; subst. exists []. rewrite app_nil_r.
    repeat split; auto.
  - rewrite persist_each_cons, persistVisibility_run in Hrun.
    destruct (uuids s) as [|u rest]; [discriminate|].
    destruct (query.mem u (ids (visibilities s))) eqn:Hu; [discriminate|].
    apply IH in Hrun. destruct Hrun as (C & Hv & [Hc1 Hc2] & Hp & Hnd).
    simpl in *.
    exists (new_visibility u (now s) (next_sequence s) pid planID :: C).
    split; [rewrite Hv, <- app_assoc; reflexivity|].
    split; [split|split].
    + simpl. f_equal. assumption.
    + constructor; [split; reflexivity | assumption].
    + assumption.
    + intros H. apply Hnd. rewrite ids_app. apply NoDup_app_iff.
      split; [assumption|]. split; [repeat constructor; intros []|].
      intros a Ha [<-|[]]. apply mem_not_In in Hu. apply Hu. assumption.
Qed.

(** With enough fresh results of the random source the creations
    succeed. *)
Lemma persist_each_ok (planID brokerID : string) (targets : list string) :
  forall s,
    can_create (List.length targets) s ->
    exists s', persist_each planID brokerID targets s = inr (tt, s').
Proof.
  induction targets as [|pid targets IH]; intros s [Hlen Hnd].
  - exists s. reflexivity.
  - rewrite persist_each_cons, persistVisibility_run.
    simpl in Hlen, Hnd.
    destruct (uuids s) as [|u rest]; [simpl in Hlen; lia|].
    simpl in Hlen, Hnd. inversion Hnd as [|? ? Hu Hrest]; subst.
    assert (Hm : query.mem u (ids (visibilities s)) = false).
    { apply mem_not_In. intros Hin. apply Hu. apply in_or_app. right.
      assumption. }
    rewrite Hm. apply IH. split; simpl; [lia|].
    rewrite ids_app. simpl.
    apply NoDup_app_iff in Hrest. destruct Hrest as (H1 & H2 & H3).
    apply NoDup_app_iff. split; [assumption|]. split.
    + apply NoDup_app_iff. split; [assumption|].
      split; [repeat constructor; intros []|].
      intros a Ha [<-|[]]. apply Hu. apply in_or_app. right. assumption.
    + intros a Ha Hin. apply in_app_or in Hin. destruct Hin as [Hin|[<-|[]]].
      * apply (H3 a); assumption.
      * apply Hu. apply in_or_app. left. assumption.
Qed.

(** *** Carrying an outcome out *)

Lemma filter_swap {A} (f g : A -> bool) (l : list A) :
  filter f (filter g l) = filter g (filter f l).
Proof.
  induction l as [|a l IH]; simpl; [reflexivity|].
  destruct (f a) eqn:Ef; destruct (g a) eqn:Eg; simpl;
    rewrite ?Ef, ?Eg, IH; reflexivity.
Qed.

Lemma filter_without (f : types.Visibility -> bool) (dead : list string)
    (vs : list types.Visibility) :
  filter f (without dead vs) = without dead (filter f vs).
Proof. apply filter_swap. Qed.

Lemma NoDup_ids_filter (f : types.Visibility -> bool)
    (vs : list types.Visibility) :
  NoDup (ids vs) -> NoDup (ids (filter f vs)).
Proof.
  intros H. exact (proj1 (NoDup_ids_incl_Split _ _ _ H (Split_filter f vs))).
Qed.

Lemma NoDup_ids_inj (vs : list types.Visibility) (v w : types.Visibility) :
  NoDup (ids vs) -> In v vs -> In w vs ->
  visibility_ID v = visibility_ID w -> v = w.
Proof.
  induction vs as [|x vs IH]; intros Hnd Hv Hw E; [destruct Hv|].
  simpl in Hnd. inversion Hnd as [|? ? Hx Hl]; subst.
  destruct Hv as [->|Hv]; destruct Hw as [->|Hw].
  - reflexivity.
  - exfalso. apply Hx. rewrite E. apply in_map. assumption.
  - exfalso. apply Hx. rewrite <- E. apply in_map. assumption.
  - apply IH; assumption.
Qed.

Lemma of_plan_eq (planID : string) (v : types.Visibility) :
  of_plan planID v = true <-> types.ServicePlanID v = planID.
Proof. apply String.eqb_eq. Qed.

(** Rows of other plans are out of reach of the deletions. *)
Lemma other_plan_untouched (planID other : string)
    (vs d : list types.Visibility) :
  NoDup (ids vs) -> incl d (filter (of_plan planID) vs) -> other <> planID ->
  filter (of_plan other) (without (ids d) vs) = filter (of_plan other) vs.
Proof.
  intros Hnd Hd Hne. rewrite filter_without. apply without_absent.
  intros v Hv Hin. apply filter_In in Hv. destruct Hv as [Hv Hplan].
  unfold ids in Hin. apply in_map_iff in Hin. destruct Hin as (w & Ew & Hw).
  apply Hd in Hw. apply filter_In in Hw. destruct Hw as [Hw Hplan'].
  assert (w = v) by (apply (NoDup_ids_inj vs); assumption). subst w.
  apply of_plan_eq in Hplan, Hplan'. congruence.
Qed.

Lemma execute_run (planID brokerID : string) (o : Outcome) (s : State) :
  NoDup (ids (visibilities s)) ->
  Split (plan_rows planID s) (kept o) (deleted o) ->
  execute planID brokerID o s
  = persist_each planID brokerID (create o)
      (set_visibilities (without (ids (deleted o)) (visibilities s)) s).
Proof.
  intros Hnd Hs. unfold execute, bind.
  rewrite delete_each_ok; [reflexivity| |].
  - apply (NoDup_ids_incl_Split (plan_rows planID s) (kept o)); [|assumption].
    apply NoDup_ids_filter. assumption.
  - intros x Hx. unfold ids in *. apply in_map_iff in Hx.
    destruct Hx as (v & Ev & Hv). subst x. apply in_map.
    apply (proj2 (Split_incl _ _ _ Hs)) in Hv.
    apply filter_In in Hv. tauto.
Qed.

Lemma sweepB_Split (b : bool) (rows : list types.Visibility) :
  forall plats,
    Split rows (fst (fst (sweepB b rows plats)))
      (snd (fst (sweepB b rows plats))).
Proof.
  induction rows as [|v rows IH]; intros plats; simpl; [constructor|].
  destruct (platformsAnyMatchesVisibility plats v) as [idx matches].
  destruct b.
  - destruct (matches && unlabeled v).
    + specialize (IH (remove_at idx plats)).
      destruct (sweepB true rows (remove_at idx plats)) as [[k d] r].
      constructor. assumption.
    + specialize (IH plats).
      destruct (sweepB true rows plats) as [[k d] r].
      constructor. assumption.
  - destruct (matches && negb (unlabeled v)); specialize (IH plats);
      destruct (sweepB false rows plats) as [[k d] r];
      constructor; assumption.
Qed.

Lemma decide_Split (b : bool) (platformTypes : list string) (s : State)
    (planID : string) :
  Split (plan_rows planID s)
    (kept (decide b platformTypes s planID))
    (deleted (decide b platformTypes s planID)).
Proof.
  unfold decide. destruct (List.length platformTypes =? 0)%nat.
  - apply Split_filter.
  - unfold decideB.
    pose proof (sweepB_Split b (plan_rows planID s)
                  (platforms_of_types platformTypes s)) as H.
    destruct (sweepB b (plan_rows planID s)
                (platforms_of_types platformTypes s)) as [[k d] r].
    assumption.
Qed.

(** *** A second look at the rows decides nothing new *)

Lemma filter_none {A} (f : A -> bool) (l : list A) :
  filter (fun x => negb (f x)) (filter f l) = [].
Proof.
  induction l as [|a l IH]; simpl; [reflexivity|].
  destruct (f a) eqn:E; simpl; rewrite ?E; simpl; assumption.
Qed.

Lemma existsb_filter_self {A} (f : A -> bool) (l : list A) :
  existsb f (filter f l) = existsb f l.
Proof.
  induction l as [|a l IH]; simpl; [reflexivity|].
  destruct (f a) eqn:E; simpl; rewrite ?E; simpl; [reflexivity | assumption].
Qed.

Lemma created_for_nil (planID : string) (C : list types.Visibility) :
  created_for planID [] C -> C = [].
Proof. intros [H _]. destruct C; [reflexivity | discriminate]. Qed.

Lemma created_unlabeled (planID : string) (targets : list string)
    (C : list types.Visibility) :
  created_for planID targets C -> Forall (fun v => unlabeled v = true) C.
Proof.
  intros [_ H]. induction H as [|c C [Hl _] _ IH]; constructor; [|assumption].
  unfold unlabeled. rewrite Hl. reflexivity.
Qed.

Lemma decideA_settles (b : bool) (planID : string)
    (rows C : list types.Visibility) :
  created_for planID (create (decideA b rows)) C ->
  deleted (decideA b (kept (decideA b rows) ++ C)) = [] /\
  create (decideA b (kept (decideA b rows) ++ C)) = [].
Proof.
  simpl. intros Hc. rewrite filter_app, filter_none, existsb_app. simpl.
  destruct b; simpl in *.
  - unfold keepA in *. rewrite existsb_filter_self.
    destruct (existsb wildcard rows); simpl in *.
    + apply created_for_nil in Hc. subst. split; reflexivity.
    + destruct Hc as [Hc _]. destruct C as [|c [|c' C]]; try discriminate.
      simpl in Hc. inversion Hc as [Hw]. simpl. unfold wildcard.
      rewrite Hw. simpl. split; reflexivity.
  - apply created_for_nil in Hc. subst. split; reflexivity.
Qed.

Lemma sweepB_app (b : bool) (l1 l2 : list types.Visibility) :
  forall plats,
    sweepB b (l1 ++ l2) plats
    = let '(k1, d1, r1) := sweepB b l1 plats in
      let '(k2, d2, r2) := sweepB b l2 r1 in
      (k1 ++ k2, d1 ++ d2, r2).
Proof.
  induction l1 as [|v l1 IH]; intros plats; simpl.
  - destruct (sweepB b l2 plats) as [[k2 d2] r2]. reflexivity.
  - destruct (platformsAnyMatchesVisibility plats v) as [idx matches].
    destruct b.
    + destruct (matches && unlabeled v).
      * rewrite IH.
        destruct (sweepB true l1 (remove_at idx plats)) as [[k1 d1] r1].
        destruct (sweepB true l2 r1) as [[k2 d2] r2]. reflexivity.
      * rewrite IH.
        destruct (sweepB true l1 plats) as [[k1 d1] r1].
        destruct (sweepB true l2 r1) as [[k2 d2] r2]. reflexivity.
    + destruct (matches && negb (unlabeled v)); rewrite IH;
        destruct (sweepB false l1 plats) as [[k1 d1] r1];
        destruct (sweepB false l2 r1) as [[k2 d2] r2]; reflexivity.
Qed.

(** The rows a sweep kept are kept again, and cover the same platforms. *)
Lemma sweepB_kept (b : bool) (rows : list types.Visibility) :
  forall plats,
    sweepB b (fst (fst (sweepB b rows plats))) plats
    = (fst (fst (sweepB b rows plats)), [], snd (sweepB b rows plats)).
Proof.
  induction rows as [|v rows IH]; intros plats; simpl; [reflexivity|].
  destruct (platformsAnyMatchesVisibility plats v) as [idx matches] eqn:Em.
  destruct b.
  - destruct (matches && unlabeled v) eqn:E.
    + specialize (IH (remove_at idx plats)).
      destruct (sweepB true rows (remove_at idx plats)) as [[k d] r].
      simpl in *. rewrite Em, E, IH. reflexivity.
    + specialize (IH plats).
      destruct (sweepB true rows plats) as [[k d] r]. assumption.
  - destruct (matches && negb (unlabeled v)) eqn:E.
    + specialize (IH plats).
      destruct (sweepB false rows plats) as [[k d] r].
      simpl in *. rewrite Em, E, IH. reflexivity.
    + specialize (IH plats).
      destruct (sweepB false rows plats) as [[k d] r]. assumption.
Qed.

(** Rows created for the platforms left uncovered cover them all. *)
Lemma sweepB_created (C : list types.Visibility) :
  forall r,
    map types.PlatformID C = platform_ids r ->
    Forall (fun v => unlabeled v = true) C ->
    sweepB true C r = (C, [], []).
Proof.
  induction C as [|c C IH]; intros r Hm Hu.
  - destruct r; [reflexivity | discriminate].
  - destruct r as [|p r]; [discriminate|].
    simpl in Hm. inversion Hm as [[Hc Hrest]].
    inversion Hu as [|? ? Hu1 Hu2]; subst.
    simpl. unfold platformsAnyMatchesVisibility. simpl.
    rewrite Hc, String.eqb_refl, Hu1. simpl.
    change (remove_at 0 (p :: r)) with r.
    rewrite (IH r Hrest Hu2). reflexivity.
Qed.

Lemma sweepB_private_remaining (rows : list types.Visibility) :
  forall plats, snd (sweepB false rows plats) = plats.
Proof.
  induction rows as [|v rows IH]; intros plats; simpl; [reflexivity|].
  destruct (platformsAnyMatchesVisibility plats v) as [idx matches].
  specialize (IH plats).
  destruct (matches && negb (unlabeled v));
    destruct (sweepB false rows plats) as [[k d] r]; assumption.
Qed.

Lemma decideB_settles (b : bool) (planID : string)
    (rows C : list types.Visibility) (plats : list types.Platform) :
  created_for planID (create (decideB b rows plats)) C ->
  deleted (decideB b (kept (decideB b rows plats) ++ C) plats) = [] /\
  create (decideB b (kept (decideB b rows plats) ++ C) plats) = [].
Proof.
  unfold decideB. intros Hc.
  pose proof (sweepB_kept b rows plats) as Hk.
  destruct (sweepB b rows plats) as [[k d] r] eqn:E. simpl in *.
  rewrite sweepB_app, Hk.
  destruct b.
  - rewrite (sweepB_created C r (proj1 Hc) (created_unlabeled _ _ _ Hc)).
    split; reflexivity.
  - apply created_for_nil in Hc. subst C. simpl. split; reflexivity.
Qed.

(** *** Case B, row by row *)

Lemma matches_from (v : types.Visibility) (plats : list types.Platform) :
  forall i,
    snd (platformsAnyMatchesVisibility_from i plats v) = supported_by plats v.
Proof.
  unfold supported_by, platform_ids.
  induction plats as [|p plats IH]; intros i; simpl; [reflexivity|].
  destruct (String.eqb (types.PlatformID v) (platform_ID p)); [reflexivity|].
  apply IH.
Qed.

Lemma matches_supported (v : types.Visibility) (plats : list types.Platform) :
  snd (platformsAnyMatchesVisibility plats v) = supported_by plats v.
Proof. apply matches_from. Qed.

(** The index found is the position of the first platform with the id of
    the visibility, counted from [i]. *)
Lemma remove_found_from (v : types.Visibility) (plats : list types.Platform) :
  forall i idx,
    platformsAnyMatchesVisibility_from i plats v = (idx, true) ->
    exists n l1 p l2,
      idx = i + Z.of_nat n /\ plats = l1 ++ p :: l2 /\ List.length l1 = n /\
      types.PlatformID v = platform_ID p /\
      Forall (fun q => types.PlatformID v <> platform_ID q) l1.
Proof.
  induction plats as [|p plats IH]; intros i idx H; simpl in H; [discriminate|].
  destruct (String.eqb (types.PlatformID v) (platform_ID p)) eqn:E.
  - inversion H; subst. exists 0%nat, [], p, plats.
    apply String.eqb_eq in E. repeat split; auto. simpl. lia.
  - apply IH in H. destruct H as (n & l1 & q & l2 & Hi & Hp & Hl & Hq & Hall).
    exists (S n), (p :: l1), q, l2. subst. repeat split; auto.
    + lia.
    + constructor; [|assumption]. apply String.eqb_neq. assumption.
Qed.

Lemma remove_at_middle {A} (l1 l2 : list A) (x : A) :
  remove_at (Z.of_nat (List.length l1)) (l1 ++ x :: l2) = l1 ++ l2.
Proof.
  unfold remove_at.
  replace (Z.to_nat (Z.of_nat (List.length l1) + 1)) with (S (List.length l1))
    by lia.
  rewrite Nat2Z.id. f_equal.
  - rewrite firstn_app, Nat.sub_diag, firstn_all. simpl. apply app_nil_r.
  - rewrite skipn_app.
    replace (S (List.length l1) - List.length l1)%nat with 1%nat by lia.
    rewrite skipn_all2 by lia. reflexivity.
Qed.

(** With distinct platform ids, dropping the platform found drops every
    platform with that id. *)
Lemma remove_found (v : types.Visibility) (plats : list types.Platform)
    (idx : Z) :
  NoDup (platform_ids plats) ->
  platformsAnyMatchesVisibility plats v = (idx, true) ->
  remove_at idx plats
  = filter (fun p => negb (String.eqb (types.PlatformID v) (platform_ID p)))
      plats.
Proof.
  intros Hnd H. apply remove_found_from in H.
  destruct H as (n & l1 & p & l2 & Hi & Hp & Hl & Hq & Hall).
  subst. simpl. rewrite remove_at_middle.
  unfold platform_ids in Hnd. rewrite map_app in Hnd. simpl in Hnd.
  apply NoDup_remove_2 in Hnd.
  rewrite filter_app. simpl. rewrite Hq, String.eqb_refl. simpl.
  f_equal.
  - symmetry. apply forallb_filter_id. apply forallb_forall.
    intros q Hin. rewrite Forall_forall in Hall. specialize (Hall q Hin).
    apply negb_true_iff. apply String.eqb_neq. congruence.
  - symmetry. apply forallb_filter_id. apply forallb_forall.
    intros q Hin. apply negb_true_iff. apply String.eqb_neq.
    intros E. apply Hnd. apply in_or_app. right. rewrite E.
    apply in_map. assumption.
Qed.

Lemma NoDup_platform_ids_filter (f : types.Platform -> bool)
    (plats : list types.Platform) :
  NoDup (platform_ids plats) -> NoDup (platform_ids (filter f plats)).
Proof.
  unfold platform_ids. induction plats as [|p plats IH]; simpl; intros H;
    [constructor|].
  inversion H as [|? ? Hp Hl]; subst.
  destruct (f p); simpl; [|auto].
  constructor; [|auto]. intros Hin. apply Hp.
  apply in_map_iff in Hin. destruct Hin as (q & Eq & Hq).
  apply filter_In in Hq. rewrite <- Eq. apply in_map. tauto.
Qed.

Lemma filter_filter_and {A} (f g : A -> bool) (l : list A) :
  filter g (filter f l) = filter (fun x => f x && g x) l.
Proof.
  induction l as [|a l IH]; simpl; [reflexivity|].
  destruct (f a); simpl; [destruct (g a)|]; rewrite IH; reflexivity.
Qed.

Lemma uncovered_snoc (h : list types.Visibility) (v : types.Visibility)
    (plats : list types.Platform) :
  uncovered (h ++ [v]) plats
  = filter (fun p => negb (covers p v)) (uncovered h plats).
Proof.
  unfold uncovered. rewrite filter_filter_and. apply filter_ext.
  intros p. rewrite existsb_app. simpl. rewrite orb_false_r.
  apply negb_orb.
Qed.

Lemma existsb_same {A} (f g : A -> bool) (l : list A) :
  (forall a, f a = g a) -> existsb f l = existsb g l.
Proof.
  intros H. induction l as [|a l IH]; simpl; [reflexivity|].
  rewrite H, IH. reflexivity.
Qed.

(** A visibility finds a platform among the uncovered ones when it
    targets a supported platform that no earlier unlabeled row targets. *)
Lemma supported_by_uncovered (h : list types.Visibility)
    (v : types.Visibility) (plats : list types.Platform) :
  supported_by (uncovered h plats) v
  = supported_by plats v && negb (existsb (same_target v) h).
Proof.
  unfold supported_by, uncovered, platform_ids, query.mem.
  induction plats as [|p plats IH]; simpl; [reflexivity|].
  destruct (String.eqb (types.PlatformID v) (platform_ID p)) eqn:E.
  - apply String.eqb_eq in E.
    assert (Hc : existsb (covers p) h = existsb (same_target v) h).
    { apply existsb_same. intros w. unfold covers, same_target.
      rewrite E. reflexivity. } 
    rewrite Hc. destruct (existsb (same_target v) h); simpl.
    + rewrite IH, andb_false_r. reflexivity.
    + rewrite E, String.eqb_refl. reflexivity.
  - destruct (negb (existsb (covers p) h)); simpl; rewrite ?E; apply IH.
Qed.

Lemma sweepB_public_by_position (plats : list types.Platform)
    (rows : list types.Visibility) :
  NoDup (platform_ids plats) ->
  forall h,
    fst (fst (sweepB true rows (uncovered h plats)))
      = filter_hist (keepB true plats) h rows /\
    snd (sweepB true rows (uncovered h plats)) = uncovered (h ++ rows) plats.
Proof.
  intros Hnd. induction rows as [|v rows IH]; intros h.
  - simpl. rewrite app_nil_r. split; reflexivity.
  - simpl sweepB. simpl filter_hist.
    pose proof (matches_supported v (uncovered h plats)) as Hm.
    rewrite supported_by_uncovered in Hm.
    destruct (platformsAnyMatchesVisibility (uncovered h plats) v)
      as [idx matches] eqn:Em. simpl in Hm.
    replace (h ++ v :: rows) with ((h ++ [v]) ++ rows)
      by (rewrite <- app_assoc; reflexivity).
    unfold keepB at 1.
    destruct (unlabeled v) eqn:Eu.
    + rewrite andb_true_r. simpl. rewrite <- Hm.
      destruct matches.
      * rewrite (remove_found v _ idx) by
          (try apply NoDup_platform_ids_filter; assumption).
        assert (Hf : filter
                       (fun p => negb (String.eqb (types.PlatformID v)
                                         (platform_ID p)))
                       (uncovered h plats)
                     = uncovered (h ++ [v]) plats).
        { rewrite uncovered_snoc. apply filter_ext. intros p.
          unfold covers. rewrite Eu. reflexivity. }
        rewrite Hf. destruct (IH (h ++ [v])) as [IH1 IH2].
        destruct (sweepB true rows (uncovered (h ++ [v]) plats))
          as [[k d] r]. simpl in *. split; [f_equal|]; assumption.
      * assert (Hf : uncovered h plats = uncovered (h ++ [v]) plats).
        { rewrite uncovered_snoc. symmetry. apply forallb_filter_id.
          apply forallb_forall. intros p Hp. unfold covers. rewrite Eu. simpl.
          apply negb_true_iff. apply String.eqb_neq. intros E.
          pose proof (matches_supported v (uncovered h plats)) as Hs.
          rewrite Em in Hs. simpl in Hs. symmetry in Hs.
          apply mem_not_In in Hs. apply Hs. rewrite E.
          unfold platform_ids. apply in_map. assumption. }
        rewrite Hf at 1 2. destruct (IH (h ++ [v])) as [IH1 IH2].
        destruct (sweepB true rows (uncovered (h ++ [v]) plats))
          as [[k d] r]. simpl in *. split; assumption.
    + rewrite andb_false_r. simpl.
      assert (Hf : uncovered h plats = uncovered (h ++ [v]) plats).
      { rewrite uncovered_snoc. symmetry. apply forallb_filter_id.
        apply forallb_forall. intros p Hp. unfold covers. rewrite Eu.
        reflexivity. }
      rewrite Hf at 1 2. destruct (IH (h ++ [v])) as [IH1 IH2].
      destruct (sweepB true rows (uncovered (h ++ [v]) plats))
        as [[k d] r]. simpl in *. split; assumption.
Qed.

Lemma sweepB_private_by_position (plats : list types.Platform)
    (rows : list types.Visibility) :
  forall h,
    fst (fst (sweepB false rows plats))
    = filter_hist (keepB false plats) h rows.
Proof.
  induction rows as [|v rows IH]; intros h; [reflexivity|].
  simpl. pose proof (matches_supported v plats) as Hm.
  destruct (platformsAnyMatchesVisibility plats v) as [idx matches].
  simpl in Hm. subst matches. unfold keepB at 1.
  specialize (IH (h ++ [v])).
  destruct (supported_by plats v && negb (unlabeled v));
    destruct (sweepB false rows plats) as [[k d] r]; simpl in *;
    [f_equal|]; assumption.
Qed.

Lemma uncovered_nil (plats : list types.Platform) : uncovered [] plats = plats.
Proof.
  unfold uncovered. apply forallb_filter_id. apply forallb_forall.
  intros p _. reflexivity.
Qed.

(** What [decideB] keeps and creates, by position in the listing. *)
Lemma decideB_by_position (b : bool) (rows : list types.Visibility)
    (plats : list types.Platform) :
  NoDup (platform_ids plats) ->
  kept (decideB b rows plats) = filter_hist (keepB b plats) [] rows /\
  create (decideB b rows plats)
    = if b then platform_ids (uncovered rows plats) else [].
Proof.
  intros Hnd. unfold decideB. destruct b.
  - destruct (sweepB_public_by_position plats rows Hnd []) as [H1 H2].
    rewrite uncovered_nil in H1, H2. simpl in H2.
    destruct (sweepB true rows plats) as [[k d] r]. simpl in *.
    split; congruence.
  - pose proof (sweepB_private_by_position plats rows []) as H1.
    destruct (sweepB false rows plats) as [[k d] r]. simpl in *.
    split; [assumption | reflexivity].
Qed.

Section PlanFacts.

Variable isCatalogPlanPublicFunc : publicPlanProcessor.
Variable supportedPlatforms : types.ServicePlan -> list string.

(** One plan: [resync_plan] carries out [decide]. *)
Lemma resync_plan_refines (broker : types.ServiceBroker)
    (o : types.ServiceOffering) (p : types.ServicePlan) (b : bool)
    (s : State) :
  isCatalogPlanPublicFunc broker o p = inr b ->
  resync_plan isCatalogPlanPublicFunc supportedPlatforms broker o p s
  = execute (types.ServicePlan_ID p) (types.ServiceBroker_ID broker)
      (decide b (supportedPlatforms p) s (types.ServicePlan_ID p)) s.
Proof.
  intros Hb. unfold resync_plan, decide. rewrite Hb.
  unfold bind at 1. rewrite List_Visibility_plan.
  destruct (List.length (supportedPlatforms p) =? 0)%nat.
  - apply caseA_refines.
  - apply caseB_refines.
Qed.

(** A successful run over one plan: the rows it deleted are gone, the
    rows it created are at the end of the table, and no other table or
    plan is touched. *)
Lemma resync_plan_inv (broker : types.ServiceBroker)
    (o : types.ServiceOffering) (p : types.ServicePlan) (b : bool)
    (s s' : State) :
  well_formed s ->
  isCatalogPlanPublicFunc broker o p = inr b ->
  resync_plan isCatalogPlanPublicFunc supportedPlatforms broker o p s
    = inr (tt, s') ->
  let planID := types.ServicePlan_ID p in
  let out := decide b (supportedPlatforms p) s planID in
  exists C,
    visibilities s' = without (ids (deleted out)) (visibilities s) ++ C /\
    created_for planID (create out) C /\
    well_formed s' /\
    platforms s' = platforms s /\
    plan_rows planID s' = kept out ++ C /\
    (forall other, other <> planID -> plan_rows other s' = plan_rows other s).
Proof.
  intros [Hnd Hpl] Hb Hrun planID out.
  rewrite (resync_plan_refines _ _ _ _ _ Hb) in Hrun.
  fold planID in Hrun. fold out in Hrun.
  pose proof (decide_Split b (supportedPlatforms p) s planID) as Hs.
  fold out in Hs.
  rewrite (execute_run _ _ _ _ Hnd Hs) in Hrun.
  apply persist_each_inv in Hrun.
  destruct Hrun as (C & Hv & Hc & Hp & Hnd').
  simpl in Hv, Hp, Hnd'.
  assert (Hplan : filter (of_plan planID) C = C).
  { destruct Hc as [_ Hc]. clear - Hc.
    induction C as [|c C IH]; [reflexivity|].
    inversion Hc as [|? ? [_ Hc1] Hc2]; subst. simpl.
    unfold of_plan at 1. rewrite Hc1, String.eqb_refl. f_equal. auto. }
  exists C. split; [assumption|]. split; [assumption|].
  split; [|split; [assumption|split]].
  - split; [|rewrite Hp; assumption].
    apply Hnd'. apply NoDup_ids_filter. assumption.
  - unfold plan_rows. rewrite Hv, filter_app, filter_without, Hplan.
    f_equal. apply without_Split; [|assumption].
    apply NoDup_ids_filter. assumption.
  - intros other Hne. unfold plan_rows. rewrite Hv, filter_app.
    rewrite (other_plan_untouched planID); try assumption.
    + assert (Hno : filter (of_plan other) C = []).
      { destruct Hc as [_ Hc]. clear - Hc Hne.
        induction C as [|c C IH]; [reflexivity|].
        inversion Hc as [|? ? [_ Hc1] Hc2]; subst. simpl.
        unfold of_plan at 1.
        destruct (String.eqb (types.ServicePlanID c) other) eqn:E.
        - apply String.eqb_eq in E. congruence.
        - auto. }
      rewrite Hno. apply app_nil_r.
    + exact (proj2 (Split_incl _ _ _ Hs)).
Qed.

(** A run over one plan succeeds when the random source can serve the
    creations it decides on. *)
Lemma resync_plan_ok (broker : types.ServiceBroker)
    (o : types.ServiceOffering) (p : types.ServicePlan) (b : bool)
    (s : State) :
  well_formed s ->
  isCatalogPlanPublicFunc broker o p = inr b ->
  can_create
    (List.length (create (decide b (supportedPlatforms p) s
                            (types.ServicePlan_ID p)))) s ->
  exists s',
    resync_plan isCatalogPlanPublicFunc supportedPlatforms broker o p s
    = inr (tt, s').
Proof.
  intros [Hnd Hpl] Hb [Hlen Hfresh].
  rewrite (resync_plan_refines _ _ _ _ _ Hb).
  rewrite (execute_run _ _ _ _ Hnd (decide_Split _ _ _ _)).
  apply persist_each_ok. split; [assumption|]. simpl.
  apply NoDup_app_iff in Hfresh. destruct Hfresh as (H1 & H2 & H3).
  apply NoDup_app_iff. split; [assumption|]. split.
  - apply NoDup_ids_filter. assumption.
  - intros a Ha Hin. apply (H3 a Ha).
    unfold ids, without in *. apply in_map_iff in Hin.
    destruct Hin as (v & Ev & Hv). apply filter_In in Hv.
    subst a. apply in_map. tauto.
Qed.

(** *** Settled plans and the whole broker *)

Lemma decide_ext (b : bool) (platformTypes : list string) (planID : string)
    (s1 s2 : State) :
  plan_rows planID s2 = plan_rows planID s1 ->
  platforms s2 = platforms s1 ->
  decide b platformTypes s2 planID = decide b platformTypes s1 planID.
Proof.
  intros Hr Hp. unfold decide, platforms_of_types. rewrite Hr, Hp. reflexivity.
Qed.

Lemma settled_ext (broker : types.ServiceBroker)
    (x : types.ServiceOffering * types.ServicePlan) (s1 s2 : State) :
  plan_rows (types.ServicePlan_ID (snd x)) s2
    = plan_rows (types.ServicePlan_ID (snd x)) s1 ->
  platforms s2 = platforms s1 ->
  settled isCatalogPlanPublicFunc supportedPlatforms broker x s1 ->
  settled isCatalogPlanPublicFunc supportedPlatforms broker x s2.
Proof.
  intros Hr Hp (b & Hb & Hd & Hc). exists b.
  rewrite (decide_ext _ _ _ _ _ Hr Hp). auto.
Qed.

Lemma resync_plan_public (broker : types.ServiceBroker)
    (o : types.ServiceOffering) (p : types.ServicePlan) (s : State)
    (r : unit * State) :
  resync_plan isCatalogPlanPublicFunc supportedPlatforms broker o p s = inr r ->
  exists b, isCatalogPlanPublicFunc broker o p = inr b.
Proof.
  unfold resync_plan.
  destruct (isCatalogPlanPublicFunc broker o p) as [e|b]; [discriminate|].
  intros _. exists b. reflexivity.
Qed.

(** After a successful run the plan is settled. *)
Lemma resync_plan_settles (broker : types.ServiceBroker)
    (x : types.ServiceOffering * types.ServicePlan) (s s' : State) :
  well_formed s ->
  run_plan isCatalogPlanPublicFunc supportedPlatforms broker x s
    = inr (tt, s') ->
  settled isCatalogPlanPublicFunc supportedPlatforms broker x s'.
Proof.
  intros Hwf Hrun. unfold run_plan in Hrun.
  destruct (resync_plan_public _ _ _ _ _ Hrun) as [b Hb].
  destruct (resync_plan_inv _ _ _ _ _ _ Hwf Hb Hrun)
    as (C & _ & Hc & _ & Hp & Hrows & _).
  exists b. split; [assumption|].
  unfold decide in *. unfold platforms_of_types in *. rewrite Hp, Hrows.
  destruct (List.length (supportedPlatforms (snd x)) =? 0)%nat.
  - apply (decideA_settles _ _ _ _ Hc).
  - apply (decideB_settles _ _ _ _ _ Hc).
Qed.

(** A settled plan is left alone: the run makes no call that writes. *)
Lemma settled_run (broker : types.ServiceBroker)
    (x : types.ServiceOffering * types.ServicePlan) (s : State) :
  settled isCatalogPlanPublicFunc supportedPlatforms broker x s ->
  run_plan isCatalogPlanPublicFunc supportedPlatforms broker x s
  = inr (tt, s).
Proof.
  intros (b & Hb & Hd & Hc). unfold run_plan.
  rewrite (resync_plan_refines _ _ _ _ _ Hb).
  unfold execute. rewrite Hd, Hc. reflexivity.
Qed.

Lemma for_each_app {A} (body : A -> M unit) (l1 l2 : list A) (s : State) :
  for_each (l1 ++ l2) body s
  = match for_each l1 body s with
    | inl e => inl e
    | inr (_, s') => for_each l2 body s'
    end.
Proof.
  revert s. induction l1 as [|a l1 IH]; intros s; simpl; [reflexivity|].
  unfold bind. destruct (body a s) as [e|[[] s']]; [reflexivity|]. apply IH.
Qed.

(** The two nested loops of [resync] visit [broker_plans] in order. *)
Lemma resync_flat (broker : types.ServiceBroker) (s : State) :
  resync isCatalogPlanPublicFunc supportedPlatforms broker s
  = for_each (broker_plans broker) (run_plan isCatalogPlanPublicFunc supportedPlatforms broker) s.
Proof.
  unfold resync, broker_plans. revert s.
  induction (types.Services broker) as [|o os IH]; intros s; simpl;
    [reflexivity|].
  rewrite for_each_app, for_each_map. unfold bind, run_plan. simpl.
  destruct (for_each (types.Plans o) _ s) as [e|[[] s']]; [reflexivity|].
  apply IH.
Qed.

Lemma first_run (broker : types.ServiceBroker)
    (l : list (types.ServiceOffering * types.ServicePlan)) :
  forall s s1,
    well_formed s -> NoDup (plan_ids l) ->
    for_each l (run_plan isCatalogPlanPublicFunc supportedPlatforms broker) s = inr (tt, s1) ->
    well_formed s1 /\ platforms s1 = platforms s /\
    (forall x, In x l ->
       settled isCatalogPlanPublicFunc supportedPlatforms broker x s1) /\
    (forall other, ~ In other (plan_ids l) ->
       plan_rows other s1 = plan_rows other s).
Proof.
  induction l as [|x l IH]; intros s s1 Hwf Hnd Hrun.
  - inversion Hrun; subst. repeat split; try apply Hwf. intros x [].
  - simpl in Hrun, Hnd. unfold bind in Hrun. unfold run_plan at 1 in Hrun.
    inversion Hnd as [|? ? Hx Hl]; subst.
    destruct (resync_plan _ _ broker (fst x) (snd x) s) as [e|[[] s2]] eqn:E;
      [discriminate|].
    destruct (resync_plan_public _ _ _ _ _ E) as [b Hb].
    destruct (resync_plan_inv _ _ _ _ _ _ Hwf Hb E)
      as (C & _ & _ & Hwf2 & Hp2 & _ & Hother).
    destruct (IH s2 s1 Hwf2 Hl Hrun) as (Hwf1 & Hp1 & Hset & Hrest).
    split; [assumption|]. split; [congruence|]. split.
    + intros y [<-|Hy]; [|apply Hset; assumption].
      apply (settled_ext broker x s2 s1).
      * apply Hrest. assumption.
      * assumption.
      * apply (resync_plan_settles broker x s s2); assumption.
    + intros other Hno. rewrite Hrest.
      * apply Hother. intros ->. apply Hno. left. reflexivity.
      * intros Hin. apply Hno. right. assumption.
Qed.

Lemma second_run (broker : types.ServiceBroker)
    (l : list (types.ServiceOffering * types.ServicePlan)) (s : State) :
  (forall x, In x l ->
     settled isCatalogPlanPublicFunc supportedPlatforms broker x s) ->
  for_each l (run_plan isCatalogPlanPublicFunc supportedPlatforms broker) s = inr (tt, s).
Proof.
  induction l as [|x l IH]; intros H; simpl; [reflexivity|].
  unfold bind. rewrite settled_run by (apply H; left; reflexivity).
  apply IH. intros y Hy. apply H. right. assumption.
Qed.

(** *** The reconciler, claim by claim *)

Lemma can_create_none (s : State) : well_formed s -> can_create 0 s.
Proof. intros [H _]. split; [apply Nat.le_0_l | exact H]. Qed.

Lemma caseA_kept_rows (b : bool) (planID : string)
    (vs : list types.Visibility) :
  NoDup (ids vs) ->
  without (ids (deleted (decideA b (filter (of_plan planID) vs)))) vs
  = filter (fun v => negb (of_plan planID v) || keepA b v) vs.
Proof.
  intros Hnd. apply without_Split; [assumption|].
  simpl. rewrite filter_filter_and.
  rewrite (filter_ext (fun x => of_plan planID x && negb (keepA b x))
             (fun x => negb (negb (of_plan planID x) || keepA b x))).
  - apply Split_filter.
  - intros v. destruct (of_plan planID v); destruct (keepA b v); reflexivity.
Qed.

(** C1 (amended): for a plan whose supported-platforms list is empty, a
    run leaves, of the rows of the plan, the wildcard rows when the plan is
    public and the rows with a platform id when it is not, labeled or not;
    rows of other plans stay; and when the plan is public and has no
    wildcard row, exactly one row with empty platform id and no labels is
    created for it (nothing is created otherwise). *)
Theorem caseA_target_state (broker : types.ServiceBroker)
    (o : types.ServiceOffering) (p : types.ServicePlan) (b : bool)
    (s : State) :
  well_formed s ->
  isCatalogPlanPublicFunc broker o p = inr b ->
  supportedPlatforms p = [] ->
  (b && negb (existsb wildcard (plan_rows (types.ServicePlan_ID p) s)) = true
   -> can_create 1 s) ->
  exists s' C,
    resync_plan isCatalogPlanPublicFunc supportedPlatforms broker o p s
      = inr (tt, s') /\
    visibilities s'
      = filter (fun v => negb (of_plan (types.ServicePlan_ID p) v)
                         || keepA b v) (visibilities s) ++ C /\
    created_for (types.ServicePlan_ID p)
      (if b && negb (existsb wildcard (plan_rows (types.ServicePlan_ID p) s))
       then [""%string] else []) C.
Proof.
  intros Hwf Hb Hsup Hfresh.
  assert (Hout : decide b (supportedPlatforms p) s (types.ServicePlan_ID p)
                 = decideA b (plan_rows (types.ServicePlan_ID p) s)).
  { unfold decide. rewrite Hsup. reflexivity. }
  destruct (resync_plan_ok broker o p b s Hwf Hb) as [s' Hrun].
  { rewrite Hout. simpl.
    destruct (b && negb (existsb wildcard
                           (plan_rows (types.ServicePlan_ID p) s))).
    - apply Hfresh. reflexivity.
    - apply can_create_none. assumption. }
  destruct (resync_plan_inv _ _ _ _ _ _ Hwf Hb Hrun)
    as (C & Hv & Hc & _).
  rewrite Hout in Hv, Hc.
  exists s', C. split; [assumption|]. split; [|exact Hc].
  rewrite Hv. f_equal. apply caseA_kept_rows. apply Hwf.
Qed.

Lemma supported_nonempty (platformTypes : list string) :
  platformTypes <> [] -> (List.length platformTypes =? 0)%nat = false.
Proof. destruct platformTypes; [congruence | reflexivity]. Qed.

(** C2 (amended): for a plan whose supported-platforms list is not empty
    the rows of the plan are gone through in order.  When the plan is
    public a row stays if it is unlabeled and pairs with a supported
    platform that no earlier unlabeled row covers, and is deleted
    otherwise (so are labeled rows); then one unlabeled row is created
    for every supported platform no unlabeled row targets.  When the plan
    is not public a row stays if it is labeled and pairs with a supported
    platform, is deleted otherwise, and nothing is created.  Rows of
    other plans stay. *)
Theorem caseB_target_state (broker : types.ServiceBroker)
    (o : types.ServiceOffering) (p : types.ServicePlan) (b : bool)
    (s : State) :
  well_formed s ->
  isCatalogPlanPublicFunc broker o p = inr b ->
  supportedPlatforms p <> [] ->
  let planID := types.ServicePlan_ID p in
  let plats := platforms_of_types (supportedPlatforms p) s in
  let targets :=
    if b then platform_ids (uncovered (plan_rows planID s) plats) else [] in
  can_create (List.length targets) s ->
  exists s' C,
    resync_plan isCatalogPlanPublicFunc supportedPlatforms broker o p s
      = inr (tt, s') /\
    plan_rows planID s'
      = filter_hist (keepB b plats) [] (plan_rows planID s) ++ C /\
    created_for planID targets C /\
    (forall other, other <> planID -> plan_rows other s' = plan_rows other s).
Proof.
  intros Hwf Hb Hsup planID plats targets Hfresh.
  assert (Hout : decide b (supportedPlatforms p) s planID
                 = decideB b (plan_rows planID s) plats).
  { unfold decide. rewrite (supported_nonempty _ Hsup). reflexivity. }
  assert (Hnd : NoDup (platform_ids plats)).
  { apply NoDup_platform_ids_filter. apply Hwf. }
  destruct (decideB_by_position b (plan_rows planID s) plats Hnd) as [Hk Hc].
  destruct (resync_plan_ok broker o p b s Hwf Hb) as [s' Hrun].
  { fold planID. rewrite Hout, Hc. exact Hfresh. }
  destruct (resync_plan_inv _ _ _ _ _ _ Hwf Hb Hrun)
    as (C & _ & Hcr & _ & _ & Hrows & Hother).
  fold planID in Hcr, Hrows, Hother. rewrite Hout in Hcr, Hrows.
  rewrite Hc in Hcr. rewrite Hk in Hrows.
  exists s', C. split; [assumption|]. split; [assumption|].
  split; [exact Hcr | assumption].
Qed.

(** *** First come, first kept *)

Lemma filter_hist_blocked (plats : list types.Platform)
    (v : types.Visibility) (l : list types.Visibility) :
  forall h,
    existsb (same_target v) h = true ->
    filter (same_platform v) (filter_hist (keepB true plats) h l) = [].
Proof.
  induction l as [|w l IH]; intros h Hh; cbn [filter_hist]; [reflexivity|].
  rewrite filter_app.
  rewrite IH by (rewrite existsb_app, Hh; reflexivity).
  rewrite app_nil_r.
  destruct (keepB true plats h w) eqn:E; [|reflexivity].
  unfold keepB in E.
  simpl. destruct (same_platform v w) eqn:Ep; [|reflexivity].
  exfalso. unfold same_platform in Ep. apply String.eqb_eq in Ep.
  apply andb_true_iff in E. destruct E as [_ E].
  apply negb_true_iff in E.
  rewrite (existsb_same (same_target w) (same_target v)) in E.
  - congruence.
  - intros x. unfold same_target. rewrite Ep. reflexivity.
Qed.

Lemma filter_hist_first (plats : list types.Platform)
    (v : types.Visibility) (l2 : list types.Visibility) :
  unlabeled v = true -> supported_by plats v = true ->
  forall l1 h,
    existsb (same_target v) h = false ->
    existsb (same_target v) l1 = false ->
    filter (same_platform v)
      (filter_hist (keepB true plats) h (l1 ++ v :: l2)) = [v].
Proof.
  intros Hu Hs.
  induction l1 as [|x l1 IH]; intros h Hh Hl1; cbn [filter_hist app].
  - rewrite filter_app.
    assert (Hk : keepB true plats h v = true)
      by (unfold keepB; rewrite Hu, Hs, Hh; reflexivity).
    rewrite Hk. simpl.
    unfold same_platform at 1. rewrite String.eqb_refl.
    rewrite filter_hist_blocked; [reflexivity|].
    rewrite existsb_app. simpl. unfold same_target at 2.
    rewrite Hu, String.eqb_refl. simpl. apply orb_true_r.
  - simpl in Hl1. apply orb_false_iff in Hl1. destruct Hl1 as [Hx Hl1].
    rewrite filter_app.
    rewrite IH; [|rewrite existsb_app, Hh; simpl; rewrite Hx; reflexivity
                 |assumption].
    destruct (keepB true plats h x) eqn:E; [|reflexivity].
    unfold keepB in E.
    simpl. unfold same_target in Hx.
    apply andb_true_iff in E. destruct E as [E _].
    apply andb_true_iff in E. destruct E as [E _].
    rewrite E in Hx. simpl in Hx. unfold same_platform. rewrite Hx.
    reflexivity.
Qed.

Lemma created_not_target (planID : string) (rows C : list types.Visibility)
    (plats : list types.Platform) (v : types.Visibility) :
  created_for planID (platform_ids (uncovered rows plats)) C ->
  In v rows -> unlabeled v = true ->
  filter (same_platform v) C = [].
Proof.
  intros [Hm _] Hv Hu.
  assert (H : forall c, In c C -> same_platform v c = false).
  { intros c Hc. unfold same_platform.
    destruct (String.eqb (types.PlatformID c) (types.PlatformID v)) eqn:E;
      [|reflexivity].
    apply String.eqb_eq in E. exfalso.
    assert (Hin : In (types.PlatformID c) (platform_ids (uncovered rows plats))).
    { rewrite <- Hm. apply in_map. assumption. }
    unfold platform_ids in Hin. apply in_map_iff in Hin.
    destruct Hin as (q & Eq & Hq). unfold uncovered in Hq.
    apply filter_In in Hq. destruct Hq as [_ Hq].
    apply negb_true_iff in Hq.
    assert (Hex : existsb (covers q) rows = true).
    { apply existsb_exists. exists v. split; [assumption|].
      unfold covers. rewrite Hu. simpl. apply String.eqb_eq. congruence. }
    congruence. }
  clear Hm. induction C as [|c C IH]; [reflexivity|]. simpl.
  rewrite (H c) by (left; reflexivity). apply IH.
  intros c' Hc'. apply H. right. assumption.
Qed.

(** C4 (amended): for a public plan with a non-empty supported-platforms
    list, of several unlabeled rows of the plan for the same supported
    platform the first one listed is kept and all the others are deleted:
    after the run it is the only row of the plan for that platform.  For
    a public plan with an empty supported-platforms list every wildcard
    row is kept. *)
Theorem first_unlabeled_row_wins (broker : types.ServiceBroker)
    (o : types.ServiceOffering) (p : types.ServicePlan) (s : State) :
  well_formed s ->
  isCatalogPlanPublicFunc broker o p = inr true ->
  let planID := types.ServicePlan_ID p in
  let plats := platforms_of_types (supportedPlatforms p) s in
  (supportedPlatforms p <> [] ->
   can_create
     (List.length (platform_ids (uncovered (plan_rows planID s) plats))) s ->
   forall l1 v l2,
     plan_rows planID s = l1 ++ v :: l2 ->
     unlabeled v = true -> supported_by plats v = true ->
     existsb (same_target v) l1 = false ->
     exists s',
       resync_plan isCatalogPlanPublicFunc supportedPlatforms broker o p s
         = inr (tt, s') /\
       filter (same_platform v) (plan_rows planID s') = [v]) /\
  (supportedPlatforms p = [] ->
   existsb wildcard (plan_rows planID s) = true ->
   exists s',
     resync_plan isCatalogPlanPublicFunc supportedPlatforms broker o p s
       = inr (tt, s') /\
     plan_rows planID s' = filter wildcard (plan_rows planID s)).
Proof.
  intros Hwf Hb planID plats. split.
  - intros Hsup Hfresh l1 v l2 Hrows Hu Hs Hl1.
    assert (Hout : decide true (supportedPlatforms p) s planID
                   = decideB true (plan_rows planID s) plats).
    { unfold decide. rewrite (supported_nonempty _ Hsup). reflexivity. }
    assert (Hnd : NoDup (platform_ids plats)).
    { apply NoDup_platform_ids_filter. apply Hwf. }
    destruct (decideB_by_position true (plan_rows planID s) plats Hnd)
      as [Hk Hc].
    destruct (resync_plan_ok broker o p true s Hwf Hb) as [s' Hrun].
    { fold planID. rewrite Hout, Hc. exact Hfresh. }
    destruct (resync_plan_inv _ _ _ _ _ _ Hwf Hb Hrun)
      as (C & _ & Hcr & _ & _ & Hafter & _).
    fold planID in Hcr, Hafter. rewrite Hout in Hcr, Hafter.
    rewrite Hc in Hcr. rewrite Hk in Hafter.
    exists s'. split; [assumption|].
    rewrite Hafter, filter_app, Hrows.
    rewrite (filter_hist_first plats v l2 Hu Hs l1 [])
      by (reflexivity || assumption).
    rewrite (created_not_target planID (plan_rows planID s) C plats v);
      [reflexivity | assumption | | assumption].
    rewrite Hrows. apply in_or_app. right. left. reflexivity.
  - intros Hsup Hw.
    assert (Hout : decide true (supportedPlatforms p) s planID
                   = decideA true (plan_rows planID s)).
    { unfold decide. rewrite Hsup. reflexivity. }
    destruct (resync_plan_ok broker o p true s Hwf Hb) as [s' Hrun].
    { fold planID. rewrite Hout. simpl. rewrite Hw. simpl.
      apply can_create_none. assumption. }
    destruct (resync_plan_inv _ _ _ _ _ _ Hwf Hb Hrun)
      as (C & _ & Hcr & _ & _ & Hafter & _).
    fold planID in Hcr, Hafter. rewrite Hout in Hcr, Hafter.
    simpl in Hcr, Hafter. rewrite Hw in Hcr. simpl in Hcr.
    apply created_for_nil in Hcr. subst C.
    exists s'. split; [assumption|].
    rewrite Hafter, app_nil_r. reflexivity.
Qed.

(** C3: a second run of [resync] on the table the first run left, with
    the same broker, writes nothing: it returns the table as it found
    it. *)
Theorem resync_idempotent (broker : types.ServiceBroker) (s s1 : State) :
  well_formed s ->
  NoDup (plan_ids (broker_plans broker)) ->
  resync isCatalogPlanPublicFunc supportedPlatforms broker s = inr (tt, s1) ->
  resync isCatalogPlanPublicFunc supportedPlatforms broker s1 = inr (tt, s1).
Proof.
  intros Hwf Hnd Hrun. rewrite resync_flat in *.
  destruct (first_run broker _ s s1 Hwf Hnd Hrun) as (_ & _ & Hset & _).
  apply second_run. assumption.
Qed.

End PlanFacts.

(** *** Concrete runs *)

Import Samples.

Lemma distinct_NoDup (l : list string) : distinct l = true -> NoDup l.
Proof.
  induction l as [|x l IH]; simpl; intros H; [constructor|].
  apply andb_true_iff in H. destruct H as [Hx Hl].
  constructor; [|auto]. apply mem_not_In. apply negb_true_iff. assumption.
Defined.

Lemma state_of_well_formed (rows : list types.Visibility)
    (random : list string) :
  distinct (ids rows) = true -> well_formed (state_of rows random).
Proof.
  intros H. split; apply distinct_NoDup; [exact H | reflexivity].
Defined.

Lemma state_of_can_create (n : nat) (rows : list types.Visibility)
    (random : list string) :
  (n <=? List.length random)%nat = true ->
  distinct (firstn n random ++ ids rows) = true ->
  can_create n (state_of rows random).
Proof.
  intros Hn H. split; [apply Nat.leb_le; exact Hn | apply distinct_NoDup; exact H].
Defined.

(** C1, as stated, fails: [plan_all] is public and supports every
    platform; its labeled row for platform [cf-1] does not survive the
    run. *)
Lemma labeled_row_deleted_caseA :
  In labeled_specific (visibilities state_labeled_specific) /\
  types.Visibility_Labels labeled_specific <> [] /\
  declared_platforms plan_all = [] /\
  exists s',
    resync_plan free_is_public declared_platforms sample_broker offering
      plan_all state_labeled_specific = inr (tt, s') /\
    ~ In labeled_specific (visibilities s').
Proof.
  split; [left; reflexivity|]. split; [discriminate|].
  split; [reflexivity|].
  eexists. split; [vm_compute; reflexivity|].
  intros [H|[]]. discriminate H.
Qed.

Lemma caseA_target_state_witness :
  exists s' C,
    resync_plan free_is_public declared_platforms sample_broker offering
      plan_all state_labeled_specific = inr (tt, s') /\
    visibilities s'
      = filter (fun v => negb (of_plan "plan-all"%string v) || keepA true v)
          (visibilities state_labeled_specific) ++ C /\
    created_for "plan-all"%string [""%string] C.
Proof.
  refine (caseA_target_state free_is_public declared_platforms sample_broker
            offering plan_all true state_labeled_specific _ _ _ _).
  - apply state_of_well_formed. reflexivity.
  - reflexivity.
  - reflexivity.
  - intros _. apply state_of_can_create; reflexivity.
Defined.

(** C2, as stated, fails: [plan_cf] is public and supports the Cloud
    Foundry platforms; its labeled row pairs with the supported platform
    [cf-1] and is deleted all the same. *)
Lemma labeled_row_deleted_caseB :
  In labeled_cf (visibilities state_labeled_cf) /\
  types.Visibility_Labels labeled_cf <> [] /\
  supported_by
    (platforms_of_types (declared_platforms plan_cf) state_labeled_cf)
    labeled_cf = true /\
  exists s',
    resync_plan free_is_public declared_platforms sample_broker offering
      plan_cf state_labeled_cf = inr (tt, s') /\
    ~ In labeled_cf (visibilities s').
Proof.
  split; [left; reflexivity|]. split; [discriminate|].
  split; [reflexivity|].
  eexists. split; [vm_compute; reflexivity|].
  intros [H|[H|[]]]; discriminate H.
Qed.

Lemma caseB_target_state_witness :
  exists s' C,
    resync_plan free_is_public declared_platforms sample_broker offering
      plan_cf state_mixed = inr (tt, s') /\
    plan_rows "plan-cf"%string s'
      = filter_hist
          (keepB true (platforms_of_types ["cloudfoundry"%string] state_mixed)) []
          (plan_rows "plan-cf"%string state_mixed) ++ C /\
    created_for "plan-cf"%string ["cf-2"%string] C /\
    (forall other, other <> "plan-cf"%string ->
       plan_rows other s' = plan_rows other state_mixed).
Proof.
  refine (caseB_target_state free_is_public declared_platforms sample_broker
            offering plan_cf true state_mixed _ _ _ _).
  - apply state_of_well_formed. reflexivity.
  - reflexivity.
  - discriminate.
  - apply state_of_can_create; reflexivity.
Defined.

Lemma resync_idempotent_witness :
  resync free_is_public declared_platforms sample_broker state_mixed_resynced
  = inr (tt, state_mixed_resynced).
Proof.
  apply (resync_idempotent free_is_public declared_platforms sample_broker
           state_mixed state_mixed_resynced).
  - apply state_of_well_formed. reflexivity.
  - apply distinct_NoDup. reflexivity.
  - vm_compute. reflexivity.
Defined.

(** C4, as stated, fails: [plan_all] is public and supports every
    platform; of its two unlabeled wildcard rows none is deleted, the run
    leaves the table as it is. *)
Lemma duplicate_wildcards_both_kept :
  unlabeled wildcard_1 = true /\ unlabeled wildcard_2 = true /\
  types.PlatformID wildcard_1 = ""%string /\ types.PlatformID wildcard_2 = ""%string /\
  plan_rows "plan-all"%string state_two_wildcards = [wildcard_1; wildcard_2] /\
  resync_plan free_is_public declared_platforms sample_broker offering
    plan_all state_two_wildcards = inr (tt, state_two_wildcards).
Proof. repeat split. Qed.

Lemma first_unlabeled_row_wins_witness :
  (exists s',
      resync_plan free_is_public declared_platforms sample_broker offering
        plan_cf state_mixed = inr (tt, s') /\
      filter (same_platform first_cf) (plan_rows "plan-cf"%string s') = [first_cf]) /\
  (exists s',
      resync_plan free_is_public declared_platforms sample_broker offering
        plan_all state_two_wildcards = inr (tt, s') /\
      plan_rows "plan-all"%string s'
        = filter wildcard (plan_rows "plan-all"%string state_two_wildcards)).
Proof.
  split.
  - refine (proj1 (first_unlabeled_row_wins free_is_public declared_platforms
                     sample_broker offering plan_cf state_mixed _ _)
              _ _ [] first_cf [second_cf; labeled_cf] _ _ _ _);
      try reflexivity.
    + apply state_of_well_formed. reflexivity.
    + discriminate.
    + apply state_of_can_create; reflexivity.
  - refine (proj2 (first_unlabeled_row_wins free_is_public declared_platforms
                     sample_broker offering plan_all state_two_wildcards _ _)
              _ _); try reflexivity.
    apply state_of_well_formed. reflexivity.
Defined.

End ReconcilerFacts.

(* ===================================================================== *)
(** ** Broker reconciliation driver                                      *)
(* ===================================================================== *)

Section BrokerFacts.
Import broker BrokerSpec.

Variable new_id : nat -> string.

(** *** The fetcher *)

Lemma fetch_catalog_logs (url username password : string) (w : World) :
  snd (fetch_catalog url username password w) = log_request url w.
Proof.
  unfold fetch_catalog.
  destruct (find _ (servers w)) as [srv|]; [|reflexivity].
  destruct (String.eqb (server_username srv) username
            && String.eqb (server_password srv) password); [|reflexivity].
  destruct (server_reply srv); reflexivity.
Qed.

Lemma InTransaction_requests (ok : Status) (f : Tx unit) (w : World) :
  catalog_requests (snd (InTransaction ok f w)) = catalog_requests w.
Proof.
  unfold InTransaction.
  destruct (f (db w, id_counter w)) as [e|[[] [d n]]]; reflexivity.
Qed.

Lemma InTransaction_rollback (ok e : Status) (f : Tx unit) (w : World) :
  f (db w, id_counter w) = inl e -> InTransaction ok f w = (e, w).
Proof. intros H. unfold InTransaction. rewrite H. reflexivity. Qed.

(** *** Deletes and the foreign key of instances *)

Lemma delete_plan_instances (p : PlanRow) (s s' : Db * nat) :
  delete_plan p s = inr (tt, s') -> instances (fst s') = instances (fst s).
Proof.
  unfold delete_plan.
  destruct (existsb _ (instances (fst s))); [discriminate|].
  intros H. inversion H. reflexivity.
Qed.

Lemma delete_plan_only_fails_on_reference (p : PlanRow) (s : Db * nat)
    (e : Status) :
  delete_plan p s = inl e -> e = ExistingReferenceEntity.
Proof.
  unfold delete_plan.
  destruct (existsb _ (instances (fst s))); [|discriminate].
  intros H. inversion H. reflexivity.
Qed.

(** Deleting a list of plans of which one is referenced by an instance
    stops with [ExistingReferenceEntity]. *)
Lemma delete_plans_refused (l : list PlanRow) :
  forall (s : Db * nat) (p : PlanRow) (i : InstanceRow),
    In p l -> In i (instances (fst s)) ->
    instance_plan_id i = plan_row_id p ->
    tx_each l delete_plan s = inl ExistingReferenceEntity.
Proof.
  induction l as [|q l IH]; intros s p i Hp Hi Href; [destruct Hp|].
  simpl. unfold tx_bind.
  destruct (delete_plan q s) as [e|[[] s']] eqn:E.
  - f_equal. apply (delete_plan_only_fails_on_reference q s). assumption.
  - destruct Hp as [->|Hp].
    + exfalso. unfold delete_plan in E.
      assert (Hex : existsb (fun i0 => String.eqb (instance_plan_id i0)
                                         (plan_row_id p))
                      (instances (fst s)) = true).
      { apply existsb_exists. exists i. split; [assumption|].
        apply String.eqb_eq. assumption. }
      rewrite Hex in E. discriminate.
    + apply (IH s' p i); try assumption.
      rewrite (delete_plan_instances q s s' E). assumption.
Qed.

(** C6: a DELETE of a broker that owns a plan an instance references is
    refused with ExistingReferenceEntity (409), and the storage (the
    broker row, its offerings and its plans) is what it was before the
    request. *)
Theorem DELETE_refused_while_plan_in_use (id : string) (w : World)
    (row : BrokerRow) :
  find_broker id (db w) = Some row ->
  plan_in_use id (db w) ->
  DELETE id w = (ExistingReferenceEntity, w) /\
  status_code (fst (DELETE id w)) = 409.
Proof.
  intros Hfind (p & i & Hp & Hi & Href).
  assert (H : DELETE id w = (ExistingReferenceEntity, w)).
  { unfold DELETE. rewrite Hfind. apply InTransaction_rollback.
    simpl. unfold tx_bind.
    rewrite (delete_plans_refused _ (db w, id_counter w) p i Hp Hi Href).
    reflexivity. }
  rewrite H. split; reflexivity.
Qed.

(** *** Inserts and the uniqueness of names *)

Lemma offerings_of_app (b : string) (d d' : Db) (extra : list OfferingRow) :
  offerings d' = offerings d ++ extra ->
  offerings_of b d'
  = offerings_of b d
    ++ filter (fun o => String.eqb (offering_broker_id o) b) extra.
Proof. intros H. unfold offerings_of. rewrite H. apply filter_app. Qed.

Lemma find_offering_app (catalog_id : string) (l extra : list OfferingRow)
    (o : OfferingRow) :
  find_offering catalog_id l = Some o ->
  find_offering catalog_id (l ++ extra) = Some o.
Proof.
  unfold find_offering. induction l as [|x l IH]; simpl; [discriminate|].
  destruct (String.eqb (offering_catalog_id x) catalog_id); auto.
Qed.

Lemma find_offering_present (catalog_id : string) (l : list OfferingRow)
    (o : OfferingRow) :
  In o l -> offering_catalog_id o = catalog_id ->
  find_offering catalog_id l <> None.
Proof.
  intros Hin E Hnone. unfold find_offering in Hnone.
  apply (find_none _ _ Hnone) in Hin. simpl in Hin.
  rewrite E, String.eqb_refl in Hin. discriminate.
Qed.

Lemma insert_offering_run (b : string) (sv : CatalogService) (s : Db * nat) :
  (insert_offering new_id b sv s = inl Conflict) \/
  (exists s',
      insert_offering new_id b sv s = inr (tt, s') /\
      plans (fst s') = plans (fst s) /\
      (exists o, offerings (fst s') = offerings (fst s) ++ [o] /\
                 offering_catalog_id o = service_id sv /\
                 offering_broker_id o = b) /\
      (forall o, In o (offerings_of b (fst s)) ->
                 offering_catalog_name o <> service_name sv)).
Proof.
  unfold insert_offering, tx_bind, fresh_id. simpl.
  destruct (existsb _ (offerings (fst s))); [left; reflexivity|]. simpl.
  destruct (existsb _ (offerings_of b (fst s))) eqn:E; [left; reflexivity|].
  right. eexists. split; [reflexivity|]. simpl.
  split; [reflexivity|]. split.
  - eexists. split; [reflexivity|]. split; reflexivity.
  - intros o Ho Hname.
    assert (Hex : existsb
                    (fun o0 => String.eqb (offering_catalog_id o0) (service_id sv)
                               || String.eqb (offering_catalog_name o0)
                                    (service_name sv))
                    (offerings_of b (fst s)) = true).
    { apply existsb_exists. exists o. split; [assumption|].
      rewrite Hname, String.eqb_refl. apply orb_true_r. }
    congruence.
Qed.

(** Offering inserts either stop with [Conflict] or add, for every
    service, an offering of the broker with its [catalog_id]; plans stay
    as they are. *)
Lemma insert_offerings_run (b : string) (l : list CatalogService) :
  forall s,
    (tx_each l (insert_offering new_id b) s = inl Conflict) \/
    (exists s' extra,
        tx_each l (insert_offering new_id b) s = inr (tt, s') /\
        plans (fst s') = plans (fst s) /\
        offerings (fst s') = offerings (fst s) ++ extra /\
        (forall sv, In sv l ->
           exists o, In o (offerings_of b (fst s')) /\
                     offering_catalog_id o = service_id sv) /\
        (forall sv o, In sv l -> In o (offerings_of b (fst s)) ->
           offering_catalog_name o <> service_name sv)).
Proof.
  induction l as [|sv l IH]; intros s.
  - right. exists s, []. simpl. rewrite app_nil_r.
    split; [reflexivity|]. split; [reflexivity|]. split; [reflexivity|].
    split; [intros sv [] | intros sv o []].
  - simpl. unfold tx_bind.
    destruct (insert_offering_run b sv s)
      as [E|(s1 & E & Hp1 & (o1 & Ho1 & Hid1 & Hb1) & Hn1)];
      rewrite E; [left; reflexivity|].
    destruct (IH s1) as [E2|(s2 & extra & E2 & Hp2 & Ho2 & Hall & Hn2)];
      [left; assumption|].
    right. exists s2, (o1 :: extra). split; [assumption|].
    split; [congruence|]. split.
    { rewrite Ho2, Ho1, <- app_assoc. reflexivity. }
    split.
    + intros sv' [<-|Hin]; [|apply Hall; assumption].
      exists o1. split; [|assumption].
      rewrite (offerings_of_app b (fst s1) (fst s2) extra Ho2).
      apply in_or_app. left.
      rewrite (offerings_of_app b (fst s) (fst s1) [o1] Ho1).
      apply in_or_app. right. simpl. rewrite Hb1, String.eqb_refl.
      left. reflexivity.
    + intros sv' o [<-|Hin] Ho; [apply Hn1; assumption|].
      apply (Hn2 sv' o Hin).
      rewrite (offerings_of_app b (fst s) (fst s1) [o1] Ho1).
      apply in_or_app. left. assumption.
Qed.

Lemma plans_of_app (o : OfferingRow) (l extra : list PlanRow) :
  plans_of o (l ++ extra) = plans_of o l ++ plans_of o extra.
Proof. apply filter_app. Qed.

(** Plan inserts stop with [Conflict] when one of the plans carries the
    name of a plan its offering already has. *)
Lemma insert_plans_conflict (b : string) (o : OfferingRow) (p : PlanRow)
    (offering_catalog : string) (cp : CatalogPlan)
    (l : list (string * CatalogPlan)) :
  plan_name cp = plan_catalog_name p ->
  In (offering_catalog, cp) l ->
  forall s,
    find_offering offering_catalog (offerings_of b (fst s)) = Some o ->
    In p (plans_of o (plans (fst s))) ->
    (forall item, In item l ->
       find_offering (fst item) (offerings_of b (fst s)) <> None) ->
    tx_each l (insert_plan new_id b) s = inl Conflict.
Proof.
  intros Hname. induction l as [|[oc cq] l IH]; intros Hin s Hfind Hp Hall;
    [destruct Hin|].
  simpl. unfold tx_bind at 1. unfold insert_plan, tx_bind, fresh_id. simpl.
  destruct (find_offering oc (offerings_of b (fst s))) as [o'|] eqn:Eo.
  2:{ exfalso. apply (Hall (oc, cq)); [left; reflexivity | assumption]. }
  destruct (existsb _ (plans (fst s))); [reflexivity|]. simpl.
  destruct (existsb _ (plans_of o' (plans (fst s)))) eqn:Ex; [reflexivity|].
  destruct Hin as [Heq|Hin].
  - exfalso. inversion Heq; subst oc cq.
    rewrite Hfind in Eo. inversion Eo; subst o'.
    assert (Hex : existsb
                    (fun p0 => String.eqb (plan_catalog_id p0) (plan_id cp)
                               || String.eqb (plan_catalog_name p0) (plan_name cp))
                    (plans_of o (plans (fst s))) = true).
    { apply existsb_exists. exists p. split; [assumption|].
      rewrite Hname, String.eqb_refl. apply orb_true_r. }
    congruence.
  - apply IH; simpl; try assumption.
    + rewrite plans_of_app. apply in_or_app. left. assumption.
    + intros item Hitem. apply Hall. right. assumption.
Qed.

(** *** The delta of a catalog with a changed id under a kept name *)

Lemma find_offering_none (catalog_id : string) (l : list OfferingRow) :
  (forall o, In o l -> offering_catalog_id o <> catalog_id) ->
  find_offering catalog_id l = None.
Proof.
  intros H. unfold find_offering.
  destruct (find _ l) as [o|] eqn:E; [|reflexivity].
  apply find_some in E. destruct E as [Hin Heq].
  apply String.eqb_eq in Heq. exfalso. apply (H o Hin Heq).
Qed.

Lemma plans_of_broker_incl (b : string) (d : Db) (o : OfferingRow)
    (p : PlanRow) :
  In p (plans_of o (plans_of_broker b d)) -> In p (plans_of o (plans d)).
Proof.
  unfold plans_of at 1. intros H. apply filter_In in H. destruct H as [H Ho].
  unfold plans_of_broker in H. apply in_flat_map in H.
  destruct H as (o' & _ & H). unfold plans_of in H. apply filter_In in H.
  unfold plans_of. apply filter_In. tauto.
Qed.

Lemma plansToCreate_service (c : Catalog) (so : list OfferingRow)
    (sp : list PlanRow) (item : string * CatalogPlan) :
  In item (plansToCreate (diff c so sp)) ->
  exists sv, In sv c /\ fst item = service_id sv.
Proof.
  simpl. intros H. apply in_flat_map in H. destruct H as (sv & Hsv & H).
  exists sv. split; [assumption|]. unfold new_plans in H.
  destruct (find_offering (service_id sv) so);
    apply in_map_iff in H; destruct H as (cp & <- & _); reflexivity.
Qed.

Lemma apply_delta_conflict_plan (b : string) (c : Catalog) (s : Db * nat) :
  plan_id_changed_name_kept b (fst s) c ->
  apply_delta new_id b
    (diff c (offerings_of b (fst s)) (plans_of_broker b (fst s))) s
  = inl Conflict.
Proof.
  intros (o & p & sv & cp & Hfind & Hp & Hsv & Hcp & Hname & Hnew).
  unfold apply_delta. unfold tx_bind at 1.
  destruct (insert_offerings_run b
              (offeringsToCreate
                 (diff c (offerings_of b (fst s)) (plans_of_broker b (fst s))))
              s)
    as [E|(s1 & extra & E & Hp1 & Ho1 & Hall & _)]; rewrite E; [reflexivity|].
  unfold tx_bind at 1.
  rewrite (insert_plans_conflict b o p (service_id sv) cp); try reflexivity;
    try assumption.
  - simpl. apply in_flat_map. exists sv. split; [assumption|].
    unfold new_plans. rewrite Hfind. apply in_map. apply filter_In.
    split; [assumption|]. apply negb_true_iff.
    destruct (existsb _ (plans_of o (plans_of_broker b (fst s)))) eqn:Ex;
      [|reflexivity].
    apply existsb_exists in Ex. destruct Ex as (p' & Hp' & Heq).
    apply String.eqb_eq in Heq. exfalso.
    apply (Hnew p'); [apply (plans_of_broker_incl b); assumption | assumption].
  - rewrite (offerings_of_app b (fst s) (fst s1) extra Ho1).
    apply find_offering_app. assumption.
  - rewrite Hp1. assumption.
  - intros item Hitem. apply plansToCreate_service in Hitem.
    destruct Hitem as (sv' & Hsv' & ->).
    destruct (find_offering (service_id sv') (offerings_of b (fst s)))
      as [o'|] eqn:Eo.
    + rewrite (offerings_of_app b (fst s) (fst s1) extra Ho1).
      rewrite (find_offering_app _ _ _ o' Eo). discriminate.
    + destruct (Hall sv') as (o' & Ho' & Hid).
      { simpl. apply filter_In. split; [assumption|]. rewrite Eo. reflexivity. }
      apply (find_offering_present _ _ o'); assumption.
Qed.

Lemma apply_delta_conflict_offering (b : string) (c : Catalog)
    (s : Db * nat) :
  offering_id_changed_name_kept b (fst s) c ->
  apply_delta new_id b
    (diff c (offerings_of b (fst s)) (plans_of_broker b (fst s))) s
  = inl Conflict.
Proof.
  intros (o & sv & Ho & Hsv & Hname & Hnew).
  unfold apply_delta. unfold tx_bind at 1.
  destruct (insert_offerings_run b
              (offeringsToCreate
                 (diff c (offerings_of b (fst s)) (plans_of_broker b (fst s))))
              s)
    as [E|(s1 & extra & E & _ & _ & _ & Hfree)]; rewrite E; [reflexivity|].
  exfalso. apply (Hfree sv o); try assumption; [|symmetry; assumption].
  simpl. apply filter_In. split; [assumption|].
  rewrite (find_offering_none _ _ Hnew). reflexivity.
Qed.

Lemma reconcile_conflict (b : string) (c : Catalog) (s : Db * nat) :
  plan_id_changed_name_kept b (fst s) c
  \/ offering_id_changed_name_kept b (fst s) c ->
  reconcile new_id b c s = inl Conflict.
Proof.
  intros H. unfold reconcile, tx_bind.
  destruct H as [H|H];
    [rewrite (apply_delta_conflict_plan b c s H)
    |rewrite (apply_delta_conflict_offering b c s H)]; reflexivity.
Qed.

Lemma update_broker_row_run (row : BrokerRow) (s : Db * nat) :
  update_broker_row row s = inl Conflict \/
  exists s',
    update_broker_row row s = inr (tt, s') /\
    offerings (fst s') = offerings (fst s) /\
    plans (fst s') = plans (fst s).
Proof.
  unfold update_broker_row.
  destruct (existsb _ (brokers (fst s))); [left; reflexivity|].
  right. eexists. split; [reflexivity|]. split; reflexivity.
Qed.

Lemma changed_name_kept_ext (b : string) (d d' : Db) (c : Catalog) :
  offerings d' = offerings d -> plans d' = plans d ->
  plan_id_changed_name_kept b d c \/ offering_id_changed_name_kept b d c ->
  plan_id_changed_name_kept b d' c \/ offering_id_changed_name_kept b d' c.
Proof.
  intros Ho Hp.
  unfold plan_id_changed_name_kept, offering_id_changed_name_kept, offerings_of.
  rewrite Ho, Hp. auto.
Qed.

(** The transaction of a PATCH whose catalog changes an id under a kept
    name stops with [Conflict]. *)
Lemma patch_transaction_conflict (b : string) (row : BrokerRow) (c : Catalog)
    (s : Db * nat) :
  plan_id_changed_name_kept b (fst s) c
  \/ offering_id_changed_name_kept b (fst s) c ->
  tx_bind (update_broker_row row) (fun _ => reconcile new_id b c) s
  = inl Conflict.
Proof.
  intros H. unfold tx_bind.
  destruct (update_broker_row_run row s) as [E|(s' & E & Ho & Hp)]; rewrite E;
    [reflexivity|].
  apply reconcile_conflict. apply (changed_name_kept_ext b (fst s)); assumption.
Qed.

(** C5: a PATCH of a broker whose freshly fetched (well-formed) catalog
    gives a stored plan, or a stored offering, a new catalog id under its
    old catalog name fails with Conflict (409), and the storage (the
    catalog blob on the broker row, the offerings and the plans) is what
    it was before the request. *)
Theorem PATCH_conflict_on_changed_catalog_id (id : string) (req : Request)
    (body : Body) (w : World) (old : BrokerRow) (c : Catalog) :
  content_type_json req = true ->
  payload req = Some body ->
  valid_patch_body body = true ->
  find_broker id (db w) = Some old ->
  fst (fetch_catalog (broker_url (apply_body old body))
         (broker_username (apply_body old body))
         (broker_password (apply_body old body)) w) = inr c ->
  valid_catalog c = true ->
  plan_id_changed_name_kept id (db w) c
  \/ offering_id_changed_name_kept id (db w) c ->
  fst (PATCH new_id id req w) = Conflict /\
  status_code (fst (PATCH new_id id req w)) = 409 /\
  db (snd (PATCH new_id id req w)) = db w.
Proof.
  intros Hjson Hbody Hvalid Hfind Hfetch Hcat Hchanged.
  assert (H : PATCH new_id id req w
              = (Conflict,
                 log_request (broker_url (apply_body old body)) w)).
  { unfold PATCH. rewrite Hjson, Hbody, Hvalid, Hfind. simpl.
    pose proof (fetch_catalog_logs (broker_url (apply_body old body))
                  (broker_username (apply_body old body))
                  (broker_password (apply_body old body)) w) as Hlog.
    destruct (fetch_catalog _ _ _ w) as [fetched w1]. simpl in *.
    subst fetched w1. rewrite Hcat. simpl.
    apply InTransaction_rollback. apply patch_transaction_conflict.
    exact Hchanged. }
  rewrite H. repeat split.
Qed.

(** C7 (amended): against an existing broker, a PATCH with a JSON
    content type and a well-formed body sends exactly one request to the
    catalog endpoint of the broker, at the URL the broker has after the
    update; that URL is the stored one when the body names no broker_url,
    as with an empty body.  A PATCH that is refused for its content type
    (UnsupportedMediaType) or for its body (BadRequest: a body that does
    not parse, or one with an invalid field) sends no request to any
    catalog endpoint and writes nothing.  The cases cover every request. *)
Theorem PATCH_fetches_catalog_once (id : string) (req : Request)
    (w : World) (old : BrokerRow) :
  find_broker id (db w) = Some old ->
  (forall body,
     content_type_json req = true ->
     payload req = Some body ->
     valid_patch_body body = true ->
     catalog_requests (snd (PATCH new_id id req w))
       = catalog_requests w
         ++ [catalog_endpoint (broker_url (apply_body old body))] /\
     (body_broker_url body = None ->
      broker_url (apply_body old body) = broker_url old)) /\
  (content_type_json req = false ->
     fst (PATCH new_id id req w) = UnsupportedMediaType /\
     catalog_requests (snd (PATCH new_id id req w)) = catalog_requests w /\
     db (snd (PATCH new_id id req w)) = db w) /\
  (content_type_json req = true ->
     payload req = None
     \/ (exists body, payload req = Some body /\ valid_patch_body body = false) ->
     fst (PATCH new_id id req w) = BadRequest /\
     catalog_requests (snd (PATCH new_id id req w)) = catalog_requests w /\
     db (snd (PATCH new_id id req w)) = db w).
Proof.
  intros Hfind. split; [|split].
  - intros body Hjson Hbody Hvalid. split.
    + unfold PATCH. rewrite Hjson, Hbody, Hvalid, Hfind. simpl.
      pose proof (fetch_catalog_logs (broker_url (apply_body old body))
                    (broker_username (apply_body old body))
                    (broker_password (apply_body old body)) w) as Hlog.
      destruct (fetch_catalog _ _ _ w) as [fetched w1]. simpl in *. subst w1.
      destruct fetched as [failure|catalog]; [reflexivity|].
      destruct (valid_catalog catalog); simpl; [|reflexivity].
      rewrite InTransaction_requests. reflexivity.
    + intros Hurl. unfold apply_body. simpl. rewrite Hurl. reflexivity.
  - intros Hjson. unfold PATCH. rewrite Hjson. simpl.
    split; [reflexivity|]. split; reflexivity.
  - intros Hjson [Hnone | (body & Hbody & Hvalid)]; unfold PATCH;
      rewrite Hjson; simpl.
    + rewrite Hnone. split; [reflexivity|]. split; reflexivity.
    + rewrite Hbody, Hvalid. simpl. split; [reflexivity|]. split; reflexivity.
Qed.

End BrokerFacts.

Section BrokerRuns.
Import broker BrokerSpec.

Lemma PATCH_conflict_on_changed_catalog_id_witness :
  (fst (PATCH sample_new_id "id-0"%string empty_patch world_plan_id_changed)
     = Conflict /\
   status_code (fst (PATCH sample_new_id "id-0"%string empty_patch
                       world_plan_id_changed)) = 409 /\
   db (snd (PATCH sample_new_id "id-0"%string empty_patch world_plan_id_changed))
     = db world_plan_id_changed) /\
  (fst (PATCH sample_new_id "id-0"%string empty_patch world_service_id_changed)
     = Conflict /\
   status_code (fst (PATCH sample_new_id "id-0"%string empty_patch
                       world_service_id_changed)) = 409 /\
   db (snd (PATCH sample_new_id "id-0"%string empty_patch world_service_id_changed))
     = db world_service_id_changed).
Proof.
  split.
  - apply (PATCH_conflict_on_changed_catalog_id sample_new_id "id-0"%string
             empty_patch empty_body world_plan_id_changed row_b1
             catalog_plan_id_changed);
      try reflexivity.
    left.
    exists {| offering_id := "id-1"%string; offering_catalog_id := "svc-1"%string;
              offering_catalog_name := "database"%string;
              offering_broker_id := "id-0"%string |},
           {| plan_row_id := "id-2"%string; plan_catalog_id := "small-id"%string;
              plan_catalog_name := "small"%string; plan_offering_id := "id-1"%string |},
           {| service_id := "svc-1"%string; service_name := "database"%string;
              service_plans :=
                [ {| plan_id := "new-id"%string; plan_name := "small"%string |};
                  {| plan_id := "large-id"%string; plan_name := "large"%string |} ] |},
           {| plan_id := "new-id"%string; plan_name := "small"%string |}.
    split; [reflexivity|]. split; [left; reflexivity|].
    split; [left; reflexivity|]. split; [left; reflexivity|].
    split; [reflexivity|].
    intros p' [<-|[<-|[]]]; discriminate.
  - apply (PATCH_conflict_on_changed_catalog_id sample_new_id "id-0"%string
             empty_patch empty_body world_service_id_changed row_b1
             catalog_service_id_changed);
      try reflexivity.
    right.
    exists {| offering_id := "id-1"%string; offering_catalog_id := "svc-1"%string;
              offering_catalog_name := "database"%string;
              offering_broker_id := "id-0"%string |},
           {| service_id := "new-id"%string; service_name := "database"%string;
              service_plans :=
                [ {| plan_id := "small-id"%string; plan_name := "small"%string |};
                  {| plan_id := "large-id"%string; plan_name := "large"%string |} ] |}.
    split; [left; reflexivity|]. split; [left; reflexivity|].
    split; [reflexivity|].
    intros o' [<-|[]]; discriminate.
Defined.

Lemma DELETE_refused_while_plan_in_use_witness :
  DELETE "id-0"%string world_with_instance
    = (ExistingReferenceEntity, world_with_instance) /\
  status_code (fst (DELETE "id-0"%string world_with_instance)) = 409.
Proof.
  apply (DELETE_refused_while_plan_in_use "id-0"%string world_with_instance row_b1).
  - reflexivity.
  - exists {| plan_row_id := "id-2"%string; plan_catalog_id := "small-id"%string;
              plan_catalog_name := "small"%string; plan_offering_id := "id-1"%string |},
           {| instance_id := "i-1"%string; instance_plan_id := "id-2"%string |}.
    split; [left; reflexivity|]. split; [left; reflexivity | reflexivity].
Defined.

(** C7, as stated, fails: a PATCH against the existing broker [id-0]
    whose content type is not JSON is answered with
    UnsupportedMediaType and no request reaches the catalog endpoint. *)
Lemma PATCH_with_text_body_fetches_nothing :
  find_broker "id-0"%string (db world_registered) <> None /\
  fst (PATCH sample_new_id "id-0"%string text_patch world_registered)
    = UnsupportedMediaType /\
  catalog_requests (snd (PATCH sample_new_id "id-0"%string text_patch
                           world_registered))
    = catalog_requests world_registered.
Proof. split; [discriminate|]. split; reflexivity. Qed.

Lemma PATCH_fetches_catalog_once_witness :
  catalog_requests (snd (PATCH sample_new_id "id-0"%string empty_patch
                           world_registered))
  = catalog_requests world_registered ++ ["http://srv/v2/catalog"%string] /\
  catalog_requests (snd (PATCH sample_new_id "id-0"%string text_patch
                           world_registered))
  = catalog_requests world_registered /\
  catalog_requests (snd (PATCH sample_new_id "id-0"%string malformed_patch
                           world_registered))
  = catalog_requests world_registered /\
  catalog_requests (snd (PATCH sample_new_id "id-0"%string
                           bad_credentials_patch world_registered))
  = catalog_requests world_registered.
Proof.
  split; [|split; [|split]].
  - exact (proj1 (proj1 (PATCH_fetches_catalog_once sample_new_id
                           "id-0"%string empty_patch world_registered row_b1
                           eq_refl)
                    empty_body eq_refl eq_refl eq_refl)).
  - exact (proj1 (proj2 (proj1 (proj2 (PATCH_fetches_catalog_once
                                         sample_new_id "id-0"%string
                                         text_patch world_registered
                                         row_b1 eq_refl))
                           eq_refl))).
  - exact (proj1 (proj2 (proj2 (proj2 (PATCH_fetches_catalog_once
                                         sample_new_id "id-0"%string
                                         malformed_patch world_registered
                                         row_b1 eq_refl))
                           eq_refl (or_introl eq_refl)))).
  - exact (proj1 (proj2 (proj2 (proj2 (PATCH_fetches_catalog_once
                                         sample_new_id "id-0"%string
                                         bad_credentials_patch
                                         world_registered row_b1 eq_refl))
                           eq_refl
                           (or_intror
                              (ex_intro _ _ (conj eq_refl eq_refl)))))).
Defined.

End BrokerRuns.

(* ===================================================================== *)
(** ** More on the settings, filter statements and the platform entity   *)
(* ===================================================================== *)

Section MoreOperationsFacts.
Import operations MoreSpec.

(** X1: [Validate] returns nil exactly when ActionTimeout,
    CleanupInterval, ReconciliationOperationTimeout, ReschedulingInterval
    and PollingInterval are greater than one nanosecond, DefaultPoolSize
    is greater than zero and every pool override has a size greater than
    zero; [Lifespan] is not inspected: changing it never changes the
    result. *)
Theorem Validate_nil_exactly (s : Settings) :
  (Validate s = None <->
   1 < ActionTimeout s /\ 1 < CleanupInterval s /\
   1 < ReconciliationOperationTimeout s /\ 1 < ReschedulingInterval s /\
   1 < PollingInterval s /\ 0 < DefaultPoolSize s /\
   Forall (fun p => 0 < Size p) (Pools s)) /\
  (forall l, Validate (with_Lifespan l s) = Validate s).
Proof.
  split; [|intros l; reflexivity].
  rewrite Validate_nil_iff.
  unfold checked_durations_above_min, pools_positive, minTimePeriod, Nanosecond.
  tauto.
Qed.

Lemma Validate_pools_first_bad (l1 l2 : list PoolSettings) (p : PoolSettings) :
  Forall (fun q => 0 < Size q) l1 -> Size p <= 0 ->
  Validate_pools (l1 ++ p :: l2) = Some (pool_error (Resource p)).
Proof.
  intros Hok Hbad. induction Hok as [|q l1 Hq _ IH]; simpl.
  - unfold PoolSettings_Validate.
    destruct (Z.leb_spec (Size p) 0); [reflexivity | lia].
  - unfold PoolSettings_Validate at 1.
    destruct (Z.leb_spec (Size q) 0); [lia | exact IH].
Qed.

(** X2: when the durations and the default pool size pass, the error of
    [Validate] is the one of the first pool override whose size is not
    greater than zero, and it names the resource of that pool. *)
Theorem Validate_reports_first_bad_pool (s : Settings)
    (l1 l2 : list PoolSettings) (p : PoolSettings) :
  checked_durations_above_min s ->
  0 < DefaultPoolSize s ->
  Pools s = l1 ++ p :: l2 ->
  Forall (fun q => 0 < Size q) l1 ->
  Size p <= 0 ->
  Validate s = Some (pool_error (Resource p)).
Proof.
  intros (H1 & H2 & H3 & H4 & H5) H6 Hpools Hok Hbad. unfold Validate.
  destruct (Z.leb_spec (ActionTimeout s) minTimePeriod); [lia|].
  destruct (Z.leb_spec (CleanupInterval s) minTimePeriod); [lia|].
  destruct (Z.leb_spec (ReconciliationOperationTimeout s) minTimePeriod);
    [lia|].
  destruct (Z.leb_spec (ReschedulingInterval s) minTimePeriod); [lia|].
  destruct (Z.leb_spec (PollingInterval s) minTimePeriod); [lia|].
  destruct (Z.leb_spec (DefaultPoolSize s) 0); [lia|].
  rewrite Hpools. apply Validate_pools_first_bad; assumption.
Qed.

Lemma Validate_reports_first_bad_pool_witness :
  Validate (with_Pools sample_pools DefaultSettings)
  = Some (pool_error "/v1/service_instances"%string).
Proof.
  apply (Validate_reports_first_bad_pool
           (with_Pools sample_pools DefaultSettings)
           [ {| Resource := "/v1/service_brokers"%string; Size := 5 |} ]
           [ {| Resource := "/v1/service_bindings"%string; Size := -1 |} ]
           {| Resource := "/v1/service_instances"%string; Size := 0 |}).
  - unfold checked_durations_above_min. simpl. repeat split; reflexivity.
  - reflexivity.
  - reflexivity.
  - repeat constructor.
  - simpl. lia.
Defined.

End MoreOperationsFacts.

Section FilterStatementFacts.
Import util.

(** X3: a filter statement built by [NewFilterStatement] validates to nil
    exactly when it has at most one right operand or its operation is
    multivalue; the error is returned only for more than one operand with
    a single-value operation; and the call panics exactly when there is
    more than one operand and no operation.  The left operand plays no
    part. *)
Theorem Validate_filter_statement (leftOp : string) (op : option Operation)
    (rightOp : list string) :
  (Validate (NewFilterStatement leftOp op rightOp) = Nil <->
   (List.length rightOp <= 1)%nat
   \/ exists o, op = Some o /\ IsMultivalue o = true) /\
  (Validate (NewFilterStatement leftOp op rightOp)
     = Error "multiple values received for single value operation"%string <->
   (1 < List.length rightOp)%nat
   /\ exists o, op = Some o /\ IsMultivalue o = false) /\
  (Validate (NewFilterStatement leftOp op rightOp) = Panic <->
   (1 < List.length rightOp)%nat /\ op = None).
Proof.
  unfold Validate, NewFilterStatement. simpl.
  destruct (Nat.ltb_spec 1 (List.length rightOp)) as [Hlen|Hlen].
  - destruct op as [o|].
    + destruct (IsMultivalue o) eqn:Em; simpl.
      * split; [|split].
        -- split; [intros _; right; exists o; auto | reflexivity].
        -- split; [discriminate|].
           intros [_ (o' & Ho & Hm)]. inversion Ho; subst. congruence.
        -- split; [discriminate | intros [_ H]; discriminate].
      * split; [|split].
        -- split; [discriminate|].
           intros [H|(o' & Ho & Hm)]; [lia|]. inversion Ho; subst. congruence.
        -- split; [intros _; split; [assumption | exists o; auto]
                  | reflexivity].
        -- split; [discriminate | intros [_ H]; discriminate].
    + split; [|split].
      * split; [discriminate|].
        intros [H|(o' & Ho & _)]; [lia | discriminate].
      * split; [discriminate | intros [_ (o' & Ho & _)]; discriminate].
      * split; [intros _; split; [assumption | reflexivity] | reflexivity].
  - split; [|split].
    + split; [intros _; left; assumption | reflexivity].
    + split; [discriminate | intros [H _]; lia].
    + split; [discriminate | intros [H _]; lia].
Qed.

End FilterStatementFacts.

Section MorePlatformFacts.
Import PlatformSpec MoreSpec.

(** X5: the checksum of the platform [ToObject] returns always has 32
    bytes: the first 32 bytes of the stored checksum, followed by zero
    bytes when the stored one is shorter. *)
Theorem ToObject_checksum_32_bytes (row : postgres.Platform) :
  List.length (object_checksum (postgres.ToObject row)) = 32%nat /\
  exists pad,
    object_checksum (postgres.ToObject row)
      = firstn 32 (postgres.Checksum row) ++ pad /\
    Forall (fun b => b = 0) pad.
Proof.
  change (object_checksum (postgres.ToObject row))
    with (postgres.copy32 (postgres.Checksum row)).
  unfold postgres.copy32. split.
  - rewrite length_app, repeat_length.
    pose proof (firstn_le_length 32 (postgres.Checksum row)). lia.
  - eexists. split; [reflexivity|].
    apply Forall_forall. intros b Hb. apply repeat_spec in Hb. assumption.
Qed.

(** X6: a platform without basic credentials ([Credentials] nil, or
    [Credentials.Basic] nil) is stored with empty user name, empty
    password and no checksum, and comes back from [ToObject] with both
    [Credentials] and [Credentials.Basic] set, the user name and the
    password empty and a checksum of 32 zero bytes: the absence of
    credentials is not kept. *)
Theorem FromObject_without_basic
    (toNullString : string -> postgres.NullString)
    (platform : types.Platform) :
  without_basic platform ->
  exists entity,
    postgres.FromObject toNullString (types.PlatformObject platform)
      = Some entity /\
    postgres.Username entity = ""%string /\ postgres.Password entity = ""%string /\
    postgres.Checksum entity = [] /\
    has_basic (postgres.ToObject entity) ""%string ""%string /\
    object_checksum (postgres.ToObject entity) = repeat 0 32%nat.
Proof.
  intros H. unfold without_basic in H. unfold postgres.FromObject.
  eexists. split; [reflexivity|].
  assert (Hfields :
    forall e : postgres.Platform,
      postgres.Username e = ""%string -> postgres.Password e = ""%string ->
      postgres.Checksum e = [] ->
      postgres.Username e = ""%string /\ postgres.Password e = ""%string /\
      postgres.Checksum e = [] /\
      has_basic (postgres.ToObject e) ""%string ""%string /\
      object_checksum (postgres.ToObject e) = repeat 0 32%nat).
  { intros e Hu Hp Hc. repeat split; try assumption.
    - rewrite <- Hu at 1. rewrite <- Hp at 1. apply ToObject_has_basic.
    - unfold postgres.ToObject, object_checksum. simpl. rewrite Hc.
      reflexivity. }
  destruct (types.Platform_Credentials platform) as [c|].
  - rewrite H.
    destruct (negb (String.eqb (types.Description platform) EmptyString));
      apply Hfields; reflexivity.
  - destruct (negb (String.eqb (types.Description platform) EmptyString));
      apply Hfields; reflexivity.
Qed.

Lemma FromObject_without_basic_witness :
  exists entity,
    postgres.FromObject postgres.toNullString_keep
      (types.PlatformObject platform_without_credentials) = Some entity /\
    postgres.Username entity = ""%string /\ postgres.Password entity = ""%string /\
    postgres.Checksum entity = [] /\
    has_basic (postgres.ToObject entity) ""%string ""%string /\
    object_checksum (postgres.ToObject entity) = repeat 0 32%nat.
Proof.
  apply (FromObject_without_basic postgres.toNullString_keep
           platform_without_credentials).
  exact I.
Defined.

(** X7: a stored row with a non-empty description marked valid and a
    checksum of 32 bytes survives [ToObject] followed by [FromObject]
    unchanged (given that [toNullString] keeps the text it is handed). *)
Theorem ToObject_FromObject_row
    (toNullString : string -> postgres.NullString) (row : postgres.Platform) :
  (forall s, postgres.String_ (toNullString s) = s) ->
  postgres.String_ (postgres.Description row) <> ""%string ->
  postgres.Valid (postgres.Description row) = true ->
  List.length (postgres.Checksum row) = 32%nat ->
  postgres.FromObject toNullString (postgres.ToObject row) = Some row.
Proof.
  intros Hkeep Hne Hvalid Hlen.
  destruct row as [[id created updated seq ready] ty name [descr valid]
                     username password checksum active last].
  simpl in *. subst valid.
  unfold postgres.ToObject, postgres.FromObject. simpl.
  assert (E : String.eqb descr EmptyString = false)
    by (apply String.eqb_neq; assumption).
  rewrite E. simpl. rewrite Hkeep, (copy32_full checksum Hlen). reflexivity.
Qed.

Lemma ToObject_FromObject_row_witness :
  postgres.FromObject postgres.toNullString_keep (postgres.ToObject full_row)
  = Some full_row.
Proof.
  apply (ToObject_FromObject_row postgres.toNullString_keep full_row).
  - intros s. reflexivity.
  - discriminate.
  - reflexivity.
  - reflexivity.
Defined.

End MorePlatformFacts.

(* ===================================================================== *)
(** ** More on the public-plan visibility reconciler                     *)
(* ===================================================================== *)

Section MoreReconcilerFacts.
Import storage interceptors ReconcilerSpec MoreSpec.

Lemma not_found_from (v : types.Visibility) (plats : list types.Platform) :
  forall i,
    snd (platformsAnyMatchesVisibility_from i plats v) = false ->
    platformsAnyMatchesVisibility_from i plats v = (-1, false).
Proof.
  induction plats as [|p plats IH]; intros i H; simpl in *; [reflexivity|].
  destruct (String.eqb (types.PlatformID v) (platform_ID p));
    [discriminate | auto].
Qed.

(** X8: [platformsAnyMatchesVisibility] returns [(-1, false)] when no
    platform has the platform id of the visibility; otherwise it returns
    the index of the first platform with that id, and [true]. *)
Theorem platformsAnyMatchesVisibility_first_match
    (plats : list types.Platform) (v : types.Visibility) :
  (~ In (types.PlatformID v) (platform_ids plats) ->
   platformsAnyMatchesVisibility plats v = (-1, false)) /\
  (In (types.PlatformID v) (platform_ids plats) ->
   exists l1 p l2,
     plats = l1 ++ p :: l2 /\
     platformsAnyMatchesVisibility plats v
       = (Z.of_nat (List.length l1), true) /\
     platform_ID p = types.PlatformID v /\
     Forall (fun q => platform_ID q <> types.PlatformID v) l1).
Proof.
  pose proof (matches_supported v plats) as Hm. split; intros Hin.
  - apply not_found_from. unfold platformsAnyMatchesVisibility in Hm.
    rewrite Hm. apply mem_not_In. assumption.
  - destruct (platformsAnyMatchesVisibility plats v) as [idx m] eqn:E.
    simpl in Hm. subst m.
    assert (Hs : supported_by plats v = true) by (apply mem_In; assumption).
    rewrite Hs in E. apply remove_found_from in E.
    destruct E as (n & l1 & p & l2 & Hi & Hp & Hl & Hq & Hall).
    exists l1, p, l2. split; [assumption|]. split.
    + subst n. f_equal; [lia | assumption].
    + split; [congruence|].
      apply Forall_forall. intros q Hq'. rewrite Forall_forall in Hall.
      specialize (Hall q Hq'). congruence.
Qed.

Lemma platformsAnyMatchesVisibility_first_match_witness :
  platformsAnyMatchesVisibility (platforms Samples.state_mixed)
    (Samples.row "x"%string "zos-1"%string "plan-cf"%string []) = (-1, false) /\
  exists l1 p l2,
    platforms Samples.state_mixed = l1 ++ p :: l2 /\
    platformsAnyMatchesVisibility (platforms Samples.state_mixed)
      (Samples.row "y"%string "cf-2"%string "plan-cf"%string [])
      = (Z.of_nat (List.length l1), true) /\
    platform_ID p = "cf-2"%string /\
    Forall (fun q => platform_ID q <> "cf-2"%string) l1.
Proof.
  split.
  - apply (proj1 (platformsAnyMatchesVisibility_first_match
                    (platforms Samples.state_mixed)
                    (Samples.row "x"%string "zos-1"%string "plan-cf"%string []))).
    simpl. intros [H|[H|[H|[]]]]; discriminate H.
  - apply (proj2 (platformsAnyMatchesVisibility_first_match
                    (platforms Samples.state_mixed)
                    (Samples.row "y"%string "cf-2"%string "plan-cf"%string []))).
    simpl. right. left. reflexivity.
Defined.

(** X9: on success [persistVisibility] takes one result of the random
    source as the id, and the only change to the tables is one row added
    after the others: for the given platform and plan, without labels,
    created and updated at the reading of the clock, and with an id no
    row had. *)
Theorem persistVisibility_adds_one_row (platformID planID brokerID : string)
    (s s' : State) :
  persistVisibility platformID planID brokerID s = inr (tt, s') ->
  exists v,
    uuids s = visibility_ID v :: uuids s' /\
    visibilities s' = visibilities s ++ [v] /\
    ~ In (visibility_ID v) (ids (visibilities s)) /\
    types.PlatformID v = platformID /\
    types.ServicePlanID v = planID /\
    types.Visibility_Labels v = [] /\
    types.CreatedAt (types.Visibility_Base v) = now s /\
    types.UpdatedAt (types.Visibility_Base v) = now s /\
    platforms s' = platforms s.
Proof.
  rewrite persistVisibility_run.
  destruct (uuids s) as [|u rest] eqn:Eu; [discriminate|].
  destruct (query.mem u (ids (visibilities s))) eqn:Em; [discriminate|].
  intros H. inversion H; subst s'. simpl.
  exists (new_visibility u (now s) (next_sequence s) platformID planID).
  repeat split. apply mem_not_In. assumption.
Qed.

Lemma persistVisibility_adds_one_row_witness :
  exists v,
    uuids Samples.state_mixed
      = visibility_ID v :: ["u2"%string; "u3"%string] /\
    visibilities
      (set_visibilities
         (visibilities Samples.state_mixed
          ++ [new_visibility "u1"%string 1000 100 "cf-2"%string "plan-cf"%string])
         Samples.state_mixed)
      = visibilities Samples.state_mixed ++ [v] /\
    ~ In (visibility_ID v) (ids (visibilities Samples.state_mixed)) /\
    types.PlatformID v = "cf-2"%string /\
    types.ServicePlanID v = "plan-cf"%string /\
    types.Visibility_Labels v = [] /\
    types.CreatedAt (types.Visibility_Base v) = 1000 /\
    types.UpdatedAt (types.Visibility_Base v) = 1000 /\
    platforms Samples.state_mixed = platforms Samples.state_mixed.
Proof.
  exact (persistVisibility_adds_one_row "cf-2"%string "plan-cf"%string "broker-1"%string
           Samples.state_mixed
           {| visibilities :=
                visibilities Samples.state_mixed
                ++ [new_visibility "u1"%string 1000 100 "cf-2"%string "plan-cf"%string];
              platforms := platforms Samples.state_mixed;
              next_sequence := 101;
              uuids := ["u2"%string; "u3"%string];
              now := 1000 |} eq_refl).
Defined.

Section MorePlanFacts.

Variable isCatalogPlanPublicFunc : publicPlanProcessor.
Variable supportedPlatforms : types.ServicePlan -> list string.

(** What a successful run over a list of plans keeps. *)
Lemma run_frame (broker : types.ServiceBroker)
    (l : list (types.ServiceOffering * types.ServicePlan)) :
  forall s s1,
    well_formed s ->
    for_each l (run_plan isCatalogPlanPublicFunc supportedPlatforms broker) s
      = inr (tt, s1) ->
    well_formed s1 /\ platforms s1 = platforms s /\
    (forall other, ~ In other (plan_ids l) ->
       plan_rows other s1 = plan_rows other s) /\
    (forall v, In v (visibilities s1) ->
       In v (visibilities s)
       \/ (types.Visibility_Labels v = []
           /\ In (types.ServicePlanID v) (plan_ids l))) /\
    (forall x, In x l ->
       exists b, isCatalogPlanPublicFunc broker (fst x) (snd x) = inr b).
Proof.
  induction l as [|x l IH]; intros s s1 Hwf Hrun.
  - inversion Hrun; subst.
    repeat split; try apply Hwf; auto. intros x [].
  - simpl in Hrun. unfold bind in Hrun. unfold run_plan at 1 in Hrun.
    destruct (resync_plan _ _ broker (fst x) (snd x) s) as [e|[[] s2]] eqn:E;
      [discriminate|].
    destruct (resync_plan_public _ _ _ _ _ _ _ E) as [b Hb].
    destruct (resync_plan_inv _ _ _ _ _ _ _ _ Hwf Hb E)
      as (C & Hv & [_ Hc] & Hwf2 & Hp2 & _ & Hother).
    destruct (IH s2 s1 Hwf2 Hrun) as (Hwf1 & Hp1 & Hrest & Hrows & Hpub).
    split; [assumption|]. split; [congruence|]. split; [|split].
    + intros other Hno. rewrite Hrest.
      * apply Hother. intros ->. apply Hno. left. reflexivity.
      * intros Hin. apply Hno. right. assumption.
    + intros v Hin. destruct (Hrows v Hin) as [Hin2|[Hl Hplan]].
      * rewrite Hv in Hin2. apply in_app_or in Hin2.
        destruct Hin2 as [Hin2|Hin2].
        -- left. unfold without in Hin2. apply filter_In in Hin2. tauto.
        -- right. rewrite Forall_forall in Hc.
           destruct (Hc v Hin2) as [Hl Hplan].
           split; [assumption|]. left. symmetry. assumption.
      * right. split; [assumption|]. right. assumption.
    + intros y [<-|Hy]; [exists b; assumption | apply Hpub; assumption].
Qed.

(** X10: a successful [resync] leaves the platforms as they are, and the
    visibility rows of every plan that is not a plan of the broker. *)
Theorem resync_frame (broker : types.ServiceBroker) (s s1 : State) :
  well_formed s ->
  resync isCatalogPlanPublicFunc supportedPlatforms broker s = inr (tt, s1) ->
  platforms s1 = platforms s /\
  (forall other, ~ In other (plan_ids (broker_plans broker)) ->
     plan_rows other s1 = plan_rows other s).
Proof.
  intros Hwf Hrun. rewrite resync_flat in Hrun.
  destruct (run_frame broker _ s s1 Hwf Hrun) as (_ & Hp & Hother & _).
  split; assumption.
Qed.


(** X12: [resync] never changes a row and never adds a labeled one:
    every row in the table after a successful run either was in the
    table before, as it is, or is an unlabeled row of a plan of the
    broker. *)
Theorem resync_rows_old_or_unlabeled (broker : types.ServiceBroker)
    (s s1 : State) (v : types.Visibility) :
  well_formed s ->
  resync isCatalogPlanPublicFunc supportedPlatforms broker s = inr (tt, s1) ->
  In v (visibilities s1) ->
  In v (visibilities s)
  \/ (types.Visibility_Labels v = []
      /\ In (types.ServicePlanID v) (plan_ids (broker_plans broker))).
Proof.
  intros Hwf Hrun Hin. rewrite resync_flat in Hrun.
  destruct (run_frame broker _ s s1 Hwf Hrun) as (_ & _ & _ & Hrows & _).
  apply Hrows. assumption.
Qed.

Lemma broker_plans_nil (broker : types.ServiceBroker) :
  (forall o, In o (types.Services broker) -> types.Plans o = []) ->
  broker_plans broker = [].
Proof.
  unfold broker_plans.
  induction (types.Services broker) as [|o os IH]; intros H; [reflexivity|].
  simpl. rewrite (H o) by (left; reflexivity). simpl.
  apply IH. intros o' Ho'. apply H. right. assumption.
Qed.

(** X13: for a broker without plans (no offerings, or offerings whose
    plan lists are empty) [resync] returns nil and leaves the tables as
    they are, whatever they hold. *)
Theorem resync_without_plans (broker : types.ServiceBroker) (s : State) :
  (forall o, In o (types.Services broker) -> types.Plans o = []) ->
  resync isCatalogPlanPublicFunc supportedPlatforms broker s = inr (tt, s).
Proof.
  intros H. rewrite resync_flat, (broker_plans_nil broker H). reflexivity.
Qed.

(** X14: [resync] succeeds only if [isCatalogPlanPublicFunc] succeeds on
    every plan of the broker; and when it fails on the first plan,
    [resync] returns that very error. *)
Theorem resync_publicness_errors (broker : types.ServiceBroker) (s : State) :
  (forall r,
     resync isCatalogPlanPublicFunc supportedPlatforms broker s = inr r ->
     forall x, In x (broker_plans broker) ->
       exists b, isCatalogPlanPublicFunc broker (fst x) (snd x) = inr b) /\
  (forall x rest e,
     broker_plans broker = x :: rest ->
     isCatalogPlanPublicFunc broker (fst x) (snd x) = inl e ->
     resync isCatalogPlanPublicFunc supportedPlatforms broker s = inl e).
Proof.
  split.
  - intros r Hrun. rewrite resync_flat in Hrun. revert s Hrun.
    induction (broker_plans broker) as [|y l IH]; intros s Hrun x Hx;
      [destruct Hx|].
    simpl in Hrun. unfold bind in Hrun. unfold run_plan at 1 in Hrun.
    destruct (resync_plan _ _ broker (fst y) (snd y) s) as [e|[[] s2]] eqn:E;
      [discriminate|].
    destruct Hx as [<-|Hx].
    + exact (resync_plan_public _ _ _ _ _ _ _ E).
    + exact (IH s2 Hrun x Hx).
  - intros x rest e Hplans He. rewrite resync_flat, Hplans. simpl.
    unfold bind, run_plan, resync_plan. rewrite He. reflexivity.
Qed.

(** *** The tables a run leaves *)

Lemma filter_nil_forallb {A} (f : A -> bool) (l : list A) :
  filter (fun x => negb (f x)) l = [] -> forallb f l = true.
Proof.
  induction l as [|a l IH]; simpl; [reflexivity|].
  destruct (f a); simpl; [assumption | discriminate].
Qed.

Lemma filter_all_false {A} (f : A -> bool) (l : list A) :
  (forall a, In a l -> f a = false) -> filter f l = [].
Proof.
  induction l as [|a l IH]; intros H; simpl; [reflexivity|].
  rewrite (H a) by (left; reflexivity). apply IH.
  intros b Hb. apply H. right. assumption.
Qed.

Lemma filter_hist_length {A} (keep : list A -> A -> bool) (l : list A) :
  forall h, (List.length (filter_hist keep h l) <= List.length l)%nat.
Proof.
  induction l as [|a l IH]; intros h; simpl; [lia|].
  rewrite length_app. specialize (IH (h ++ [a])).
  destruct (keep h a); simpl; lia.
Qed.

(** When the history filter drops nothing, every element passed the test
    against the elements before it. *)
Lemma filter_hist_all {A} (keep : list A -> A -> bool) (l : list A) :
  forall h,
    filter_hist keep h l = l ->
    forall l1 v l2, l = l1 ++ v :: l2 -> keep (h ++ l1) v = true.
Proof.
  induction l as [|a l IH]; intros h Hall l1 v l2 Hl.
  - destruct l1; discriminate.
  - simpl in Hall. destruct (keep h a) eqn:Ek.
    + simpl in Hall. inversion Hall as [Hrest].
      destruct l1 as [|b l1]; simpl in Hl; inversion Hl; subst.
      * rewrite app_nil_r. assumption.
      * replace (h ++ b :: l1) with ((h ++ [b]) ++ l1)
          by (rewrite <- app_assoc; reflexivity).
        apply (IH (h ++ [b]) Hrest l1 v l2). reflexivity.
    + exfalso. simpl in Hall.
      pose proof (filter_hist_length keep l (h ++ [a])) as Hlen.
      rewrite Hall in Hlen. simpl in Hlen. lia.
Qed.

Lemma existsb_first {A} (f : A -> bool) (l : list A) :
  existsb f l = true ->
  exists l1 x l2,
    l = l1 ++ x :: l2 /\ f x = true /\ (forall y, In y l1 -> f y = false).
Proof.
  induction l as [|a l IH]; simpl; [discriminate|].
  destruct (f a) eqn:Ea.
  - intros _. exists [], a, l. repeat split; auto. intros y [].
  - simpl. intros H. destruct (IH H) as (l1 & x & l2 & Hl & Hx & Hno).
    exists (a :: l1), x, l2. subst. repeat split; auto.
    intros y [<-|Hy]; auto.
Qed.

(** What [settled] says in case B, by position. *)
Lemma settled_caseB (broker : types.ServiceBroker)
    (x : types.ServiceOffering * types.ServicePlan) (s : State) (b : bool) :
  well_formed s ->
  settled isCatalogPlanPublicFunc supportedPlatforms broker x s ->
  isCatalogPlanPublicFunc broker (fst x) (snd x) = inr b ->
  supportedPlatforms (snd x) <> [] ->
  filter_hist
    (keepB b (platforms_of_types (supportedPlatforms (snd x)) s)) []
    (plan_rows (types.ServicePlan_ID (snd x)) s)
  = plan_rows (types.ServicePlan_ID (snd x)) s /\
  (b = true ->
   uncovered (plan_rows (types.ServicePlan_ID (snd x)) s)
     (platforms_of_types (supportedPlatforms (snd x)) s) = []).
Proof.
  intros Hwf (b' & Hb' & Hd & Hc) Hb Hsup.
  rewrite Hb in Hb'. inversion Hb'; subst b'. clear Hb'.
  pose proof (decide_Split b (supportedPlatforms (snd x)) s
                (types.ServicePlan_ID (snd x))) as Hs.
  rewrite Hd in Hs. apply Split_nothing_dropped in Hs.
  unfold decide in *. rewrite (supported_nonempty _ Hsup) in *.
  assert (Hnd : NoDup (platform_ids
                         (platforms_of_types (supportedPlatforms (snd x)) s))).
  { apply NoDup_platform_ids_filter. apply Hwf. }
  destruct (decideB_by_position b
              (plan_rows (types.ServicePlan_ID (snd x)) s) _ Hnd) as [Hk Hcr].
  split; [congruence|].
  intros ->. rewrite Hcr in Hc. unfold platform_ids in Hc.
  apply map_eq_nil in Hc. assumption.
Qed.

(** X15: after a successful [resync], a plan of the broker with an empty
    supported-platforms list has only wildcard rows, and at least one,
    when it is public, and no wildcard row when it is not. *)
Theorem resync_reaches_target_caseA (broker : types.ServiceBroker)
    (s s1 : State) (o : types.ServiceOffering) (p : types.ServicePlan)
    (b : bool) :
  well_formed s ->
  NoDup (plan_ids (broker_plans broker)) ->
  resync isCatalogPlanPublicFunc supportedPlatforms broker s = inr (tt, s1) ->
  In (o, p) (broker_plans broker) ->
  supportedPlatforms p = [] ->
  isCatalogPlanPublicFunc broker o p = inr b ->
  forallb (fun v => if b then wildcard v else negb (wildcard v))
    (plan_rows (types.ServicePlan_ID p) s1) = true /\
  existsb wildcard (plan_rows (types.ServicePlan_ID p) s1) = b.
Proof.
  intros Hwf Hnd Hrun Hin Hsup Hb. rewrite resync_flat in Hrun.
  destruct (first_run _ _ broker _ s s1 Hwf Hnd Hrun) as (_ & _ & Hset & _).
  destruct (Hset (o, p) Hin) as (b' & Hb' & Hd & Hc). simpl in *.
  rewrite Hb in Hb'. inversion Hb'; subst b'. clear Hb'.
  unfold decide in *. rewrite Hsup in *. simpl in Hd, Hc.
  apply filter_nil_forallb in Hd. split; [exact Hd|].
  destruct b.
  - simpl in Hc.
    destruct (existsb wildcard (plan_rows (types.ServicePlan_ID p) s1));
      [reflexivity | discriminate].
  - destruct (existsb wildcard (plan_rows (types.ServicePlan_ID p) s1))
      eqn:Ex; [|reflexivity].
    apply existsb_exists in Ex. destruct Ex as (v & Hv & Hw).
    rewrite forallb_forall in Hd. specialize (Hd v Hv). unfold keepA in Hd.
    rewrite Hw in Hd. discriminate.
Qed.

(** X16: after a successful [resync], a public plan of the broker with a
    non-empty supported-platforms list has exactly one row for every
    platform of a supported type, and all its rows are unlabeled rows for
    such platforms. *)
Theorem resync_reaches_target_caseB_public (broker : types.ServiceBroker)
    (s s1 : State) (o : types.ServiceOffering) (p : types.ServicePlan) :
  well_formed s ->
  NoDup (plan_ids (broker_plans broker)) ->
  resync isCatalogPlanPublicFunc supportedPlatforms broker s = inr (tt, s1) ->
  In (o, p) (broker_plans broker) ->
  supportedPlatforms p <> [] ->
  isCatalogPlanPublicFunc broker o p = inr true ->
  forallb (fun v => unlabeled v
                    && supported_by
                         (platforms_of_types (supportedPlatforms p) s1) v)
    (plan_rows (types.ServicePlan_ID p) s1) = true /\
  (forall q, In q (platforms_of_types (supportedPlatforms p) s1) ->
     exists v,
       filter (targets q) (plan_rows (types.ServicePlan_ID p) s1) = [v]).
Proof.
  intros Hwf Hnd Hrun Hin Hsup Hb. rewrite resync_flat in Hrun.
  destruct (first_run _ _ broker _ s s1 Hwf Hnd Hrun) as (Hwf1 & _ & Hset & _).
  destruct (settled_caseB broker (o, p) s1 true Hwf1 (Hset (o, p) Hin) Hb Hsup)
    as [Hall Hunc].
  simpl in Hall, Hunc. specialize (Hunc eq_refl).
  pose proof (filter_hist_all _ _ [] Hall) as Hkeep. simpl in Hkeep.
  set (rows := plan_rows (types.ServicePlan_ID p) s1) in *.
  set (plats := platforms_of_types (supportedPlatforms p) s1) in *.
  assert (Hrow : forall l1 v l2, rows = l1 ++ v :: l2 ->
            unlabeled v = true /\ supported_by plats v = true /\
            existsb (same_target v) l1 = false).
  { intros l1 v l2 Hl. specialize (Hkeep l1 v l2 Hl). unfold keepB in Hkeep.
    apply andb_true_iff in Hkeep. destruct Hkeep as [Hk H3].
    apply andb_true_iff in Hk. destruct Hk as [H1 H2].
    apply negb_true_iff in H3. auto. }
  split.
  - apply forallb_forall. intros v Hv. apply in_split in Hv.
    destruct Hv as (l1 & l2 & Hl). destruct (Hrow l1 v l2 Hl) as (H1 & H2 & _).
    rewrite H1, H2. reflexivity.
  - intros q Hq.
    assert (Hcov : existsb (covers q) rows = true).
    { destruct (existsb (covers q) rows) eqn:E; [reflexivity|].
      exfalso. assert (Hin' : In q (uncovered rows plats)).
      { unfold uncovered. apply filter_In. split; [assumption|].
        rewrite E. reflexivity. }
      rewrite Hunc in Hin'. destruct Hin'. }
    apply existsb_first in Hcov.
    destruct Hcov as (l1 & v & l2 & Hl & Hv & Hno).
    unfold covers in Hv. apply andb_true_iff in Hv. destruct Hv as [Hu Ht].
    exists v. rewrite Hl, filter_app. simpl. unfold targets at 2.
    rewrite Ht.
    rewrite (filter_all_false (targets q) l1).
    + rewrite (filter_all_false (targets q) l2); [reflexivity|].
      intros w Hw. apply in_split in Hw. destruct Hw as (a & c & Hl2).
      destruct (Hrow (l1 ++ v :: a) w c) as (_ & _ & H3).
      { rewrite Hl, Hl2, <- app_assoc. reflexivity. }
      rewrite existsb_app in H3. apply orb_false_iff in H3.
      destruct H3 as [_ H3]. simpl in H3. apply orb_false_iff in H3.
      destruct H3 as [H3 _]. unfold same_target in H3. rewrite Hu in H3.
      simpl in H3. unfold targets.
      apply String.eqb_eq in Ht. apply String.eqb_neq in H3.
      apply String.eqb_neq. congruence.
    + intros w Hw. pose proof (Hno w Hw) as Hc. unfold covers in Hc.
      apply in_split in Hw. destruct Hw as (a & c & Hl1).
      destruct (Hrow a w (c ++ v :: l2)) as (H1 & _ & _).
      { rewrite Hl, Hl1, <- app_assoc. reflexivity. }
      rewrite H1 in Hc. exact Hc.
Qed.

(** X17: after a successful [resync], a plan of the broker that is not
    public and has a non-empty supported-platforms list has only labeled
    rows, all for platforms of a supported type. *)
Theorem resync_reaches_target_caseB_private (broker : types.ServiceBroker)
    (s s1 : State) (o : types.ServiceOffering) (p : types.ServicePlan) :
  well_formed s ->
  NoDup (plan_ids (broker_plans broker)) ->
  resync isCatalogPlanPublicFunc supportedPlatforms broker s = inr (tt, s1) ->
  In (o, p) (broker_plans broker) ->
  supportedPlatforms p <> [] ->
  isCatalogPlanPublicFunc broker o p = inr false ->
  forallb (fun v => supported_by
                      (platforms_of_types (supportedPlatforms p) s1) v
                    && negb (unlabeled v))
    (plan_rows (types.ServicePlan_ID p) s1) = true.
Proof.
  intros Hwf Hnd Hrun Hin Hsup Hb. rewrite resync_flat in Hrun.
  destruct (first_run _ _ broker _ s s1 Hwf Hnd Hrun) as (Hwf1 & _ & Hset & _).
  destruct (settled_caseB broker (o, p) s1 false Hwf1 (Hset (o, p) Hin) Hb Hsup)
    as [Hall _].
  simpl in Hall. pose proof (filter_hist_all _ _ [] Hall) as Hkeep.
  apply forallb_forall. intros v Hv. apply in_split in Hv.
  destruct Hv as (l1 & l2 & Hl). exact (Hkeep l1 v l2 Hl).
Qed.

(** *** The interceptors *)

(** X19: [OnTxCreate] passes an error of the rest of the chain on as it
    is; when the chain succeeds on a broker, the interceptor returns the
    object the chain returned and leaves tables on which a further
    [resync] of the broker it was given changes nothing. *)
Theorem OnTxCreate_reconciles (f : types.Object -> M types.Object)
    (obj : types.Object) (s : State) :
  (forall e, f obj s = inl e ->
     OnTxCreate isCatalogPlanPublicFunc supportedPlatforms f obj s = inl e) /\
  (forall broker newObject s0 r s1,
     obj = types.ServiceBrokerObject broker ->
     f obj s = inr (newObject, s0) ->
     well_formed s0 ->
     NoDup (plan_ids (broker_plans broker)) ->
     OnTxCreate isCatalogPlanPublicFunc supportedPlatforms f obj s
       = inr (r, s1) ->
     r = newObject /\
     resync isCatalogPlanPublicFunc supportedPlatforms broker s1
       = inr (tt, s1)).
Proof.
  split.
  - intros e He. unfold OnTxCreate, bind. rewrite He. reflexivity.
  - intros broker newObject s0 r s1 -> Hf Hwf Hnd Hrun.
    unfold OnTxCreate, bind in Hrun. rewrite Hf in Hrun.
    unfold ret in Hrun.
    destruct (resync _ _ broker s0) as [e|[[] s2]] eqn:E; [discriminate|].
    inversion Hrun; subst. split; [reflexivity|].
    rewrite resync_flat in *.
    destruct (first_run _ _ broker _ s0 s1 Hwf Hnd E) as (_ & _ & Hset & _).
    apply second_run. assumption.
Qed.

(** X20: [OnTxUpdate] passes an error of the rest of the chain on as it
    is; when the chain returns a broker, the interceptor returns that
    object and reconciles the plans of that broker (not those of the
    objects it was given): a further [resync] of it changes nothing. *)
Theorem OnTxUpdate_reconciles
    (f : types.Object -> types.Object -> M types.Object)
    (oldObj newObj : types.Object) (s : State) :
  (forall e, f oldObj newObj s = inl e ->
     OnTxUpdate isCatalogPlanPublicFunc supportedPlatforms f oldObj newObj s
       = inl e) /\
  (forall broker s0 r s1,
     f oldObj newObj s = inr (types.ServiceBrokerObject broker, s0) ->
     well_formed s0 ->
     NoDup (plan_ids (broker_plans broker)) ->
     OnTxUpdate isCatalogPlanPublicFunc supportedPlatforms f oldObj newObj s
       = inr (r, s1) ->
     r = types.ServiceBrokerObject broker /\
     resync isCatalogPlanPublicFunc supportedPlatforms broker s1
       = inr (tt, s1)).
Proof.
  split.
  - intros e He. unfold OnTxUpdate, bind. rewrite He. reflexivity.
  - intros broker s0 r s1 Hf Hwf Hnd Hrun.
    unfold OnTxUpdate, bind in Hrun. rewrite Hf in Hrun.
    unfold ret in Hrun.
    destruct (resync _ _ broker s0) as [e|[[] s2]] eqn:E; [discriminate|].
    inversion Hrun; subst. split; [reflexivity|].
    rewrite resync_flat in *.
    destruct (first_run _ _ broker _ s0 s1 Hwf Hnd E) as (_ & _ & Hset & _).
    apply second_run. assumption.
Qed.

End MorePlanFacts.

(** *** Concrete runs *)

Import Samples.

Lemma resync_frame_witness :
  platforms state_mixed_resynced = platforms state_mixed /\
  (forall other, ~ In other (plan_ids (broker_plans sample_broker)) ->
     plan_rows other state_mixed_resynced = plan_rows other state_mixed).
Proof.
  apply (resync_frame free_is_public declared_platforms sample_broker
           state_mixed state_mixed_resynced).
  - apply state_of_well_formed. reflexivity.
  - vm_compute. reflexivity.
Defined.


Lemma resync_rows_old_or_unlabeled_witness :
  In (new_visibility "u2"%string 1000 101 "cf-2"%string "plan-cf"%string) (visibilities state_mixed)
  \/ (types.Visibility_Labels (new_visibility "u2"%string 1000 101 "cf-2"%string "plan-cf"%string)
        = []
      /\ In (types.ServicePlanID
               (new_visibility "u2"%string 1000 101 "cf-2"%string "plan-cf"%string))
            (plan_ids (broker_plans sample_broker))).
Proof.
  apply (resync_rows_old_or_unlabeled free_is_public declared_platforms
           sample_broker state_mixed state_mixed_resynced).
  - apply state_of_well_formed. reflexivity.
  - vm_compute. reflexivity.
  - simpl. right. right. left. reflexivity.
Defined.

Lemma resync_without_plans_witness :
  resync free_is_public declared_platforms broker_without_plans state_mixed
  = inr (tt, state_mixed).
Proof.
  apply (resync_without_plans free_is_public declared_platforms
           broker_without_plans state_mixed).
  intros o [<-|[]]. reflexivity.
Defined.

Lemma resync_publicness_errors_witness :
  (forall x, In x (broker_plans sample_broker) ->
     exists b, free_is_public sample_broker (fst x) (snd x) = inr b) /\
  resync paid_fails declared_platforms broker_paid_first state_mixed
  = inl (Failure "cannot tell whether the plan is public"%string).
Proof.
  split.
  - apply (proj1 (resync_publicness_errors free_is_public declared_platforms
                    sample_broker state_mixed) (tt, state_mixed_resynced)).
    vm_compute. reflexivity.
  - apply (proj2 (resync_publicness_errors paid_fails declared_platforms
                    broker_paid_first state_mixed)
             (offering_paid_first, plan_paid) [(offering_paid_first, plan_all)]).
    + reflexivity.
    + reflexivity.
Defined.

Lemma resync_reaches_target_caseA_witness :
  forallb (fun v => if true then wildcard v else negb (wildcard v))
    (plan_rows "plan-all"%string state_mixed_resynced) = true /\
  existsb wildcard (plan_rows "plan-all"%string state_mixed_resynced) = true.
Proof.
  apply (resync_reaches_target_caseA free_is_public declared_platforms
           sample_broker state_mixed state_mixed_resynced offering plan_all
           true).
  - apply state_of_well_formed. reflexivity.
  - apply distinct_NoDup. reflexivity.
  - vm_compute. reflexivity.
  - left. reflexivity.
  - reflexivity.
  - reflexivity.
Defined.

Lemma resync_reaches_target_caseB_public_witness :
  forallb (fun v => unlabeled v
                    && supported_by
                         (platforms_of_types ["cloudfoundry"%string]
                            state_mixed_resynced) v)
    (plan_rows "plan-cf"%string state_mixed_resynced) = true /\
  (forall q, In q (platforms_of_types ["cloudfoundry"%string] state_mixed_resynced) ->
     exists v,
       filter (targets q) (plan_rows "plan-cf"%string state_mixed_resynced) = [v]).
Proof.
  apply (resync_reaches_target_caseB_public free_is_public declared_platforms
           sample_broker state_mixed state_mixed_resynced offering plan_cf).
  - apply state_of_well_formed. reflexivity.
  - apply distinct_NoDup. reflexivity.
  - vm_compute. reflexivity.
  - right. left. reflexivity.
  - discriminate.
  - reflexivity.
Defined.

Lemma resync_reaches_target_caseB_private_witness :
  forallb (fun v => supported_by
                      (platforms_of_types ["cloudfoundry"%string]
                         state_paid_cf_resynced) v
                    && negb (unlabeled v))
    (plan_rows "plan-cf"%string state_paid_cf_resynced) = true.
Proof.
  apply (resync_reaches_target_caseB_private free_is_public
           declared_platforms broker_paid_cf state_mixed
           state_paid_cf_resynced offering_paid_cf plan_paid_cf).
  - apply state_of_well_formed. reflexivity.
  - apply distinct_NoDup. reflexivity.
  - vm_compute. reflexivity.
  - left. reflexivity.
  - discriminate.
  - reflexivity.
Defined.

Lemma OnTxCreate_reconciles_witness :
  OnTxCreate free_is_public declared_platforms refuse
    (types.ServiceBrokerObject sample_broker) state_mixed
    = inl ConflictError /\
  (types.ServiceBrokerObject sample_broker
     = types.ServiceBrokerObject sample_broker /\
   resync free_is_public declared_platforms sample_broker state_mixed_resynced
     = inr (tt, state_mixed_resynced)).
Proof.
  split.
  - apply (proj1 (OnTxCreate_reconciles free_is_public declared_platforms
                    refuse (types.ServiceBrokerObject sample_broker)
                    state_mixed)).
    reflexivity.
  - apply (proj2 (OnTxCreate_reconciles free_is_public declared_platforms
                    pass_on (types.ServiceBrokerObject sample_broker)
                    state_mixed)
             sample_broker (types.ServiceBrokerObject sample_broker)
             state_mixed (types.ServiceBrokerObject sample_broker)
             state_mixed_resynced).
    + reflexivity.
    + reflexivity.
    + apply state_of_well_formed. reflexivity.
    + apply distinct_NoDup. reflexivity.
    + vm_compute. reflexivity.
Defined.

Lemma OnTxUpdate_reconciles_witness :
  OnTxUpdate free_is_public declared_platforms refuse_update
    (types.ServiceBrokerObject broker_without_plans)
    (types.ServiceBrokerObject sample_broker) state_mixed
    = inl ConflictError /\
  (types.ServiceBrokerObject sample_broker
     = types.ServiceBrokerObject sample_broker /\
   resync free_is_public declared_platforms sample_broker state_mixed_resynced
     = inr (tt, state_mixed_resynced)).
Proof.
  split.
  - apply (proj1 (OnTxUpdate_reconciles free_is_public declared_platforms
                    refuse_update
                    (types.ServiceBrokerObject broker_without_plans)
                    (types.ServiceBrokerObject sample_broker) state_mixed)).
    reflexivity.
  - apply (proj2 (OnTxUpdate_reconciles free_is_public declared_platforms
                    pass_on_update
                    (types.ServiceBrokerObject broker_without_plans)
                    (types.ServiceBrokerObject sample_broker) state_mixed)
             sample_broker state_mixed
             (types.ServiceBrokerObject sample_broker) state_mixed_resynced).
    + reflexivity.
    + apply state_of_well_formed. reflexivity.
    + apply distinct_NoDup. reflexivity.
    + vm_compute. reflexivity.
Defined.

End MoreReconcilerFacts.
